(** * OpenVTO playground: store, remote generation client and try-on pipeline

    A shallow embedding of the client-side core of the OpenVTO playground
    application:

    - the zustand store [usePlaygroundStore] (imported by the screens as
      [src/store/playground]; its text is the second part of
      [src/data/mock-data.ts]): entities, selection, bounded generation
      history, persisted subset,
    - [src/services/api.ts] (the remote generation client and the media
      codec helpers),
    - [app/(tabs)/index.tsx] ([handleGenerate], the try-on / video pipeline).

    JavaScript values are modelled at their declared TypeScript types.  The
    one place where the source works on untyped data, the body of a failed
    HTTP response ([error] is [any]), is modelled as an untyped JSON value
    with JavaScript's coercions written out.  Asynchronous code runs on a
    single thread and is modelled by a state-and-exception monad over an
    explicit world (clock, file system, network trace, console, alerts,
    component state, store). *)

From Stdlib Require Import ZArith List String Ascii Bool Lia DecimalString.
From Stdlib Require DecimalZ DecimalPos.
Import ListNotations.
Open Scope list_scope.
Open Scope string_scope.

Set Implicit Arguments.
Set Warnings "-register-all".

(* ================================================================== *)
(** * JavaScript built-ins used by the source *)
(* ================================================================== *)

Module Js.

(** [String(n)] and template interpolation of an integral number below
    [1e21] in magnitude, which the source prints digit by digit (from
    [1e21] on it prints in exponent form). *)
Definition number_toString (n : Z) : string :=
  NilZero.string_of_int (Z.to_int n).

Definition digit36 (d : Z) : ascii :=
  match String.get (Z.to_nat d) "0123456789abcdefghijklmnopqrstuvwxyz" with
  | Some c => c
  | None => "0"%char
  end.

Fixpoint toString36_pos (fuel : nat) (n : Z) (acc : string) : string :=
  match fuel with
  | O => acc
  | S fuel' =>
      let acc' := String (digit36 (n mod 36)) acc in
      if n / 36 =? 0 then acc' else toString36_pos fuel' (n / 36) acc'
  end%Z.

(** [n.toString(36)] for an integral number. *)
Definition toString36 (n : Z) : string :=
  if (n <? 0)%Z
  then "-" ++ toString36_pos (S (Z.to_nat (Z.log2 (- n)))) (- n) ""
  else toString36_pos (S (Z.to_nat (Z.log2 n))) n "".

(** [arr.join(sep)] on an array of strings. *)
Definition join (sep : string) (l : list string) : string :=
  String.concat sep l.

(** [s.split(c)] for a one-character separator. *)
Fixpoint split (c : ascii) (s : string) : list string :=
  match s with
  | EmptyString => [""]
  | String a rest =>
      if Ascii.eqb a c then "" :: split c rest
      else match split c rest with
           | h :: t => String a h :: t
           | [] => [String a ""]
           end
  end.

(** [s.includes(c)] for a one-character needle. *)
Fixpoint includes (c : ascii) (s : string) : bool :=
  match s with
  | EmptyString => false
  | String a rest => Ascii.eqb a c || includes c rest
  end.

Definition startsWith (p s : string) : bool := String.prefix p s.

Fixpoint string_rev (s acc : string) : string :=
  match s with
  | EmptyString => acc
  | String a rest => string_rev rest (String a acc)
  end.

Definition endsWith (p s : string) : bool :=
  String.prefix (string_rev p "") (string_rev s "").

(** [arr.includes(x)] on an array of strings. *)
Definition array_includes (x : string) (l : list string) : bool :=
  existsb (String.eqb x) l.

(** [arr.find(pred)]. *)
Definition array_find {A} (p : A -> bool) (l : list A) : option A := find p l.

(** [arr.slice(0, n)]. *)
Definition slice0 {A} (n : nat) (l : list A) : list A := firstn n l.

(** [a ?? b] at an optional type. *)
Definition nullish {A} (a : option A) (b : A) : A :=
  match a with Some x => x | None => b end.

(** [a ?? b] when [b] is itself optional. *)
Definition nullish_opt {A} (a b : option A) : option A :=
  match a with Some x => Some x | None => b end.

(** Truthiness of a string: the empty string is falsy. *)
Definition truthy_string (s : string) : bool := negb (String.eqb s "").

(** ** Untyped JSON values, as produced by [JSON.parse]

    Numbers are restricted to integral values; an object is the list of
    its own properties, the first binding of a key being the one a lookup
    returns. A property read that yields [undefined] is [None]. *)

Inductive json : Type :=
| JNull
| JBool (b : bool)
| JNum (n : Z)
| JStr (s : string)
| JArr (l : list json)
| JObj (l : list (string * json)).

(** Exceptions: every value thrown in the modelled code is an [Error]
    instance, either a plain [Error] or a [TypeError] raised by the engine
    or by [fetch]. The text of engine-raised messages is engine specific. *)
Inductive Exn : Type :=
| Error (message : string)
| TypeError (message : string).

Definition message (e : Exn) : string :=
  match e with Error m => m | TypeError m => m end.

Fixpoint lookup (k : string) (l : list (string * json)) : option json :=
  match l with
  | [] => None
  | (k', v) :: rest => if String.eqb k k' then Some v else lookup k rest
  end.

(** [v.k], for the keys the source reads ([detail], [message], [msg],
    [loc]); none of them is a built-in property of arrays or primitives.
    Reading a property of [null] raises a [TypeError]. *)
Definition prop (v : json) (k : string) : Exn + option json :=
  match v with
  | JNull => inl (TypeError ("Cannot read property '" ++ k ++ "' of null"))
  | JObj l => inr (lookup k l)
  | _ => inr None
  end.

(** Truthiness of a value or [undefined]. *)
Definition truthy (v : option json) : bool :=
  match v with
  | None => false
  | Some JNull => false
  | Some (JBool b) => b
  | Some (JNum n) => negb (n =? 0)%Z
  | Some (JStr s) => truthy_string s
  | Some (JArr _) => true
  | Some (JObj _) => true
  end.

(** [String(v)]: arrays are joined with [","], [null] elements of an
    array print as the empty string, objects print as
    ["[object Object]"]. *)
Fixpoint toStr (v : json) : string :=
  match v with
  | JNull => "null"
  | JBool true => "true"
  | JBool false => "false"
  | JNum n => number_toString n
  | JStr s => s
  | JArr l =>
      join "," ((fix elems (l : list json) : list string :=
                   match l with
                   | [] => []
                   | JNull :: rest => "" :: elems rest
                   | x :: rest => toStr x :: elems rest
                   end) l)
  | JObj _ => "[object Object]"
  end.

(** Interpolation [`${v}`] of a value or [undefined]. *)
Definition toStr_opt (v : option json) : string :=
  match v with Some x => toStr x | None => "undefined" end.

(** Element conversion of [Array.prototype.join]. *)
Definition join_elem (v : json) : string :=
  match v with JNull => "" | _ => toStr v end.

(** [arr.join(sep)] on an array of values. *)
Definition join_values (sep : string) (l : list json) : string :=
  join sep (map join_elem l).

Definition hex_digit (n : nat) : ascii :=
  match String.get n "0123456789abcdef" with
  | Some c => c
  | None => "0"%char
  end.

(** Escaping of one code unit in [JSON.stringify]. *)
Definition escape_char (c : ascii) : string :=
  let n := nat_of_ascii c in
  if Nat.eqb n 34 then "\" ++ String c ""
  else if Nat.eqb n 92 then "\\"
  else if Nat.eqb n 8 then "\b"
  else if Nat.eqb n 9 then "\t"
  else if Nat.eqb n 10 then "\n"
  else if Nat.eqb n 12 then "\f"
  else if Nat.eqb n 13 then "\r"
  else if Nat.ltb n 32
       then "\u00" ++ String (hex_digit (n / 16)) (String (hex_digit (n mod 16)) "")
       else String c "".

Fixpoint quote_body (s : string) : string :=
  match s with
  | EmptyString => ""
  | String c rest => escape_char c ++ quote_body rest
  end.

Definition dquote : string := String (ascii_of_nat 34) "".

Definition quote (s : string) : string := dquote ++ quote_body s ++ dquote.

(** [JSON.stringify(v)] without indentation. *)
Fixpoint stringify (v : json) : string :=
  match v with
  | JNull => "null"
  | JBool true => "true"
  | JBool false => "false"
  | JNum n => number_toString n
  | JStr s => quote s
  | JArr l =>
      "[" ++ join "," ((fix elems (l : list json) : list string :=
                          match l with
                          | [] => []
                          | x :: rest => stringify x :: elems rest
                          end) l) ++ "]"
  | JObj l =>
      "{" ++ join "," ((fix members (l : list (string * json)) : list string :=
                          match l with
                          | [] => []
                          | (k, x) :: rest =>
                              (quote k ++ ":" ++ stringify x) :: members rest
                          end) l) ++ "}"
  end.

End Js.

(* ================================================================== *)
(** * Entities ([src/types]) *)
(* ================================================================== *)

Module Types.

Inductive ImageSource := camera | gallery | import.

Inductive ClothingCategory :=
| cat_top | cat_bottom | cat_dress | cat_outerwear | cat_accessories
| cat_shoes | cat_full_outfit | cat_shirts | cat_pants | cat_jackets.

Inductive AvatarPerspective := front | back | side_left | side_right | three_quarter.

Inductive AvatarState := clothed | base.

Inductive AnimationType := single_frame | loop | keyframe_sequence.

Inductive GenerationStatus := idle | pending | processing | completed | failed.

Inductive BackgroundType := transparent | white | black | studio | custom.

(** A [Date] is its time value in milliseconds. *)
Definition Date := Z.

Record UserPhoto := {
  photo_id : string;
  photo_createdAt : Date;
  photo_updatedAt : Date;
  photo_uri : string;
  photo_source : ImageSource;
  photo_width : Z;
  photo_height : Z;
  photo_thumbnail : option string
}.

Inductive Fit := tight | regular_fit | loose | oversized.
Inductive GarmentLength := cropped | regular_length | long.

Record ClothingParameters := {
  fit : option Fit;
  param_length : option GarmentLength;
  color : option string;
  pattern : option string;
  material : option string;
  customParams : option (list (string * (string + Z)))
}.

Record ClothingItem := {
  item_id : string;
  item_createdAt : Date;
  item_updatedAt : Date;
  item_name : string;
  item_category : ClothingCategory;
  frontImageUri : string;
  backImageUri : option string;
  item_thumbnail : option string;
  parameters : option ClothingParameters;
  tags : option (list string);
  isLocal : option bool
}.

Record ClothingSet := {
  set_id : string;
  set_createdAt : Date;
  set_updatedAt : Date;
  set_name : string;
  items : list string;
  set_thumbnail : option string
}.

Record Avatar := {
  avatar_id : string;
  avatar_createdAt : Date;
  avatar_updatedAt : Date;
  avatar_name : string;
  sourcePhotoId : string;
  avatar_perspective : AvatarPerspective;
  avatar_state : AvatarState;
  backgroundType : BackgroundType;
  avatar_imageUri : string;
  avatar_thumbnail : option string;
  avatar_status : GenerationStatus;
  avatar_errorMessage : option string
}.

Record TryOnResult := {
  tryon_id : string;
  tryon_createdAt : Date;
  tryon_updatedAt : Date;
  avatarId : string;
  clothingItemIds : list string;
  tryon_perspective : AvatarPerspective;
  tryon_imageUri : string;
  tryon_thumbnail : option string;
  tryon_status : GenerationStatus;
  tryon_errorMessage : option string
}.

Record AnimationKeyframe := {
  frameIndex : Z;
  keyframe_imageUri : string;
  keyframe_perspective : option AvatarPerspective;
  keyframe_timestamp : Z
}.

Record AnimationConfig := {
  config_type : AnimationType;
  keyframes : list AnimationKeyframe;
  duration : Z;
  fps : Z;
  config_loop : bool
}.

Inductive SourceType := from_avatar | from_tryon.

Record AnimationResult := {
  anim_id : string;
  anim_createdAt : Date;
  anim_updatedAt : Date;
  anim_name : string;
  sourceType : SourceType;
  sourceId : string;
  config : AnimationConfig;
  videoUri : option string;
  gifUri : option string;
  anim_status : GenerationStatus;
  anim_errorMessage : option string
}.

End Types.

(* ================================================================== *)
(** * Store state ([src/store/playground]) *)
(* ================================================================== *)

Module StoreState.
Import Types.

Inductive MediaType := image | video.

Record HistoryItem := {
  history_id : string;
  history_type : MediaType;
  history_uri : string;
  history_thumbnail : option string;
  history_timestamp : Z
}.

(** [Omit<HistoryItem, 'id' | 'timestamp'>] *)
Record HistoryInput := {
  in_type : MediaType;
  in_uri : string;
  in_thumbnail : option string
}.

Record PlaygroundState := {
  photos : list UserPhoto;
  selectedPhotoId : option string;
  clothingItems : list ClothingItem;
  clothingSets : list ClothingSet;
  selectedClothingIds : list string;
  avatars : list Avatar;
  selectedAvatarId : option string;
  tryOnResults : list TryOnResult;
  selectedTryOnId : option string;
  animations : list AnimationResult;
  selectedAnimationId : option string;
  generationHistory : list HistoryItem;
  isLoading : bool;
  currentTab : string
}.

Definition initialState : PlaygroundState := {|
  photos := [];
  selectedPhotoId := None;
  clothingItems := [];
  clothingSets := [];
  selectedClothingIds := [];
  avatars := [];
  selectedAvatarId := None;
  tryOnResults := [];
  selectedTryOnId := None;
  animations := [];
  selectedAnimationId := None;
  generationHistory := [];
  isLoading := false;
  currentTab := "photos"
|}.

(** The partial states handed to zustand's [set]: the named slice is
    replaced, every other field is kept. *)
Definition with_selectedClothingIds (v : list string) (s : PlaygroundState) :=
  {| photos := photos s; selectedPhotoId := selectedPhotoId s;
     clothingItems := clothingItems s; clothingSets := clothingSets s;
     selectedClothingIds := v;
     avatars := avatars s; selectedAvatarId := selectedAvatarId s;
     tryOnResults := tryOnResults s; selectedTryOnId := selectedTryOnId s;
     animations := animations s; selectedAnimationId := selectedAnimationId s;
     generationHistory := generationHistory s;
     isLoading := isLoading s; currentTab := currentTab s |}.

Definition with_avatars (v : list Avatar) (s : PlaygroundState) :=
  {| photos := photos s; selectedPhotoId := selectedPhotoId s;
     clothingItems := clothingItems s; clothingSets := clothingSets s;
     selectedClothingIds := selectedClothingIds s;
     avatars := v; selectedAvatarId := selectedAvatarId s;
     tryOnResults := tryOnResults s; selectedTryOnId := selectedTryOnId s;
     animations := animations s; selectedAnimationId := selectedAnimationId s;
     generationHistory := generationHistory s;
     isLoading := isLoading s; currentTab := currentTab s |}.

Definition with_tryOnResults (v : list TryOnResult) (s : PlaygroundState) :=
  {| photos := photos s; selectedPhotoId := selectedPhotoId s;
     clothingItems := clothingItems s; clothingSets := clothingSets s;
     selectedClothingIds := selectedClothingIds s;
     avatars := avatars s; selectedAvatarId := selectedAvatarId s;
     tryOnResults := v; selectedTryOnId := selectedTryOnId s;
     animations := animations s; selectedAnimationId := selectedAnimationId s;
     generationHistory := generationHistory s;
     isLoading := isLoading s; currentTab := currentTab s |}.

Definition with_animations (v : list AnimationResult) (s : PlaygroundState) :=
  {| photos := photos s; selectedPhotoId := selectedPhotoId s;
     clothingItems := clothingItems s; clothingSets := clothingSets s;
     selectedClothingIds := selectedClothingIds s;
     avatars := avatars s; selectedAvatarId := selectedAvatarId s;
     tryOnResults := tryOnResults s; selectedTryOnId := selectedTryOnId s;
     animations := v; selectedAnimationId := selectedAnimationId s;
     generationHistory := generationHistory s;
     isLoading := isLoading s; currentTab := currentTab s |}.

Definition with_generationHistory (v : list HistoryItem) (s : PlaygroundState) :=
  {| photos := photos s; selectedPhotoId := selectedPhotoId s;
     clothingItems := clothingItems s; clothingSets := clothingSets s;
     selectedClothingIds := selectedClothingIds s;
     avatars := avatars s; selectedAvatarId := selectedAvatarId s;
     tryOnResults := tryOnResults s; selectedTryOnId := selectedTryOnId s;
     animations := animations s; selectedAnimationId := selectedAnimationId s;
     generationHistory := v;
     isLoading := isLoading s; currentTab := currentTab s |}.

Definition with_clothing (items : list ClothingItem) (sel : list string)
    (s : PlaygroundState) :=
  {| photos := photos s; selectedPhotoId := selectedPhotoId s;
     clothingItems := items; clothingSets := clothingSets s;
     selectedClothingIds := sel;
     avatars := avatars s; selectedAvatarId := selectedAvatarId s;
     tryOnResults := tryOnResults s; selectedTryOnId := selectedTryOnId s;
     animations := animations s; selectedAnimationId := selectedAnimationId s;
     generationHistory := generationHistory s;
     isLoading := isLoading s; currentTab := currentTab s |}.

(** What [partialize] hands to the storage layer. *)
Record PersistedState := {
  persisted_generationHistory : list HistoryItem;
  persisted_clothingItems : list ClothingItem
}.

End StoreState.

(* ================================================================== *)
(** * HTTP surface of the generation endpoints ([src/services/api.ts]) *)
(* ================================================================== *)

Module Wire.
Import Js.

Record ApiConfig := {
  baseUrl : string;
  apiKey : string
}.

(** The object built by [createFileObject]. *)
Record FileObject := {
  file_uri : string;
  file_type : string;
  file_name : string
}.

Inductive FormValue :=
| Field (value : string)
| File (file : FileObject).

(** A [FormData]: the appended parts, in order. *)
Definition FormData := list (string * FormValue).

(** One [fetch] call. The URL template [`${apiConfig.baseUrl}/generate/...`]
    is kept as its two parts. *)
Record Request := {
  url_base : string;
  url_path : string;
  method : string;
  headers : list (string * string);
  body : FormData
}.

Record Meta := {
  model : string;
  provider : string;
  latency_ms : option Z
}.

Record AvatarGenerationRequest := {
  selfie_b64 : string;
  posture_b64 : string;
  background : option string;
  keep_clothes : option bool
}.

Record AvatarResponse := {
  avatar_image_b64 : string;
  avatar_width : Z;
  avatar_height : Z;
  avatar_meta : option Meta
}.

Record TryOnGenerationRequest := {
  avatar_b64 : string;
  clothes_b64 : list string;
  compose : option bool;
  tryon_seed : option Z
}.

Record TryOnResponse := {
  image_b64 : string;
  clothing_composite_b64 : option string;
  tryon_meta : option Meta
}.

Inductive LoopMode := mode_360 | mode_idle.

Record VideoLoopRequest := {
  video_image_b64 : string;
  mode : option LoopMode;
  seconds : option Z;
  video_seed : option Z
}.

Record VideoLoopResponse := {
  video_b64 : string;
  first_frame_b64 : string;
  duration_seconds : Z;
  video_width : Z;
  video_height : Z;
  video_mode : string;
  video_meta : option Meta
}.

(** A [Response] as the client reads it. [parsed] is the body as JSON
    ([None] when the body is not JSON): it is what [response.json()] and
    [JSON.parse(await response.text())] yield on the error path, where the
    source treats it as [any]. [payload] is the same body at the declared
    result type, read on the success path. *)
Record Response (T : Type) := {
  ok : bool;
  status : Z;
  statusText : string;
  text : string;
  parsed : option json;
  payload : option T
}.

(** Outcome of [FileSystem.downloadAsync]: the promise rejects, or the
    body of the answer is written to the target whatever the status. *)
Inductive DownloadOutcome :=
| DownloadRejected (reason : string)
| Downloaded (download_status : Z) (content_b64 : string).

End Wire.

(* ================================================================== *)
(** * Component state of the try-on screen ([app/(tabs)/index.tsx]) *)
(* ================================================================== *)

Module ScreenState.
Import StoreState.

Record AvatarItem := {
  avatar_item_id : string;
  avatar_item_image : string;
  isDefault : option bool;
  avatar_item_isGenerating : option bool
}.

Record DisplayItem := {
  display_id : string;
  display_image : string;
  backImage : option string;
  display_category : string;
  display_isLocal : option bool
}.

(** The two rest positions of the bottom sheet. *)
Inductive Snap := SNAP_TOP | SNAP_BOTTOM.

(** The [useState] cells read or written by [handleGenerate], and the
    shared value [translateY]. *)
Record Screen := {
  selectedShirt : option string;
  selectedTrousers : option string;
  selectedJacket : option string;
  selectedAvatarId : string;
  avatars : list AvatarItem;
  isGenerating : bool;
  generationMode : MediaType;
  resultUri : option string;
  resultType : MediaType;
  shirts : list DisplayItem;
  trousers : list DisplayItem;
  jackets : list DisplayItem;
  translateY : Snap
}.

Definition setIsGenerating_state (v : bool) (s : Screen) : Screen :=
  {| selectedShirt := selectedShirt s; selectedTrousers := selectedTrousers s;
     selectedJacket := selectedJacket s; selectedAvatarId := selectedAvatarId s;
     avatars := avatars s; isGenerating := v;
     generationMode := generationMode s; resultUri := resultUri s;
     resultType := resultType s; shirts := shirts s; trousers := trousers s;
     jackets := jackets s; translateY := translateY s |}.

Definition setResultUri_state (v : option string) (s : Screen) : Screen :=
  {| selectedShirt := selectedShirt s; selectedTrousers := selectedTrousers s;
     selectedJacket := selectedJacket s; selectedAvatarId := selectedAvatarId s;
     avatars := avatars s; isGenerating := isGenerating s;
     generationMode := generationMode s; resultUri := v;
     resultType := resultType s; shirts := shirts s; trousers := trousers s;
     jackets := jackets s; translateY := translateY s |}.

Definition setResultType_state (v : MediaType) (s : Screen) : Screen :=
  {| selectedShirt := selectedShirt s; selectedTrousers := selectedTrousers s;
     selectedJacket := selectedJacket s; selectedAvatarId := selectedAvatarId s;
     avatars := avatars s; isGenerating := isGenerating s;
     generationMode := generationMode s; resultUri := resultUri s;
     resultType := v; shirts := shirts s; trousers := trousers s;
     jackets := jackets s; translateY := translateY s |}.

Definition setTranslateY_state (v : Snap) (s : Screen) : Screen :=
  {| selectedShirt := selectedShirt s; selectedTrousers := selectedTrousers s;
     selectedJacket := selectedJacket s; selectedAvatarId := selectedAvatarId s;
     avatars := avatars s; isGenerating := isGenerating s;
     generationMode := generationMode s; resultUri := resultUri s;
     resultType := resultType s; shirts := shirts s; trousers := trousers s;
     jackets := jackets s; translateY := v |}.

End ScreenState.

(* ================================================================== *)
(** * The world and the monad of asynchronous code *)
(* ================================================================== *)

Module Runtime.
Import Js Wire.

(** What the program cannot decide: the device's cache directory, the
    remote service behind each generation endpoint ([None]: [fetch]
    rejects), the server behind a download, and native write failures
    ([Some reason]: [writeAsStringAsync] rejects). *)
Record Env := {
  cacheDirectory : option string;
  serveAvatar : Request -> option (Response AvatarResponse);
  serveTryOn : Request -> option (Response TryOnResponse);
  serveVideoLoop : Request -> option (Response VideoLoopResponse);
  download : string -> DownloadOutcome;
  writeFailure : string -> string -> option string
}.

Inductive Logged :=
| LogText (s : string)
| LogError (e : Exn).

Record World := {
  env : Env;
  now : Z;
  entropy : list string;
  apiConfig : ApiConfig;
  files : list (string * string);
  requests : list Request;
  console : list (string * Logged);
  alerts : list (string * string);
  screen : ScreenState.Screen;
  store : StoreState.PlaygroundState
}.

Definition with_now (v : Z) (w : World) : World :=
  {| env := env w; now := v; entropy := entropy w; apiConfig := apiConfig w;
     files := files w; requests := requests w; console := console w;
     alerts := alerts w; screen := screen w; store := store w |}.

Definition with_entropy (v : list string) (w : World) : World :=
  {| env := env w; now := now w; entropy := v; apiConfig := apiConfig w;
     files := files w; requests := requests w; console := console w;
     alerts := alerts w; screen := screen w; store := store w |}.

Definition with_files (v : list (string * string)) (w : World) : World :=
  {| env := env w; now := now w; entropy := entropy w; apiConfig := apiConfig w;
     files := v; requests := requests w; console := console w;
     alerts := alerts w; screen := screen w; store := store w |}.

Definition with_requests (v : list Request) (w : World) : World :=
  {| env := env w; now := now w; entropy := entropy w; apiConfig := apiConfig w;
     files := files w; requests := v; console := console w;
     alerts := alerts w; screen := screen w; store := store w |}.

Definition with_console (v : list (string * Logged)) (w : World) : World :=
  {| env := env w; now := now w; entropy := entropy w; apiConfig := apiConfig w;
     files := files w; requests := requests w; console := v;
     alerts := alerts w; screen := screen w; store := store w |}.

Definition with_alerts (v : list (string * string)) (w : World) : World :=
  {| env := env w; now := now w; entropy := entropy w; apiConfig := apiConfig w;
     files := files w; requests := requests w; console := console w;
     alerts := v; screen := screen w; store := store w |}.

Definition with_screen (v : ScreenState.Screen) (w : World) : World :=
  {| env := env w; now := now w; entropy := entropy w; apiConfig := apiConfig w;
     files := files w; requests := requests w; console := console w;
     alerts := alerts w; screen := v; store := store w |}.

Definition with_store (v : StoreState.PlaygroundState) (w : World) : World :=
  {| env := env w; now := now w; entropy := entropy w; apiConfig := apiConfig w;
     files := files w; requests := requests w; console := console w;
     alerts := alerts w; screen := screen w; store := v |}.

(** ** Completions and the monad *)

Inductive Completion (A : Type) :=
| Return (a : A)
| Throw (e : Exn).
Arguments Return {A} a.
Arguments Throw {A} e.

Definition M (A : Type) := World -> Completion A * World.

Definition ret {A} (a : A) : M A := fun w => (Return a, w).

Definition throw {A} (e : Exn) : M A := fun w => (Throw e, w).

Definition bind {A B} (m : M A) (k : A -> M B) : M B :=
  fun w =>
    match m w with
    | (Return a, w') => k a w'
    | (Throw e, w') => (Throw e, w')
    end.

(** [try { m } catch (e) { handler e }] *)
Definition try_catch {A} (m : M A) (handler : Exn -> M A) : M A :=
  fun w =>
    match m w with
    | (Return a, w') => (Return a, w')
    | (Throw e, w') => handler e w'
    end.

(** [try { m } finally { final }]: the completion of [m] stands unless
    [final] itself throws. *)
Definition try_finally {A} (m : M A) (final : M unit) : M A :=
  fun w =>
    match m w with
    | (c, w') =>
        match final w' with
        | (Return _, w'') => (c, w'')
        | (Throw e, w'') => (Throw e, w'')
        end
    end.

(** [promise.catch(() => fallback)] *)
Definition catch_value {A} (m : M A) (fallback : A) : M A :=
  try_catch m (fun _ => ret fallback).

Definition get : M World := fun w => (Return w, w).

Definition modify (f : World -> World) : M unit := fun w => (Return tt, f w).

Declare Scope monad_scope.
Delimit Scope monad_scope with monad.
Bind Scope monad_scope with M.
Notation "x <- m ;; k" := (bind m (fun x => k))
  (at level 61, m at next level, right associativity) : monad_scope.
Notation "' p <- m ;; k" := (bind m (fun x => let p := x in k))
  (at level 61, p pattern, m at next level, right associativity) : monad_scope.
Notation "m ;; k" := (bind m (fun _ => k))
  (at level 61, right associativity) : monad_scope.
Open Scope monad_scope.

(** [for (const x of xs) await body(x)], collecting nothing. *)
Fixpoint for_each {A} (xs : list A) (body : A -> M unit) : M unit :=
  match xs with
  | [] => ret tt
  | x :: rest => body x ;; for_each rest body
  end.

(** [await Promise.all(xs.map(async x => body(x)))] in the schedule in
    which the callbacks complete one after the other, in index order:
    the result is the array of values, or the first rejection in index
    order. The source starts the callbacks together, so this is one of
    its schedules; the others differ from it only when two callbacks
    touch the same file, as two downloads started within the same
    millisecond do ([temp_<time>.png]). The theorems that go through it
    do not depend on the values the callbacks read: they state what the
    reads leave unchanged, or start from the result of the step that
    follows them. *)
Fixpoint promise_all {A B} (xs : list A) (body : A -> M B) : M (list B) :=
  match xs with
  | [] => ret []
  | x :: rest =>
      fun w =>
        match body x w with
        | (Return b, w') =>
            match promise_all rest body w' with
            | (Return bs, w'') => (Return (b :: bs), w'')
            | (Throw e, w'') => (Throw e, w'')
            end
        | (Throw e, w') =>
            (Throw e, snd (promise_all rest body w'))
        end
  end.

(** ** Primitive effects *)

(** [Date.now()]. The clock is a datum of the world: it does not advance
    while a call runs; time passes between calls. *)
Definition Date_now : M Z := fun w => (Return (now w), w).

(** [Math.random().toString(36).substring(2, 11)]: the next draw. *)
Definition random_suffix : M string :=
  fun w =>
    match entropy w with
    | [] => (Return "", w)
    | r :: rest => (Return r, with_entropy rest w)
    end.

(** [console.error(label, value)] *)
Definition console_error (label : string) (value : Logged) : M unit :=
  modify (fun w => with_console (console w ++ [(label, value)])%list w).

(** [Alert.alert(title, message)] *)
Definition Alert_alert (title msg : string) : M unit :=
  modify (fun w => with_alerts (alerts w ++ [(title, msg)])%list w).

(** [fetch(`${base}${path}`, { method, headers, body })] against one of
    the generation endpoints: the request is recorded in [requests] (the
    trace of [fetch] calls; downloads of [FileSystem.downloadAsync] are
    not part of it), then the service answers or the promise rejects. *)
Definition fetch {T} (serve : Env -> Request -> option (Response T))
    (req : Request) : M (Response T) :=
  fun w =>
    let w' := with_requests (requests w ++ [req])%list w in
    match serve (env w) req with
    | Some r => (Return r, w')
    | None => (Throw (TypeError "Network request failed"), w')
    end.

(** [response.json()] on the success path. *)
Definition response_json {T} (r : Response T) : M T :=
  match payload r with
  | Some v => ret v
  | None => throw (Error "JSON Parse error: Unexpected token")
  end.

(** [response.json()] on the error path. *)
Definition response_json_any {T} (r : Response T) : M json :=
  match parsed r with
  | Some v => ret v
  | None => throw (Error "JSON Parse error: Unexpected token")
  end.

(** *** File system ([expo-file-system/legacy])

    A file is its path and its content in base64. *)

Fixpoint file_lookup (path : string) (fs : list (string * string)) : option string :=
  match fs with
  | [] => None
  | (p, c) :: rest => if String.eqb path p then Some c else file_lookup path rest
  end.

Fixpoint file_remove (path : string) (fs : list (string * string)) :=
  match fs with
  | [] => []
  | (p, c) :: rest =>
      if String.eqb path p then file_remove path rest
      else (p, c) :: file_remove path rest
  end.

Definition file_exists (path : string) (w : World) : bool :=
  match file_lookup path (files w) with Some _ => true | None => false end.

Fixpoint strip_padding (rev : string) : string :=
  match rev with
  | String c rest => if Ascii.eqb c "="%char then strip_padding rest else rev
  | EmptyString => EmptyString
  end.

(** Number of bytes a base64 text decodes to. *)
Definition base64_size (b64 : string) : Z :=
  (Z.of_nat (String.length (strip_padding (string_rev b64 ""))) * 3 / 4)%Z.

Definition writeAsStringAsync (path data : string) : M unit :=
  fun w =>
    match writeFailure (env w) path data with
    | Some reason => (Throw (Error reason), w)
    | None => (Return tt, with_files ((path, data) :: file_remove path (files w)) w)
    end.

Record FileInfo := {
  exists_ : bool;
  size : Z
}.

Definition getInfoAsync (path : string) : M FileInfo :=
  fun w =>
    match file_lookup path (files w) with
    | Some c => (Return {| exists_ := true; size := base64_size c |}, w)
    | None => (Return {| exists_ := false; size := 0 |}, w)
    end.

Definition readAsStringAsync (path : string) : M string :=
  fun w =>
    match file_lookup path (files w) with
    | Some c => (Return c, w)
    | None => (Throw (Error ("File '" ++ path ++ "' is not readable")), w)
    end.

(** [deleteAsync(path, { idempotent: true })] *)
Definition deleteAsync_idempotent (path : string) : M unit :=
  modify (fun w => with_files (file_remove path (files w)) w).

Record DownloadResult := {
  download_uri : string;
  result_status : Z
}.

Definition downloadAsync (uri target : string) : M DownloadResult :=
  fun w =>
    match download (env w) uri with
    | DownloadRejected reason => (Throw (Error reason), w)
    | Downloaded st content =>
        (Return {| download_uri := target; result_status := st |},
         with_files ((target, content) :: file_remove target (files w)) w)
    end.

End Runtime.

(* ================================================================== *)
(** * Store actions ([src/store/playground]) *)
(* ================================================================== *)

Module Store.
Import Js Types StoreState Runtime.

(** zustand's [set((state) => partial)]. *)
Definition set (f : PlaygroundState -> PlaygroundState) : M unit :=
  modify (fun w => with_store (f (store w)) w).

(** [`${Date.now().toString(36)}-${Math.random().toString(36).substring(2, 11)}`] *)
Definition generateId : M string :=
  t <- Date_now ;;
  r <- random_suffix ;;
  ret (toString36 t ++ "-" ++ r).

(** [new Date()] *)
Definition new_Date : M Date := Date_now.

(** ** Clothing selection *)

Definition removeClothingItem (id : string) : M unit :=
  set (fun state =>
    with_clothing
      (filter (fun item => negb (String.eqb (item_id item) id)) (clothingItems state))
      (filter (fun cid => negb (String.eqb cid id)) (selectedClothingIds state))
      state).

Definition selectClothingItem (id : string) : M unit :=
  set (fun state =>
    with_selectedClothingIds
      (if array_includes id (selectedClothingIds state)
       then selectedClothingIds state
       else (selectedClothingIds state ++ [id])%list)
      state).

Definition deselectClothingItem (id : string) : M unit :=
  set (fun state =>
    with_selectedClothingIds
      (filter (fun cid => negb (String.eqb cid id)) (selectedClothingIds state))
      state).

Definition clearClothingSelection : M unit :=
  set (with_selectedClothingIds []).

(** ** Status updates *)

Definition updateAvatarStatus (id : string) (status : GenerationStatus)
    (imageUri error : option string) : M unit :=
  updatedAt <- new_Date ;;
  set (fun state =>
    with_avatars
      (map (fun avatar =>
              if String.eqb (avatar_id avatar) id
              then {| avatar_id := avatar_id avatar;
                      avatar_createdAt := avatar_createdAt avatar;
                      avatar_updatedAt := updatedAt;
                      avatar_name := avatar_name avatar;
                      sourcePhotoId := sourcePhotoId avatar;
                      avatar_perspective := avatar_perspective avatar;
                      avatar_state := avatar_state avatar;
                      backgroundType := backgroundType avatar;
                      avatar_imageUri := nullish imageUri (avatar_imageUri avatar);
                      avatar_thumbnail := avatar_thumbnail avatar;
                      avatar_status := status;
                      avatar_errorMessage := error |}
              else avatar)
           (avatars state))
      state).

Definition updateTryOnStatus (id : string) (status : GenerationStatus)
    (imageUri error : option string) : M unit :=
  updatedAt <- new_Date ;;
  set (fun state =>
    with_tryOnResults
      (map (fun result =>
              if String.eqb (tryon_id result) id
              then {| tryon_id := tryon_id result;
                      tryon_createdAt := tryon_createdAt result;
                      tryon_updatedAt := updatedAt;
                      avatarId := avatarId result;
                      clothingItemIds := clothingItemIds result;
                      tryon_perspective := tryon_perspective result;
                      tryon_imageUri := nullish imageUri (tryon_imageUri result);
                      tryon_thumbnail := tryon_thumbnail result;
                      tryon_status := status;
                      tryon_errorMessage := error |}
              else result)
           (tryOnResults state))
      state).

Definition updateAnimationStatus (id : string) (status : GenerationStatus)
    (videoUri' error : option string) : M unit :=
  updatedAt <- new_Date ;;
  set (fun state =>
    with_animations
      (map (fun anim =>
              if String.eqb (anim_id anim) id
              then {| anim_id := anim_id anim;
                      anim_createdAt := anim_createdAt anim;
                      anim_updatedAt := updatedAt;
                      anim_name := anim_name anim;
                      sourceType := sourceType anim;
                      sourceId := sourceId anim;
                      config := config anim;
                      videoUri := nullish_opt videoUri' (videoUri anim);
                      gifUri := gifUri anim;
                      anim_status := status;
                      anim_errorMessage := error |}
              else anim)
           (animations state))
      state).

(** ** History *)

Definition addToHistory (item : HistoryInput) : M string :=
  id <- generateId ;;
  ts <- Date_now ;;
  let historyItem :=
    {| history_id := id;
       history_type := in_type item;
       history_uri := in_uri item;
       history_thumbnail := in_thumbnail item;
       history_timestamp := ts |} in
  set (fun state =>
    with_generationHistory
      (slice0 50 (historyItem :: generationHistory state))
      state) ;;
  ret id.

Definition removeFromHistory (id : string) : M unit :=
  set (fun state =>
    with_generationHistory
      (filter (fun h => negb (String.eqb (history_id h) id)) (generationHistory state))
      state).

Definition clearHistory : M unit :=
  set (with_generationHistory []).

Definition clearAll : M unit :=
  set (fun _ => initialState).

(** ** Persistence *)

(** [item.isLocal] as a condition: [undefined] and [false] are falsy. *)
Definition isLocal_truthy (item : ClothingItem) : bool :=
  match isLocal item with Some true => true | _ => false end.

Definition partialize (state : PlaygroundState) : PersistedState :=
  {| persisted_generationHistory := generationHistory state;
     persisted_clothingItems := filter isLocal_truthy (clothingItems state) |}.

End Store.

(* ================================================================== *)
(** * Remote generation client and media codec ([src/services/api.ts]) *)
(* ================================================================== *)

Module Api.
Import Js Wire Runtime.

(** Synchronous code that may throw. *)
Definition lift {A} (r : Exn + A) : M A :=
  match r with inl e => throw e | inr a => ret a end.

(** [arr.map(callback)] for a callback that may throw. *)
Fixpoint array_map {A B} (f : A -> Exn + B) (l : list A) : Exn + list B :=
  match l with
  | [] => inr []
  | x :: rest =>
      match f x with
      | inl e => inl e
      | inr y =>
          match array_map f rest with
          | inl e => inl e
          | inr ys => inr (y :: ys)
          end
      end
  end.

(** The header object of the generation calls. *)
Definition api_key_headers (cfg : ApiConfig) : list (string * string) :=
  if truthy_string (apiKey cfg) then [("api-key", apiKey cfg)] else [].

(** [base64.includes(',') ? base64.split(',')[1] : base64] *)
Definition strip_data_uri_prefix (base64 : string) : string :=
  if includes ","%char base64 then nth 1 (split ","%char base64) "" else base64.

Definition base64ToTempFile (base64 filename : string) : M string :=
  let base64Data := strip_data_uri_prefix base64 in
  if negb (truthy_string base64Data)
  then throw (Error ("Invalid base64 data for " ++ filename))
  else
    w <- get ;;
    match cacheDirectory (env w) with
    | None => throw (Error "Cache directory not available")
    | Some tempDir =>
        if negb (truthy_string tempDir)
        then throw (Error "Cache directory not available")
        else
          let normalizedDir :=
            if endsWith "/" tempDir then tempDir else tempDir ++ "/" in
          let filePath := normalizedDir ++ filename in
          writeAsStringAsync filePath base64Data ;;
          fileInfo <- getInfoAsync filePath ;;
          if negb (exists_ fileInfo)
          then throw (Error ("Failed to create temp file: " ++ filePath))
          else ret filePath
    end.

Definition createFileObject (uri name type : string) : FileObject :=
  let finalUri :=
    if negb (startsWith "file://" uri)
       && negb (startsWith "content://" uri)
       && negb (startsWith "http" uri)
    then "file://" ++ uri
    else uri in
  {| file_uri := finalUri; file_type := type; file_name := name |}.

(** [e.loc?.join('.') || fallback] *)
Definition location_of (e : json) (fallback : string) : Exn + string :=
  match prop e "loc" with
  | inl err => inl err
  | inr None => inr fallback
  | inr (Some JNull) => inr fallback
  | inr (Some (JArr l)) =>
      let joined := join_values "." l in
      inr (if truthy_string joined then joined else fallback)
  | inr (Some _) => inl (TypeError "e.loc?.join is not a function")
  end.

(** The callback of [error.detail.map] in [generateAvatar]:
    [`${e.loc?.join('.') || 'field'}: ${e.msg}` || JSON.stringify(e)] *)
Definition avatar_detail_entry (e : json) : Exn + string :=
  match location_of e "field" with
  | inl err => inl err
  | inr location =>
      match prop e "msg" with
      | inl err => inl err
      | inr msg =>
          let line := location ++ ": " ++ toStr_opt msg in
          inr (if truthy_string line then line else stringify e)
      end
  end.

(** The callback of [error.detail.map] in [generateTryOn]. *)
Definition tryon_detail_entry (e : json) : Exn + string :=
  match location_of e "unknown" with
  | inl err => inl err
  | inr location =>
      match prop e "msg" with
      | inl err => inl err
      | inr msg =>
          let message := if truthy msg then toStr_opt msg else "unknown error" in
          inr (location ++ ": " ++ message)
      end
  end.

(** The callback of [error.detail.map] in [generateVideoLoop]:
    [e.msg || JSON.stringify(e)] *)
Definition video_detail_entry (e : json) : Exn + json :=
  match prop e "msg" with
  | inl err => inl err
  | inr msg =>
      inr (match msg with
           | Some v => if truthy msg then v else JStr (stringify e)
           | None => JStr (stringify e)
           end)
  end.

(** The error thrown by [generateAvatar] for a non-ok response. *)
Definition avatar_failure {T} (response : Response T) : M Exn :=
  error <- catch_value (response_json_any response)
             (JObj [("detail", JStr (statusText response))]) ;;
  detail <- lift (prop error "detail") ;;
  match detail with
  | Some (JArr entries) =>
      lines <- lift (array_map avatar_detail_entry entries) ;;
      ret (Error (join "; " lines))
  | Some (JStr reason) => ret (Error reason)
  | _ => ret (Error "Avatar generation failed")
  end.

Definition generateAvatar (request : AvatarGenerationRequest) : M AvatarResponse :=
  t1 <- Date_now ;;
  selfieUri <- base64ToTempFile (selfie_b64 request)
                 ("selfie_" ++ number_toString t1 ++ ".png") ;;
  let formData1 :=
    [("selfie", File (createFileObject selfieUri "selfie.png" "image/png"))] in
  t2 <- Date_now ;;
  postureUri <- base64ToTempFile (posture_b64 request)
                  ("posture_" ++ number_toString t2 ++ ".png") ;;
  let formData :=
    (formData1
      ++ [("posture", File (createFileObject postureUri "posture.png" "image/png"))]
      ++ [("background", Field (nullish (background request) "studio"))]
      ++ [("keep_clothes",
           Field (if nullish (keep_clothes request) false then "true" else "false"))])%list in
  w <- get ;;
  response <- fetch serveAvatar
                {| url_base := baseUrl (apiConfig w);
                   url_path := "/generate/avatar";
                   method := "POST";
                   headers := api_key_headers (apiConfig w);
                   body := formData |} ;;
  if negb (ok response)
  then (e <- avatar_failure response ;; throw e)
  else response_json response.

(** The [for] loop of [generateTryOn] over [request.clothes_b64], from
    [index] on. *)
Fixpoint append_clothes (index : nat) (clothes : list string)
    (formData : FormData) : M FormData :=
  match clothes with
  | [] => ret formData
  | cloth :: rest =>
      t <- Date_now ;;
      let i := number_toString (Z.of_nat index) in
      clothUri <- base64ToTempFile cloth
                    ("cloth_" ++ i ++ "_" ++ number_toString t ++ ".png") ;;
      let clothFile := createFileObject clothUri ("cloth_" ++ i ++ ".png") "image/png" in
      append_clothes (S index) rest (formData ++ [("clothes", File clothFile)])%list
  end.

(** The [try] block of [generateTryOn] that fills the form. *)
Definition prepare_tryon_form (request : TryOnGenerationRequest) : M FormData :=
  t <- Date_now ;;
  avatarUri <- base64ToTempFile (avatar_b64 request)
                 ("avatar_" ++ number_toString t ++ ".png") ;;
  let avatarFile := createFileObject avatarUri "avatar.png" "image/png" in
  formData <- append_clothes 0 (clothes_b64 request) [("avatar", File avatarFile)] ;;
  let formData :=
    (formData
      ++ [("compose", Field (if nullish (compose request) true then "true" else "false"))])%list in
  ret (match tryon_seed request with
       | Some seed => (formData ++ [("seed", Field (number_toString seed))])%list
       | None => formData
       end).

(** The error thrown by [generateTryOn] for a non-ok response. *)
Definition tryon_failure {T} (response : Response T) : M Exn :=
  let errorBody := text response in
  console_error "[API] Error response body:" (LogText errorBody) ;;
  match parsed response with
  | None =>
      ret (Error ("Server error: " ++ number_toString (status response)
                    ++ " " ++ statusText response))
  | Some error =>
      detail <- lift (prop error "detail") ;;
      match detail with
      | Some (JArr entries) =>
          lines <- lift (array_map tryon_detail_entry entries) ;;
          ret (Error (join "; " lines))
      | Some (JStr reason) => ret (Error reason)
      | _ =>
          msg <- lift (prop error "message") ;;
          if truthy msg
          then ret (Error (toStr_opt msg))
          else ret (Error "Try-on generation failed")
      end
  end.

Definition generateTryOn (request : TryOnGenerationRequest) : M TryOnResponse :=
  if negb (truthy_string (avatar_b64 request))
  then throw (Error "Avatar image is required")
  else
  if Nat.eqb (List.length (clothes_b64 request)) 0
  then throw (Error "At least one clothing item is required")
  else
    formData <-
      try_catch (prepare_tryon_form request)
        (fun fileError =>
           console_error "[API] Error preparing files:" (LogError fileError) ;;
           throw (Error ("Failed to prepare files: " ++ message fileError))) ;;
    w <- get ;;
    response <- fetch serveTryOn
                  {| url_base := baseUrl (apiConfig w);
                     url_path := "/generate/tryon";
                     method := "POST";
                     headers := api_key_headers (apiConfig w);
                     body := formData |} ;;
    if negb (ok response)
    then (e <- tryon_failure response ;; throw e)
    else response_json response.

(** The error thrown by [generateVideoLoop] for a non-ok response. *)
Definition video_failure {T} (response : Response T) : M Exn :=
  error <- catch_value (response_json_any response)
             (JObj [("detail", JStr (statusText response))]) ;;
  detail <- lift (prop error "detail") ;;
  match detail with
  | Some (JArr entries) =>
      values <- lift (array_map video_detail_entry entries) ;;
      ret (Error (join_values "; " values))
  | Some (JStr reason) => ret (Error reason)
  | _ => ret (Error "Video loop generation failed")
  end.

Definition generateVideoLoop (request : VideoLoopRequest) : M VideoLoopResponse :=
  t <- Date_now ;;
  imageUri <- base64ToTempFile (video_image_b64 request)
                ("image_" ++ number_toString t ++ ".png") ;;
  let formData :=
    ([("image", File (createFileObject imageUri "image.png" "image/png"))]
      ++ [("mode", Field (match nullish (mode request) mode_360 with
                          | mode_360 => "360"
                          | mode_idle => "idle"
                          end))]
      ++ [("seconds", Field (number_toString (nullish (seconds request) 4%Z)))]
      ++ match video_seed request with
         | Some seed => [("seed", Field (number_toString seed))]
         | None => []
         end)%list in
  w <- get ;;
  response <- fetch serveVideoLoop
                {| url_base := baseUrl (apiConfig w);
                   url_path := "/generate/videoloop";
                   method := "POST";
                   headers := api_key_headers (apiConfig w);
                   body := formData |} ;;
  if negb (ok response)
  then (e <- video_failure response ;; throw e)
  else response_json response.

(** [`${FileSystem.cacheDirectory}`] *)
Definition cacheDirectory_text (w : World) : string :=
  match cacheDirectory (env w) with Some d => d | None => "null" end.

(** The [try] block of [imageUriToBase64] for a remote URL. *)
Definition download_and_encode (uri : string) : M string :=
  t <- Date_now ;;
  w <- get ;;
  let tempFile := cacheDirectory_text w ++ "temp_" ++ number_toString t ++ ".png" in
  downloadResult <- downloadAsync uri tempFile ;;
  if negb (result_status downloadResult =? 200)%Z
  then throw (Error ("Failed to download image: "
                       ++ number_toString (result_status downloadResult)))
  else
    base64 <- readAsStringAsync (download_uri downloadResult) ;;
    deleteAsync_idempotent (download_uri downloadResult) ;;
    ret base64.

Definition imageUriToBase64 (uri : string) : M string :=
  if startsWith "data:" uri
  then
    match nth_error (split ","%char uri) 1 with
    | Some base64Part => ret (if truthy_string base64Part then base64Part else uri)
    | None => ret uri
    end
  else
  if startsWith "file://" uri || startsWith "/" uri
  then readAsStringAsync uri
  else
    try_catch (download_and_encode uri)
      (fun error =>
         console_error "Error converting URI to base64:" (LogError error) ;;
         throw (Error ("Failed to convert image: " ++ message error))).

Definition base64ToDataUri (base64 mimeType : string) : string :=
  "data:" ++ mimeType ++ ";base64," ++ base64.

End Api.

(* ================================================================== *)
(** * The try-on pipeline ([app/(tabs)/index.tsx], [handleGenerate]) *)
(* ================================================================== *)

Module Screen.
Import Js Wire Runtime StoreState ScreenState.

Definition setIsGenerating (v : bool) : M unit :=
  modify (fun w => with_screen (setIsGenerating_state v (screen w)) w).

Definition setResultUri (v : option string) : M unit :=
  modify (fun w => with_screen (setResultUri_state v (screen w)) w).

Definition setResultType (v : MediaType) : M unit :=
  modify (fun w => with_screen (setResultType_state v (screen w)) w).

(** [translateY.value = withSpring(v)] *)
Definition setTranslateY (v : Snap) : M unit :=
  modify (fun w => with_screen (setTranslateY_state v (screen w)) w).

Definition is_set (s : option string) : bool :=
  match s with Some _ => true | None => false end.

Definition canGenerate (r : Screen) : bool :=
  is_set (selectedShirt r) || is_set (selectedTrousers r) || is_set (selectedJacket r).

(** [items.find(i => i.id === selected)] with [selected : string | null]. *)
Definition find_selected (selected : option string) (l : list DisplayItem) :=
  array_find (fun i => match selected with
                       | Some id => String.eqb (display_id i) id
                       | None => false
                       end) l.

(** [[...].filter(item => item !== undefined)] *)
Fixpoint defined {A} (l : list (option A)) : list A :=
  match l with
  | [] => []
  | Some x :: rest => x :: defined rest
  | None :: rest => defined rest
  end.

(** Step 1, "Get Avatar Image". *)
Definition getAvatarImage (r : Screen) : M string :=
  match array_find (fun a => String.eqb (avatar_item_id a) (selectedAvatarId r))
          (avatars r) with
  | None => throw (Error "No avatar selected")
  | Some selectedAvatar => Api.imageUriToBase64 (avatar_item_image selectedAvatar)
  end.

(** Step 2, "Get Clothing Images". *)
Definition getClothingImages (r : Screen) : M (list string) :=
  let selectedItems :=
    defined [find_selected (selectedShirt r) (shirts r);
             find_selected (selectedTrousers r) (trousers r);
             find_selected (selectedJacket r) (jackets r)] in
  promise_all selectedItems (fun item => Api.imageUriToBase64 (display_image item)).

(** Step 4, "If Video Mode, generate video loop": yields the final URI
    and the thumbnail. *)
Definition generateVideo (tryOnResult : TryOnResponse) : M (string * option string) :=
  videoResult <- Api.generateVideoLoop
                   {| video_image_b64 := image_b64 tryOnResult;
                      mode := Some mode_360;
                      seconds := None;
                      video_seed := None |} ;;
  let videoThumbnail :=
    if truthy_string (first_frame_b64 videoResult)
    then Some (Api.base64ToDataUri (first_frame_b64 videoResult) "image/png")
    else None in
  t <- Date_now ;;
  w <- get ;;
  let videoFileName := "vto_video_" ++ number_toString t ++ ".mp4" in
  let videoFilePath := Api.cacheDirectory_text w ++ videoFileName in
  let base64Data := Api.strip_data_uri_prefix (video_b64 videoResult) in
  writeAsStringAsync videoFilePath base64Data ;;
  fileInfo <- getInfoAsync videoFilePath ;;
  if negb (exists_ fileInfo) || (size fileInfo =? 0)%Z
  then throw (Error "Video file was not saved correctly")
  else ret (videoFilePath, videoThumbnail).

(** Step 5, "Update State". *)
Definition updateState (finalUri : string) (finalType : MediaType)
    (videoThumbnail : option string) : M unit :=
  setResultUri (Some finalUri) ;;
  setResultType finalType ;;
  Store.addToHistory {| in_type := finalType;
                        in_uri := finalUri;
                        in_thumbnail := videoThumbnail |} ;;
  setTranslateY SNAP_BOTTOM.

(** Steps 4 and 5: what follows a successful try-on call. *)
Definition afterTryOn (r : Screen) (tryOnResult : TryOnResponse) : M unit :=
  match generationMode r with
  | video =>
      '(finalUri, videoThumbnail) <- generateVideo tryOnResult ;;
      updateState finalUri video videoThumbnail
  | image =>
      updateState (Api.base64ToDataUri (image_b64 tryOnResult) "image/png") image None
  end.

(** The [try] block. *)
Definition tryBlock (r : Screen) : M unit :=
  avatarB64 <- getAvatarImage r ;;
  clothesB64 <- getClothingImages r ;;
  tryOnResult <- Api.generateTryOn
                   {| avatar_b64 := avatarB64;
                      clothes_b64 := clothesB64;
                      compose := None;
                      tryon_seed := None |} ;;
  afterTryOn r tryOnResult.

(** The [catch] block. *)
Definition catchBlock (error : Exn) : M unit :=
  console_error "Generation failed:" (LogError error) ;;
  Alert_alert "Error" "Failed to generate result. Please try again." ;;
  setTranslateY SNAP_TOP.

(** [handleGenerate], as created by the render whose state is [r]: reads
    see [r], writes go to the component's state in the world. *)
Definition handleGenerate (r : Screen) : M unit :=
  if negb (canGenerate r) || isGenerating r
  then ret tt
  else
    setIsGenerating true ;;
    setTranslateY SNAP_BOTTOM ;;
    try_finally (try_catch (tryBlock r) catchBlock) (setIsGenerating false).

(** Number of requests sent so far to the video-loop endpoint. *)
Definition video_calls (w : World) : nat :=
  List.length (filter (fun q => String.eqb (url_path q) "/generate/videoloop")
                 (requests w)).

End Screen.

(* ================================================================== *)
(** * Vocabulary of the properties *)
(* ================================================================== *)

Module Spec.
Import Js Types Wire Runtime StoreState ScreenState.

(** The completion and the final world of a run. *)
Definition outcome {A} (m : M A) (w : World) : Completion A := fst (m w).
Definition after {A} (m : M A) (w : World) : World := snd (m w).

(** A computation leaves an observation [p] of the world as it was. *)
Definition Preserves {X A} (p : World -> X) (m : M A) : Prop :=
  forall w, p (after m w) = p w.

(** Recording a request to the endpoint [path] does not change [p]. *)
Definition blind_to_requests_for {X} (p : World -> X) (path : string) : Prop :=
  forall q w, url_path q = path ->
              p (with_requests (requests w ++ [q])%list w) = p w.

Definition history (w : World) : list HistoryItem := generationHistory (store w).

Definition selection (w : World) : list string := selectedClothingIds (store w).

(** The item [addToHistory] builds in a given world. *)
Definition new_history_item (item : HistoryInput) (w : World) : HistoryItem :=
  {| history_id := toString36 (now w) ++ "-" ++ hd "" (entropy w);
     history_type := in_type item;
     history_uri := in_uri item;
     history_thumbnail := in_thumbnail item;
     history_timestamp := now w |}.

(** Worlds reached from [w0] by calls of [addToHistory], possibly mixed
    with the store's other history actions and with anything that
    leaves the history alone (time passing, other actions, other parts
    of the application). *)
Inductive history_run (w0 : World) : World -> Prop :=
| history_start : history_run w0 w0
| history_add w item :
    history_run w0 w -> history_run w0 (after (Store.addToHistory item) w)
| history_remove w id :
    history_run w0 w -> history_run w0 (after (Store.removeFromHistory id) w)
| history_clear w :
    history_run w0 w -> history_run w0 (after Store.clearHistory w)
| history_clear_all w :
    history_run w0 w -> history_run w0 (after Store.clearAll w)
| history_elsewhere w w' :
    history_run w0 w -> history w' = history w -> history_run w0 w'.

(** Worlds reached from [w0] by the store's selection actions, with
    anything in between that leaves the selection alone. *)
Inductive selection_run (w0 : World) : World -> Prop :=
| selection_start : selection_run w0 w0
| selection_select w id :
    selection_run w0 w -> selection_run w0 (after (Store.selectClothingItem id) w)
| selection_deselect w id :
    selection_run w0 w -> selection_run w0 (after (Store.deselectClothingItem id) w)
| selection_remove w id :
    selection_run w0 w -> selection_run w0 (after (Store.removeClothingItem id) w)
| selection_clear w :
    selection_run w0 w -> selection_run w0 (after Store.clearClothingSelection w)
| selection_clear_all w :
    selection_run w0 w -> selection_run w0 (after Store.clearAll w)
| selection_elsewhere w w' :
    selection_run w0 w -> selection w' = selection w -> selection_run w0 w'.

(** A run ends by throwing. *)
Definition Throws {A} (m : M A) (w : World) : Prop :=
  exists e, outcome m w = Throw e.

(** A computation throws from every world whose environment
    satisfies [P]. *)
Definition ThrowsWhen {A} (P : Env -> Prop) (m : M A) : Prop :=
  forall w, P (env w) -> Throws m w.

(** The completion of a computation does not depend on the world it
    runs in. *)
Definition WorldIndependent {A} (m : M A) : Prop :=
  forall w w', outcome m w = outcome m w'.

(** The error a normalisation ends with: the one it builds, or the one
    it throws on the way. *)
Definition raised (m : M Exn) (w : World) : Exn :=
  match outcome m w with Return e => e | Throw e => e end.

(** Whenever a run of [m] has sent a request and the service [serve]
    answers it with a non-success response [r], the run throws the
    error that [failure] makes of [r]. *)
Definition ThrowsNormalised {T} (serve : Env -> Request -> option (Response T))
    (failure : Response T -> M Exn) (m : M T) : Prop :=
  forall w q r,
    requests (after m w) = (requests w ++ [q])%list ->
    serve (env w) q = Some r ->
    ok r = false ->
    outcome m w = Throw (raised (failure r) w).

(** Every answer of the remote service has a non-success HTTP status. *)
Definition answers_only_failures (e : Env) : Prop :=
  (forall q r, serveAvatar e q = Some r -> ok r = false)
  /\ (forall q r, serveTryOn e q = Some r -> ok r = false)
  /\ (forall q r, serveVideoLoop e q = Some r -> ok r = false).

(** An entry of [error.detail] that the normalisation reads without
    failing: it is not [null], and its [loc], when it has one, is [null]
    or an array. *)
Definition entry_readable (e : json) : bool :=
  match e with
  | JNull => false
  | JObj members =>
      match lookup "loc" members with
      | None | Some JNull | Some (JArr _) => true
      | Some _ => false
      end
  | _ => true
  end.

(** A response body that the normalisation reads without failing: it is
    not JSON, or it is JSON other than [null] and, when its [detail] is
    an array, every entry is readable. *)
Definition body_readable {T} (r : Response T) : bool :=
  match parsed r with
  | None => true
  | Some JNull => false
  | Some (JObj members) =>
      match lookup "detail" members with
      | Some (JArr entries) => forallb entry_readable entries
      | _ => true
      end
  | Some _ => true
  end.

(** ** Status updates: what an updated entity keeps and what it gets *)

Definition avatar_merged (updatedAt : Z) (status : GenerationStatus)
    (imageUri error : option string) (old new : Avatar) : Prop :=
  avatar_status new = status
  /\ avatar_updatedAt new = updatedAt
  /\ avatar_errorMessage new = error
  /\ avatar_imageUri new = match imageUri with
                           | Some u => u
                           | None => avatar_imageUri old
                           end
  /\ avatar_id new = avatar_id old
  /\ avatar_createdAt new = avatar_createdAt old
  /\ avatar_name new = avatar_name old
  /\ sourcePhotoId new = sourcePhotoId old
  /\ avatar_perspective new = avatar_perspective old
  /\ avatar_state new = avatar_state old
  /\ backgroundType new = backgroundType old
  /\ avatar_thumbnail new = avatar_thumbnail old.

Definition tryon_merged (updatedAt : Z) (status : GenerationStatus)
    (imageUri error : option string) (old new : TryOnResult) : Prop :=
  tryon_status new = status
  /\ tryon_updatedAt new = updatedAt
  /\ tryon_errorMessage new = error
  /\ tryon_imageUri new = match imageUri with
                          | Some u => u
                          | None => tryon_imageUri old
                          end
  /\ tryon_id new = tryon_id old
  /\ tryon_createdAt new = tryon_createdAt old
  /\ avatarId new = avatarId old
  /\ clothingItemIds new = clothingItemIds old
  /\ tryon_perspective new = tryon_perspective old
  /\ tryon_thumbnail new = tryon_thumbnail old.

Definition animation_merged (updatedAt : Z) (status : GenerationStatus)
    (uri error : option string) (old new : AnimationResult) : Prop :=
  anim_status new = status
  /\ anim_updatedAt new = updatedAt
  /\ anim_errorMessage new = error
  /\ videoUri new = match uri with
                    | Some u => Some u
                    | None => videoUri old
                    end
  /\ anim_id new = anim_id old
  /\ anim_createdAt new = anim_createdAt old
  /\ anim_name new = anim_name old
  /\ sourceType new = sourceType old
  /\ sourceId new = sourceId old
  /\ config new = config old
  /\ gifUri new = gifUri old.

(** Entity by entity: the ones named [id] are merged, the others are the
    same. *)
Definition updated_where {E} (entity_id : E -> string) (id : string)
    (merged : E -> E -> Prop) (before after_ : list E) : Prop :=
  Forall2 (fun old new =>
             if String.eqb (entity_id old) id then merged old new else new = old)
          before after_.

(** ** Error bodies *)

(** A field-level validation error, as the source types the entries of
    [error.detail]: [{ msg?: string; loc?: string[]; type?: string }]. *)
Record ValidationError := {
  loc : option (list string);
  msg : option string;
  type : option string
}.

Definition optional_member (k : string) (v : option json) : list (string * json) :=
  match v with Some x => [(k, x)] | None => [] end.

(** The JSON object of a validation error. *)
Definition validation_json (v : ValidationError) : json :=
  JObj (optional_member "loc" (option_map (fun l => JArr (map JStr l)) (loc v))
        ++ optional_member "msg" (option_map JStr (msg v))
        ++ optional_member "type" (option_map JStr (type v)))%list.

(** The field path of an entry, or [fallback] when it is missing or
    prints as the empty string. *)
Definition field_path (fallback : string) (v : ValidationError) : string :=
  match loc v with
  | Some l => if String.eqb (join "." l) "" then fallback else join "." l
  | None => fallback
  end.

(** The line [generateTryOn] prints for an entry. *)
Definition tryon_line (v : ValidationError) : string :=
  field_path "unknown" v ++ ": "
  ++ match msg v with
     | Some m => if String.eqb m "" then "unknown error" else m
     | None => "unknown error"
     end.

(** The line [generateAvatar] prints for an entry. *)
Definition avatar_line (v : ValidationError) : string :=
  field_path "field" v ++ ": "
  ++ match msg v with Some m => m | None => "undefined" end.

(** What [generateVideoLoop] prints for an entry: the message alone. *)
Definition video_line (v : ValidationError) : string :=
  match msg v with
  | Some m => if String.eqb m "" then stringify (validation_json v) else m
  | None => stringify (validation_json v)
  end.

(** ** The pipeline *)

(** Steps 1 to 3 of the [try] block: the try-on step. *)
Definition tryOnStep (r : Screen) : M TryOnResponse :=
  avatarB64 <- Screen.getAvatarImage r ;;
  clothesB64 <- Screen.getClothingImages r ;;
  Api.generateTryOn
    {| avatar_b64 := avatarB64;
       clothes_b64 := clothesB64;
       compose := None;
       tryon_seed := None |}.

(** The world in which the [try] block starts. *)
Definition started (w : World) : World :=
  after (Screen.setIsGenerating true ;; Screen.setTranslateY SNAP_BOTTOM) w.

(** The try-on image [image_b64] is kept somewhere the application can
    show it from: as the displayed result, as a history entry, or as a
    completed try-on artifact of the store. *)
Definition tryOnPreserved (image_b64 : string) (w : World) : Prop :=
  let shown := Api.base64ToDataUri image_b64 "image/png" in
  resultUri (screen w) = Some shown
  \/ (exists h, In h (history w) /\ history_uri h = shown)
  \/ (exists t, In t (tryOnResults (store w))
                /\ tryon_status t = completed /\ tryon_imageUri t = shown).

(** A path names a file of the world. *)
Definition temp_file_left (path : string) (w : World) : Prop :=
  file_exists path w = true.

End Spec.

(* ================================================================== *)
(** * Concrete worlds used by the examples *)
(* ================================================================== *)

Module Samples.
Import Js Types Wire Runtime StoreState ScreenState Spec.

(** [{"detail":[{"loc":["clothes"],"msg":"too short"}]}] *)
Definition too_short_body : json :=
  JObj [("detail",
         JArr [JObj [("loc", JArr [JStr "clothes"]); ("msg", JStr "too short")]])].

Definition too_short_text : string :=
  stringify too_short_body.

Definition unprocessable (T : Type) : Response T :=
  {| ok := false; status := 422; statusText := "Unprocessable Entity";
     text := too_short_text; parsed := Some too_short_body; payload := None |}.

(** A 502 whose body is an HTML page, not JSON. *)
Definition bad_gateway (T : Type) : Response T :=
  {| ok := false; status := 502; statusText := "Bad Gateway";
     text := "<html>Bad Gateway</html>"; parsed := None; payload := None |}.

Definition internal_error (T : Type) : Response T :=
  {| ok := false; status := 500; statusText := "Internal Server Error";
     text := "{}"; parsed := Some (JObj []); payload := None |}.

Definition success {T : Type} (v : T) : Response T :=
  {| ok := true; status := 200; statusText := "OK";
     text := ""; parsed := None; payload := Some v |}.

Definition tryon_image : TryOnResponse :=
  {| image_b64 := "QUJD"; clothing_composite_b64 := None; tryon_meta := None |}.

Definition sample_env (avatar : Response AvatarResponse)
    (tryon : Response TryOnResponse) (videoloop : Response VideoLoopResponse)
    (remote_file : DownloadOutcome) : Env :=
  {| cacheDirectory := Some "file:///cache/";
     serveAvatar := fun _ => Some avatar;
     serveTryOn := fun _ => Some tryon;
     serveVideoLoop := fun _ => Some videoloop;
     download := fun _ => remote_file;
     writeFailure := fun _ _ => None |}.

Definition default_avatar : AvatarItem :=
  {| avatar_item_id := "default-1";
     avatar_item_image := "data:image/png;base64,QVZBVEFS";
     isDefault := Some true;
     avatar_item_isGenerating := None |}.

Definition shirt : DisplayItem :=
  {| display_id := "shirts-1";
     display_image := "data:image/png;base64,U0hJUlQ=";
     backImage := None;
     display_category := "shirts";
     display_isLocal := None |}.

(** One shirt selected, default avatar, video mode. *)
Definition video_screen : Screen :=
  {| selectedShirt := Some "shirts-1"; selectedTrousers := None;
     selectedJacket := None; selectedAvatarId := "default-1";
     avatars := [default_avatar]; isGenerating := false;
     generationMode := video; resultUri := None; resultType := image;
     shirts := [shirt]; trousers := []; jackets := [];
     translateY := SNAP_TOP |}.

Definition sample_world (e : Env) (s : PlaygroundState) : World :=
  {| env := e; now := 1700000000000; entropy := ["k3x9q2m1z"];
     apiConfig := {| baseUrl := "http://localhost:8000"; apiKey := "openvto-dev" |};
     files := []; requests := []; console := []; alerts := [];
     screen := video_screen; store := s |}.

(** Every generation endpoint answers 422 with the validation error. *)
Definition world_422 : World :=
  sample_world
    (sample_env (unprocessable _) (unprocessable _) (unprocessable _)
       (Downloaded 200 "QUJD"))
    initialState.

(** Every generation endpoint answers 502 with a body that is not JSON. *)
Definition world_502 : World :=
  sample_world
    (sample_env (bad_gateway _) (bad_gateway _) (bad_gateway _)
       (Downloaded 200 "QUJD"))
    initialState.

(** The try-on succeeds, the video loop answers 500. *)
Definition world_video_500 : World :=
  sample_world
    (sample_env (unprocessable _) (success tryon_image) (internal_error _)
       (Downloaded 200 "QUJD"))
    initialState.

(** The server of remote images answers 404 with a short body. *)
Definition world_404 : World :=
  sample_world
    (sample_env (unprocessable _) (unprocessable _) (unprocessable _)
       (Downloaded 404 "Tm90IEZvdW5k"))
    initialState.

Definition one_garment : TryOnGenerationRequest :=
  {| avatar_b64 := "QVZBVEFS"; clothes_b64 := ["U0hJUlQ="];
     compose := None; tryon_seed := None |}.

Definition no_garment : TryOnGenerationRequest :=
  {| avatar_b64 := "QVZBVEFS"; clothes_b64 := [];
     compose := None; tryon_seed := None |}.

Definition still_image : VideoLoopRequest :=
  {| video_image_b64 := "QUJD"; mode := None; seconds := None; video_seed := None |}.

Definition two_photos : AvatarGenerationRequest :=
  {| selfie_b64 := "U0VMRklF"; posture_b64 := "UE9TVFVSRQ==";
     background := None; keep_clothes := None |}.

Definition remote_image : string := "https://example.com/garment.png".

Definition remote_temp_file : string := "file:///cache/temp_1700000000000.png".

(** Fifty history entries [h0] (newest) to [h49] (oldest). *)
Definition numbered_entry (n : nat) : HistoryItem :=
  {| history_id := "h" ++ number_toString (Z.of_nat n);
     history_type := image;
     history_uri := "data:image/png;base64,QUJD";
     history_thumbnail := None;
     history_timestamp := (1600000000000 - Z.of_nat n)%Z |}.

Definition full_history : list HistoryItem := map numbered_entry (seq 0 50).

Definition world_full_history : World :=
  sample_world
    (sample_env (unprocessable _) (unprocessable _) (unprocessable _)
       (Downloaded 200 "QUJD"))
    (with_generationHistory full_history initialState).

Definition new_entry : HistoryInput :=
  {| in_type := video; in_uri := "file:///cache/vto_video_1.mp4";
     in_thumbnail := Some "data:image/png;base64,RlJBTUU=" |}.

(** A failed avatar with an output and an error message. *)
Definition failed_avatar : Avatar :=
  {| avatar_id := "a1"; avatar_createdAt := 1600000000000%Z;
     avatar_updatedAt := 1600000000500%Z; avatar_name := "Avatar 1";
     sourcePhotoId := ""; avatar_perspective := front; avatar_state := base;
     backgroundType := white; avatar_imageUri := "file:///photos/me.png";
     avatar_thumbnail := None; avatar_status := failed;
     avatar_errorMessage := Some "model overloaded" |}.

Definition world_failed_avatar : World :=
  sample_world
    (sample_env (unprocessable _) (unprocessable _) (unprocessable _)
       (Downloaded 200 "QUJD"))
    (with_avatars [failed_avatar] initialState).

Definition world_two_selected : World :=
  sample_world
    (sample_env (unprocessable _) (unprocessable _) (unprocessable _)
       (Downloaded 200 "QUJD"))
    (with_selectedClothingIds ["c1"; "c2"] initialState).

(** A 500 whose body is the JSON value [null]. *)
Definition null_body (T : Type) : Response T :=
  {| ok := false; status := 500; statusText := "Internal Server Error";
     text := "null"; parsed := Some JNull; payload := None |}.

Definition world_null_500 : World :=
  sample_world
    (sample_env (null_body _) (null_body _) (null_body _) (Downloaded 200 "QUJD"))
    initialState.

End Samples.

(* ================================================================== *)
(** * The other store actions and the selectors ([src/store/playground]) *)
(* ================================================================== *)

Module StoreMore.
Import Js Types StoreState Runtime.

Definition with_photos (v : list UserPhoto) (s : PlaygroundState) : PlaygroundState :=
  {| photos := v; selectedPhotoId := selectedPhotoId s;
     clothingItems := clothingItems s; clothingSets := clothingSets s;
     selectedClothingIds := selectedClothingIds s; avatars := avatars s;
     selectedAvatarId := selectedAvatarId s; tryOnResults := tryOnResults s;
     selectedTryOnId := selectedTryOnId s; animations := animations s;
     selectedAnimationId := selectedAnimationId s;
     generationHistory := generationHistory s; isLoading := isLoading s;
     currentTab := currentTab s |}.

Definition with_selectedPhotoId (v : option string) (s : PlaygroundState) : PlaygroundState :=
  {| photos := photos s; selectedPhotoId := v;
     clothingItems := clothingItems s; clothingSets := clothingSets s;
     selectedClothingIds := selectedClothingIds s; avatars := avatars s;
     selectedAvatarId := selectedAvatarId s; tryOnResults := tryOnResults s;
     selectedTryOnId := selectedTryOnId s; animations := animations s;
     selectedAnimationId := selectedAnimationId s;
     generationHistory := generationHistory s; isLoading := isLoading s;
     currentTab := currentTab s |}.

Definition with_clothingItems (v : list ClothingItem) (s : PlaygroundState) : PlaygroundState :=
  {| photos := photos s; selectedPhotoId := selectedPhotoId s;
     clothingItems := v; clothingSets := clothingSets s;
     selectedClothingIds := selectedClothingIds s; avatars := avatars s;
     selectedAvatarId := selectedAvatarId s; tryOnResults := tryOnResults s;
     selectedTryOnId := selectedTryOnId s; animations := animations s;
     selectedAnimationId := selectedAnimationId s;
     generationHistory := generationHistory s; isLoading := isLoading s;
     currentTab := currentTab s |}.

Definition with_clothingSets (v : list ClothingSet) (s : PlaygroundState) : PlaygroundState :=
  {| photos := photos s; selectedPhotoId := selectedPhotoId s;
     clothingItems := clothingItems s; clothingSets := v;
     selectedClothingIds := selectedClothingIds s; avatars := avatars s;
     selectedAvatarId := selectedAvatarId s; tryOnResults := tryOnResults s;
     selectedTryOnId := selectedTryOnId s; animations := animations s;
     selectedAnimationId := selectedAnimationId s;
     generationHistory := generationHistory s; isLoading := isLoading s;
     currentTab := currentTab s |}.

Definition with_selectedAvatarId (v : option string) (s : PlaygroundState) : PlaygroundState :=
  {| photos := photos s; selectedPhotoId := selectedPhotoId s;
     clothingItems := clothingItems s; clothingSets := clothingSets s;
     selectedClothingIds := selectedClothingIds s; avatars := avatars s;
     selectedAvatarId := v; tryOnResults := tryOnResults s;
     selectedTryOnId := selectedTryOnId s; animations := animations s;
     selectedAnimationId := selectedAnimationId s;
     generationHistory := generationHistory s; isLoading := isLoading s;
     currentTab := currentTab s |}.

Definition with_selectedTryOnId (v : option string) (s : PlaygroundState) : PlaygroundState :=
  {| photos := photos s; selectedPhotoId := selectedPhotoId s;
     clothingItems := clothingItems s; clothingSets := clothingSets s;
     selectedClothingIds := selectedClothingIds s; avatars := avatars s;
     selectedAvatarId := selectedAvatarId s; tryOnResults := tryOnResults s;
     selectedTryOnId := v; animations := animations s;
     selectedAnimationId := selectedAnimationId s;
     generationHistory := generationHistory s; isLoading := isLoading s;
     currentTab := currentTab s |}.

Definition with_selectedAnimationId (v : option string) (s : PlaygroundState) : PlaygroundState :=
  {| photos := photos s; selectedPhotoId := selectedPhotoId s;
     clothingItems := clothingItems s; clothingSets := clothingSets s;
     selectedClothingIds := selectedClothingIds s; avatars := avatars s;
     selectedAvatarId := selectedAvatarId s; tryOnResults := tryOnResults s;
     selectedTryOnId := selectedTryOnId s; animations := animations s;
     selectedAnimationId := v; generationHistory := generationHistory s;
     isLoading := isLoading s; currentTab := currentTab s |}.

Definition with_isLoading (v : bool) (s : PlaygroundState) : PlaygroundState :=
  {| photos := photos s; selectedPhotoId := selectedPhotoId s;
     clothingItems := clothingItems s; clothingSets := clothingSets s;
     selectedClothingIds := selectedClothingIds s; avatars := avatars s;
     selectedAvatarId := selectedAvatarId s; tryOnResults := tryOnResults s;
     selectedTryOnId := selectedTryOnId s; animations := animations s;
     selectedAnimationId := selectedAnimationId s;
     generationHistory := generationHistory s; isLoading := v;
     currentTab := currentTab s |}.

Definition with_currentTab (v : string) (s : PlaygroundState) : PlaygroundState :=
  {| photos := photos s; selectedPhotoId := selectedPhotoId s;
     clothingItems := clothingItems s; clothingSets := clothingSets s;
     selectedClothingIds := selectedClothingIds s; avatars := avatars s;
     selectedAvatarId := selectedAvatarId s; tryOnResults := tryOnResults s;
     selectedTryOnId := selectedTryOnId s; animations := animations s;
     selectedAnimationId := selectedAnimationId s;
     generationHistory := generationHistory s; isLoading := isLoading s;
     currentTab := v |}.

(** ** Inputs of the create actions ([Omit<_, 'id' | 'createdAt' | 'updatedAt'>]) *)

Record ClothingItemInput := {
  new_item_name : string;
  new_item_category : ClothingCategory;
  new_frontImageUri : string;
  new_backImageUri : option string;
  new_item_thumbnail : option string;
  new_parameters : option ClothingParameters;
  new_tags : option (list string);
  new_isLocal : option bool
}.

Record AvatarInput := {
  new_avatar_name : string;
  new_sourcePhotoId : string;
  new_avatar_perspective : AvatarPerspective;
  new_avatar_state : AvatarState;
  new_backgroundType : BackgroundType;
  new_avatar_imageUri : string;
  new_avatar_thumbnail : option string;
  new_avatar_status : GenerationStatus;
  new_avatar_errorMessage : option string
}.

Record TryOnInput := {
  new_avatarId : string;
  new_clothingItemIds : list string;
  new_tryon_perspective : AvatarPerspective;
  new_tryon_imageUri : string;
  new_tryon_thumbnail : option string;
  new_tryon_status : GenerationStatus;
  new_tryon_errorMessage : option string
}.

Record AnimationInput := {
  new_anim_name : string;
  new_sourceType : SourceType;
  new_sourceId : string;
  new_config : AnimationConfig;
  new_videoUri : option string;
  new_gifUri : option string;
  new_anim_status : GenerationStatus;
  new_anim_errorMessage : option string
}.

(** [id === pointer] for a pointer of type [string | null]. *)
Definition points_to (pointer : option string) (id : string) : bool :=
  match pointer with Some p => String.eqb p id | None => false end.

(** [pointer === id ? null : pointer] *)
Definition cleared_if (pointer : option string) (id : string) : option string :=
  if points_to pointer id then None else pointer.

(** ** Photos *)

Definition addPhoto (uri : string) (source : ImageSource) (width height : Z)
    : M string :=
  id <- Store.generateId ;;
  now <- Store.new_Date ;;
  let photo :=
    {| photo_id := id; photo_createdAt := now; photo_updatedAt := now;
       photo_uri := uri; photo_source := source;
       photo_width := width; photo_height := height;
       photo_thumbnail := None |} in
  Store.set (fun state => with_photos (photos state ++ [photo])%list state) ;;
  ret id.

Definition removePhoto (id : string) : M unit :=
  Store.set (fun state =>
    with_selectedPhotoId (cleared_if (selectedPhotoId state) id)
      (with_photos
         (filter (fun p => negb (String.eqb (photo_id p) id)) (photos state))
         state)).

Definition selectPhoto (id : option string) : M unit :=
  Store.set (with_selectedPhotoId id).

(** ** Clothing *)

Definition addClothingItem (item : ClothingItemInput) : M string :=
  id <- Store.generateId ;;
  now <- Store.new_Date ;;
  let clothingItem :=
    {| item_id := id; item_createdAt := now; item_updatedAt := now;
       item_name := new_item_name item;
       item_category := new_item_category item;
       frontImageUri := new_frontImageUri item;
       backImageUri := new_backImageUri item;
       item_thumbnail := new_item_thumbnail item;
       parameters := new_parameters item;
       tags := new_tags item;
       isLocal := new_isLocal item |} in
  Store.set (fun state =>
    with_clothingItems (clothingItems state ++ [clothingItem])%list state) ;;
  ret id.

Definition createClothingSet (name : string) (itemIds : list string) : M string :=
  id <- Store.generateId ;;
  now <- Store.new_Date ;;
  let clothingSet :=
    {| set_id := id; set_createdAt := now; set_updatedAt := now;
       set_name := name; items := itemIds; set_thumbnail := None |} in
  Store.set (fun state =>
    with_clothingSets (clothingSets state ++ [clothingSet])%list state) ;;
  ret id.

Definition removeClothingSet (id : string) : M unit :=
  Store.set (fun state =>
    with_clothingSets
      (filter (fun s => negb (String.eqb (set_id s) id)) (clothingSets state))
      state).

(** ** Avatars *)

Definition addAvatar (avatar : AvatarInput) : M string :=
  id <- Store.generateId ;;
  now <- Store.new_Date ;;
  let newAvatar :=
    {| avatar_id := id; avatar_createdAt := now; avatar_updatedAt := now;
       avatar_name := new_avatar_name avatar;
       sourcePhotoId := new_sourcePhotoId avatar;
       avatar_perspective := new_avatar_perspective avatar;
       avatar_state := new_avatar_state avatar;
       backgroundType := new_backgroundType avatar;
       avatar_imageUri := new_avatar_imageUri avatar;
       avatar_thumbnail := new_avatar_thumbnail avatar;
       avatar_status := new_avatar_status avatar;
       avatar_errorMessage := new_avatar_errorMessage avatar |} in
  Store.set (fun state => with_avatars (avatars state ++ [newAvatar])%list state) ;;
  ret id.

Definition removeAvatar (id : string) : M unit :=
  Store.set (fun state =>
    with_selectedAvatarId (cleared_if (selectedAvatarId state) id)
      (with_avatars
         (filter (fun a => negb (String.eqb (avatar_id a) id)) (avatars state))
         state)).

Definition selectAvatar (id : option string) : M unit :=
  Store.set (with_selectedAvatarId id).

(** ** Try-on results *)

Definition addTryOnResult (result : TryOnInput) : M string :=
  id <- Store.generateId ;;
  now <- Store.new_Date ;;
  let tryOnResult :=
    {| tryon_id := id; tryon_createdAt := now; tryon_updatedAt := now;
       avatarId := new_avatarId result;
       clothingItemIds := new_clothingItemIds result;
       tryon_perspective := new_tryon_perspective result;
       tryon_imageUri := new_tryon_imageUri result;
       tryon_thumbnail := new_tryon_thumbnail result;
       tryon_status := new_tryon_status result;
       tryon_errorMessage := new_tryon_errorMessage result |} in
  Store.set (fun state =>
    with_tryOnResults (tryOnResults state ++ [tryOnResult])%list state) ;;
  ret id.

Definition removeTryOnResult (id : string) : M unit :=
  Store.set (fun state =>
    with_selectedTryOnId (cleared_if (selectedTryOnId state) id)
      (with_tryOnResults
         (filter (fun r => negb (String.eqb (tryon_id r) id)) (tryOnResults state))
         state)).

Definition selectTryOn (id : option string) : M unit :=
  Store.set (with_selectedTryOnId id).

(** ** Animations *)

Definition addAnimation (animation : AnimationInput) : M string :=
  id <- Store.generateId ;;
  now <- Store.new_Date ;;
  let newAnimation :=
    {| anim_id := id; anim_createdAt := now; anim_updatedAt := now;
       anim_name := new_anim_name animation;
       sourceType := new_sourceType animation;
       sourceId := new_sourceId animation;
       config := new_config animation;
       videoUri := new_videoUri animation;
       gifUri := new_gifUri animation;
       anim_status := new_anim_status animation;
       anim_errorMessage := new_anim_errorMessage animation |} in
  Store.set (fun state =>
    with_animations (animations state ++ [newAnimation])%list state) ;;
  ret id.

Definition removeAnimation (id : string) : M unit :=
  Store.set (fun state =>
    with_selectedAnimationId (cleared_if (selectedAnimationId state) id)
      (with_animations
         (filter (fun a => negb (String.eqb (anim_id a) id)) (animations state))
         state)).

Definition selectAnimation (id : option string) : M unit :=
  Store.set (with_selectedAnimationId id).

(** ** UI flags *)

Definition setLoading (loading : bool) : M unit :=
  Store.set (with_isLoading loading).

Definition setCurrentTab (tab : string) : M unit :=
  Store.set (with_currentTab tab).

(** ** Selectors *)

Definition selectSelectedPhoto (state : PlaygroundState) : option UserPhoto :=
  array_find (fun p => points_to (selectedPhotoId state) (photo_id p)) (photos state).

Definition selectSelectedClothing (state : PlaygroundState) : list ClothingItem :=
  filter (fun item => array_includes (item_id item) (selectedClothingIds state))
    (clothingItems state).

Definition selectSelectedAvatar (state : PlaygroundState) : option Avatar :=
  array_find (fun a => points_to (selectedAvatarId state) (avatar_id a)) (avatars state).

End StoreMore.

(* ================================================================== *)
(** * Configuration and assets API ([src/services/api.ts]) *)
(* ================================================================== *)

Module ApiMore.
Import Js Wire Runtime.

Definition with_apiConfig (v : ApiConfig) (w : World) : World :=
  {| env := env w; now := now w; entropy := entropy w; apiConfig := v;
     files := files w; requests := requests w; console := console w;
     alerts := alerts w; screen := screen w; store := store w |}.

(** The argument of [configureAPI]: [{ baseUrl?: string; apiKey?: string }]. *)
Record ApiConfigPatch := {
  patch_baseUrl : option string;
  patch_apiKey : option string
}.

(** [apiConfig = { ...apiConfig, ...config }] *)
Definition configureAPI (config : ApiConfigPatch) : M unit :=
  modify (fun w =>
    with_apiConfig
      {| baseUrl := nullish (patch_baseUrl config) (baseUrl (apiConfig w));
         apiKey := nullish (patch_apiKey config) (apiKey (apiConfig w)) |}
      w).

(** The URL builders read the module's configuration; they are
    functions of the world they are called in. *)
Definition getAPIBaseUrl (w : World) : string := baseUrl (apiConfig w).

Inductive View := view_front | view_back.

Definition view_name (v : View) : string :=
  match v with view_front => "front" | view_back => "back" end.

Inductive PersonKind := kind_posture | kind_selfie.

Definition kind_name (k : PersonKind) : string :=
  match k with kind_posture => "posture" | kind_selfie => "selfie" end.

(** [`${apiConfig.baseUrl}/assets/clothes/${category}/${itemId}/${view}`] *)
Definition getClothingImageUrl (category : string) (itemId : Z) (view : View)
    (w : World) : string :=
  baseUrl (apiConfig w) ++ "/assets/clothes/" ++ category ++ "/"
    ++ number_toString itemId ++ "/" ++ view_name view.

Definition getPersonImageUrl (personId : Z) (kind : PersonKind) (w : World) : string :=
  baseUrl (apiConfig w) ++ "/assets/people/" ++ number_toString personId
    ++ "/" ++ kind_name kind.

Definition getAvatarImageUrl (avatarId : Z) (w : World) : string :=
  baseUrl (apiConfig w) ++ "/assets/avatars/" ++ number_toString avatarId.

Record ClothingCategoriesResponse := {
  categories : list string
}.

Record ClothingItemsResponse := {
  response_category : string;
  indices : list Z;
  views : list string
}.

(** The asset endpoints of the remote service ([None]: [fetch] rejects). *)
Record Assets := {
  serveCategories : Request -> option (Response ClothingCategoriesResponse);
  serveItems : Request -> option (Response ClothingItemsResponse)
}.

(** [fetch(url)]: a GET without headers or body. *)
Definition get_request (base path : string) : Request :=
  {| url_base := base; url_path := path; method := "GET";
     headers := []; body := [] |}.

Section AssetCalls.
Variable assets : Assets.

Definition getClothingCategories : M (list string) :=
  w <- get ;;
  response <- fetch (fun _ => serveCategories assets)
                (get_request (baseUrl (apiConfig w)) "/assets/clothes/categories") ;;
  if negb (ok response)
  then throw (Error ("Failed to fetch categories: " ++ statusText response))
  else
    data <- response_json response ;;
    ret (categories data).

Definition getClothingItems (category : string) : M ClothingItemsResponse :=
  w <- get ;;
  response <- fetch (fun _ => serveItems assets)
                (get_request (baseUrl (apiConfig w)) ("/assets/clothes/" ++ category)) ;;
  if negb (ok response)
  then throw (Error ("Failed to fetch items for " ++ category ++ ": "
                       ++ statusText response))
  else response_json response.

End AssetCalls.

End ApiMore.

(* ================================================================== *)
(** * The other handlers of the screens ([app/(tabs)/index.tsx], [avatar.tsx]) *)
(* ================================================================== *)

Module Handlers.
Import Js Types Wire Runtime StoreState ScreenState.

(** ** Setters of the try-on screen's lists and selections *)

Definition with_selections (shirt trousers_ jacket : option string) (s : Screen) :=
  {| selectedShirt := shirt; selectedTrousers := trousers_;
     selectedJacket := jacket; selectedAvatarId := selectedAvatarId s;
     avatars := avatars s; isGenerating := isGenerating s;
     generationMode := generationMode s; resultUri := resultUri s;
     resultType := resultType s; shirts := shirts s; trousers := trousers s;
     jackets := jackets s; translateY := translateY s |}.

Definition with_lists (shirts_ trousers_ jackets_ : list DisplayItem) (s : Screen) :=
  {| selectedShirt := selectedShirt s; selectedTrousers := selectedTrousers s;
     selectedJacket := selectedJacket s; selectedAvatarId := selectedAvatarId s;
     avatars := avatars s; isGenerating := isGenerating s;
     generationMode := generationMode s; resultUri := resultUri s;
     resultType := resultType s; shirts := shirts_; trousers := trousers_;
     jackets := jackets_; translateY := translateY s |}.

Definition with_avatar_items (items : list AvatarItem) (selected : string) (s : Screen) :=
  {| selectedShirt := selectedShirt s; selectedTrousers := selectedTrousers s;
     selectedJacket := selectedJacket s; selectedAvatarId := selected;
     avatars := items; isGenerating := isGenerating s;
     generationMode := generationMode s; resultUri := resultUri s;
     resultType := resultType s; shirts := shirts s; trousers := trousers s;
     jackets := jackets s; translateY := translateY s |}.

Definition update_screen (f : Screen -> Screen) : M unit :=
  modify (fun w => with_screen (f (screen w)) w).

Definition setShirts (f : list DisplayItem -> list DisplayItem) : M unit :=
  update_screen (fun s => with_lists (f (shirts s)) (trousers s) (jackets s) s).

Definition setTrousers (f : list DisplayItem -> list DisplayItem) : M unit :=
  update_screen (fun s => with_lists (shirts s) (f (trousers s)) (jackets s) s).

Definition setJackets (f : list DisplayItem -> list DisplayItem) : M unit :=
  update_screen (fun s => with_lists (shirts s) (trousers s) (f (jackets s)) s).

Definition setSelectedShirt (v : option string) : M unit :=
  update_screen (fun s => with_selections v (selectedTrousers s) (selectedJacket s) s).

Definition setSelectedTrousers (v : option string) : M unit :=
  update_screen (fun s => with_selections (selectedShirt s) v (selectedJacket s) s).

Definition setSelectedJacket (v : option string) : M unit :=
  update_screen (fun s => with_selections (selectedShirt s) (selectedTrousers s) v s).

Definition setAvatars (f : list AvatarItem -> list AvatarItem) : M unit :=
  update_screen (fun s => with_avatar_items (f (avatars s)) (selectedAvatarId s) s).

Definition setSelectedAvatarId (v : string) : M unit :=
  update_screen (fun s => with_avatar_items (avatars s) v s).

(** [item.isLocal] as a condition. *)
Definition display_local (i : DisplayItem) : bool :=
  match display_isLocal i with Some true => true | _ => false end.

(** The string of a [ClothingCategory]. *)
Definition category_name (c : ClothingCategory) : string :=
  match c with
  | cat_top => "top" | cat_bottom => "bottom" | cat_dress => "dress"
  | cat_outerwear => "outerwear" | cat_accessories => "accessories"
  | cat_shoes => "shoes" | cat_full_outfit => "full_outfit"
  | cat_shirts => "shirts" | cat_pants => "pants" | cat_jackets => "jackets"
  end.

(** The three branches [category === 'shirts'], ['pants'], ['jackets']. *)
Definition by_category {A} (category : string) (on_shirts on_pants on_jackets other : A) : A :=
  if String.eqb category "shirts" then on_shirts
  else if String.eqb category "pants" then on_pants
  else if String.eqb category "jackets" then on_jackets
  else other.

(** ** Local garments *)

(** [saveItem], for a [category] that is a [ClothingCategory] (the value
    the source casts it to). *)
Definition saveItem (category : ClothingCategory) (frontUri : string)
    (backUri : option string) : M unit :=
  t <- Date_now ;;
  let newItem :=
    {| display_id := "local-" ++ number_toString t;
       display_image := frontUri;
       backImage := backUri;
       display_category := category_name category;
       display_isLocal := Some true |} in
  StoreMore.addClothingItem
    {| StoreMore.new_item_name := "My " ++ category_name category;
       StoreMore.new_item_category := category;
       StoreMore.new_frontImageUri := frontUri;
       StoreMore.new_backImageUri := backUri;
       StoreMore.new_item_thumbnail := None;
       StoreMore.new_parameters := None;
       StoreMore.new_tags := None;
       StoreMore.new_isLocal := Some true |} ;;
  by_category (category_name category)
    (setShirts (cons newItem) ;; setSelectedShirt (Some (display_id newItem)))
    (setTrousers (cons newItem) ;; setSelectedTrousers (Some (display_id newItem)))
    (setJackets (cons newItem) ;; setSelectedJacket (Some (display_id newItem)))
    (ret tt).

(** [prev => prev.some(i => i.id === item.id) ? prev : [displayItem, ...prev]] *)
Definition add_unless_present (displayItem : DisplayItem)
    (prev : list DisplayItem) : list DisplayItem :=
  if existsb (fun i => String.eqb (display_id i) (display_id displayItem)) prev
  then prev
  else displayItem :: prev.

(** The callback of [localItems.forEach] in the effect "Load stored
    local clothing items". *)
Definition showStoredItem (item : ClothingItem) : M unit :=
  let displayItem :=
    {| display_id := item_id item;
       display_image := frontImageUri item;
       backImage := backImageUri item;
       display_category := category_name (item_category item);
       display_isLocal := Some true |} in
  by_category (category_name (item_category item))
    (setShirts (add_unless_present displayItem))
    (setTrousers (add_unless_present displayItem))
    (setJackets (add_unless_present displayItem))
    (ret tt).

(** The effect "Load stored local clothing items", run with the store's
    [clothingItems]. *)
Definition showStoredLocalItems (storedClothingItems : list ClothingItem) : M unit :=
  for_each (filter Store.isLocal_truthy storedClothingItems) showStoredItem.

(** [selected === item.id] for a selection of type [string | null]. *)
Definition is_selected (selected : option string) (id : string) : bool :=
  StoreMore.points_to selected id.

(** The state cells of the preview modal. *)
Record Preview := {
  previewItem : option DisplayItem;
  previewShowBack : bool
}.

(** The [onPress] of the "Delete" button of [handleDeleteLocalItem], as
    created by the render whose state is [r]; yields the preview state
    it sets. *)
Definition deleteLocalItem_confirmed (r : Screen) (item : DisplayItem) : M Preview :=
  Store.removeClothingItem (display_id item) ;;
  let keep := filter (fun i => negb (String.eqb (display_id i) (display_id item))) in
  by_category (display_category item)
    (setShirts keep ;;
     if is_selected (selectedShirt r) (display_id item)
     then setSelectedShirt None else ret tt)
    (setTrousers keep ;;
     if is_selected (selectedTrousers r) (display_id item)
     then setSelectedTrousers None else ret tt)
    (setJackets keep ;;
     if is_selected (selectedJacket r) (display_id item)
     then setSelectedJacket None else ret tt)
    (ret tt) ;;
  ret {| previewItem := None; previewShowBack := false |}.

(** ** Avatars of the try-on screen *)

(** [avatar?.isDefault] as a condition. *)
Definition is_default (a : option AvatarItem) : bool :=
  match a with
  | Some item => match isDefault item with Some true => true | _ => false end
  | None => false
  end.

(** The [onPress] of the "Delete" button of [handleDeleteAvatar]. *)
Definition deleteAvatar_confirmed (r : Screen) (avatarId : string) : M unit :=
  setAvatars (filter (fun a => negb (String.eqb (avatar_item_id a) avatarId))) ;;
  if String.eqb (selectedAvatarId r) avatarId
  then setSelectedAvatarId "default-1"
  else ret tt.

(** [handleDeleteAvatar]: shows an alert; when it is the confirmation
    dialog, yields the action of its "Delete" button. *)
Definition handleDeleteAvatar (r : Screen) (avatarId : string) : M (option (M unit)) :=
  let avatar :=
    array_find (fun a => String.eqb (avatar_item_id a) avatarId) (avatars r) in
  if is_default avatar
  then
    Alert_alert "Cannot Delete" "Default avatar cannot be deleted." ;;
    ret None
  else
    Alert_alert "Delete Avatar" "Are you sure?" ;;
    ret (Some (deleteAvatar_confirmed r avatarId)).

(** The state cells of the avatar creation modal. *)
Record AvatarModal := {
  showAvatarModal : bool;
  avatarSelfie : option string;
  avatarPosture : option string;
  isCreatingAvatar : bool
}.

Definition handleStartAvatarCreation (m : AvatarModal) : AvatarModal :=
  {| showAvatarModal := true; avatarSelfie := None; avatarPosture := None;
     isCreatingAvatar := isCreatingAvatar m |}.

(** [!uri] for a cell of type [string | null]. *)
Definition missing (uri : option string) : bool :=
  match uri with Some u => negb (truthy_string u) | None => true end.

(** The [try] block of [handleCreateAvatar]; yields the modal state it
    sets. *)
Definition createAvatar (selfie posture : string) (m : AvatarModal) : M AvatarModal :=
  selfieB64 <- Api.imageUriToBase64 selfie ;;
  postureB64 <- Api.imageUriToBase64 posture ;;
  result <- Api.generateAvatar
              {| selfie_b64 := selfieB64;
                 posture_b64 := postureB64;
                 background := Some "studio";
                 keep_clothes := Some false |} ;;
  t <- Date_now ;;
  let newAvatar :=
    {| avatar_item_id := "avatar-" ++ number_toString t;
       avatar_item_image := Api.base64ToDataUri (avatar_image_b64 result) "image/png";
       isDefault := None;
       avatar_item_isGenerating := None |} in
  setAvatars (fun prev => prev ++ [newAvatar])%list ;;
  setSelectedAvatarId (avatar_item_id newAvatar) ;;
  Alert_alert "Success" "Avatar created successfully!" ;;
  ret {| showAvatarModal := false; avatarSelfie := None; avatarPosture := None;
         isCreatingAvatar := isCreatingAvatar m |}.

(** [handleCreateAvatar], as created by the render whose modal state is
    [m]; yields the modal state after the [finally] block. *)
Definition handleCreateAvatar (m : AvatarModal) : M AvatarModal :=
  if missing (avatarSelfie m) || missing (avatarPosture m)
  then
    Alert_alert "Missing Images" "Please add both selfie and posture images." ;;
    ret m
  else
    m' <- try_catch (createAvatar (nullish (avatarSelfie m) "")
                       (nullish (avatarPosture m) "") m)
            (fun error =>
               console_error "Avatar creation failed:" (LogError error) ;;
               Alert_alert "Error" (message error) ;;
               ret m) ;;
    ret {| showAvatarModal := showAvatarModal m';
           avatarSelfie := avatarSelfie m';
           avatarPosture := avatarPosture m';
           isCreatingAvatar := false |}.

(** ** Catalogue *)

(** The state cells of the catalogue load. *)
Record LoadState := {
  isLoadingClothes : bool;
  loadError : option string
}.

(** The [DisplayItem]s [loadClothingFromAPI] builds for one category. *)
Definition remote_items (category : string)
    (itemsData : ApiMore.ClothingItemsResponse) (w : World) : list DisplayItem :=
  map (fun index =>
         {| display_id := category ++ "-" ++ number_toString index;
            display_image :=
              ApiMore.getClothingImageUrl category index ApiMore.view_front w;
            backImage :=
              if array_includes "back" (ApiMore.views itemsData)
              then Some (ApiMore.getClothingImageUrl category index ApiMore.view_back w)
              else None;
            display_category := category;
            display_isLocal := None |})
      (ApiMore.indices itemsData).

(** [prev => [...prev.filter(i => i.isLocal), ...items]] *)
Definition replace_remote (items prev : list DisplayItem) : list DisplayItem :=
  (filter display_local prev ++ items)%list.

(** The body of the [for] loop over the categories. *)
Definition loadCategory (assets : ApiMore.Assets) (category : string) : M unit :=
  itemsData <- ApiMore.getClothingItems assets category ;;
  w <- get ;;
  let items := remote_items category itemsData w in
  by_category category
    (setShirts (replace_remote items))
    (setTrousers (replace_remote items))
    (setJackets (replace_remote items))
    (ret tt).

(** [loadClothingFromAPI]; yields the load state after the [finally]
    block. *)
Definition loadClothingFromAPI (assets : ApiMore.Assets) : M LoadState :=
  error <-
    try_catch
      (categories <- ApiMore.getClothingCategories assets ;;
       for_each categories (loadCategory assets) ;;
       ret None)
      (fun error =>
         console_error "Failed to load clothing:" (LogError error) ;;
         ret (Some (message error))) ;;
  ret {| isLoadingClothes := false; loadError := error |}.

(** ** Avatar tab ([avatar.tsx]) *)

(** The [onPress] of the "Delete" button of the avatar tab's
    [handleDeleteAvatar], as created by a render that saw the store's
    [avatars] and [selectedAvatarId]. *)
Definition avatarTab_delete_confirmed (avatars_seen : list Avatar)
    (selected_seen : option string) (id : string) : M unit :=
  StoreMore.removeAvatar id ;;
  if StoreMore.points_to selected_seen id
  then
    match filter (fun a => negb (String.eqb (avatar_id a) id)) avatars_seen with
    | first :: _ => StoreMore.selectAvatar (Some (avatar_id first))
    | [] => ret tt
    end
  else ret tt.

End Handlers.

(* ================================================================== *)
(** * Vocabulary of the further properties *)
(* ================================================================== *)

Module SpecMore.
Import Js Types Wire Runtime StoreState ScreenState Spec.

(** A run of [m] sends nothing, or exactly one request: a POST to
    [path] at the configured base URL, with the configured key as its
    only header when there is one. *)
Definition SendsAtMostOne {A} (path : string) (m : M A) : Prop :=
  forall w,
    requests (after m w) = requests w
    \/ exists q,
         requests (after m w) = (requests w ++ [q])%list
         /\ url_path q = path
         /\ method q = "POST"
         /\ url_base q = baseUrl (apiConfig w)
         /\ headers q = Api.api_key_headers (apiConfig w).

(** Whenever a run of [m] has sent a request and the service answers it
    with a success response that carries the value [v], the run returns
    [v]. *)
Definition ReturnsPayload {T} (serve : Env -> Request -> option (Response T))
    (m : M T) : Prop :=
  forall w q r v,
    requests (after m w) = (requests w ++ [q])%list ->
    serve (env w) q = Some r ->
    ok r = true ->
    payload r = Some v ->
    outcome m w = Return v.

(** [Number.isSafeInteger(n)]: the integers that [String(n)] prints digit
    by digit, as [number_toString] does. *)
Definition safe_integer (n : Z) : Prop := (Z.abs n <= 9007199254740991)%Z.

(** The seed of a try-on request, when it has one, is a safe integer. *)
Definition seed_is_safe (request : TryOnGenerationRequest) : Prop :=
  match tryon_seed request with
  | Some seed => safe_integer seed
  | None => True
  end.

(** The path [base64ToTempFile] gives a file name in [w]. *)
Definition temp_path (w : World) (filename : string) : string :=
  match cacheDirectory (env w) with
  | Some dir => (if endsWith "/" dir then dir else dir ++ "/") ++ filename
  | None => filename
  end.

(** The temporary files of a try-on call made in [w]. *)
Definition avatar_temp_file (w : World) : string :=
  temp_path w ("avatar_" ++ number_toString (now w) ++ ".png").

Definition cloth_temp_file (w : World) (index : nat) : string :=
  temp_path w ("cloth_" ++ number_toString (Z.of_nat index) ++ "_"
                 ++ number_toString (now w) ++ ".png").

(** The file object [f], named [name], is that of a PNG file which in
    [w] holds [payload] without its data-URI prefix. *)
Definition carries (w : World) (f : FileObject) (name payload : string) : Prop :=
  exists path,
    f = Api.createFileObject path name "image/png"
    /\ file_lookup path (files w) = Some (Api.strip_data_uri_prefix payload).

(** The multipart form of a try-on request, with the files as they are
    in [w]: the file of the avatar, then one file per garment, in the
    order of the request, each holding its garment, then the [compose]
    field and, when a seed is given, the [seed] field. *)
Definition tryon_form (request : TryOnGenerationRequest) (w : World)
    (form : FormData) : Prop :=
  exists avatarFile clothFiles,
    form = (("avatar", File avatarFile)
            :: map (fun f => ("clothes", File f)) clothFiles
            ++ ("compose",
                Field (if nullish (compose request) true then "true" else "false"))
            :: match tryon_seed request with
               | Some seed => [("seed", Field (number_toString seed))]
               | None => []
               end)%list
    /\ carries w avatarFile "avatar.png" (avatar_b64 request)
    /\ List.length clothFiles = List.length (clothes_b64 request)
    /\ forall i f cloth,
         nth_error clothFiles i = Some f ->
         nth_error (clothes_b64 request) i = Some cloth ->
         carries w f ("cloth_" ++ number_toString (Z.of_nat i) ++ ".png") cloth.

(** The multipart form of the video-loop request of [generateVideo],
    with the files as they are in [w]: the file of the try-on image,
    which holds that image, the mode and the duration. *)
Definition video_form (tryOnResult : TryOnResponse) (w : World)
    (form : FormData) : Prop :=
  exists imageFile,
    form = [("image", File imageFile); ("mode", Field "360"); ("seconds", Field "4")]
    /\ carries w imageFile "image.png" (image_b64 tryOnResult).

(** The key the next requests carry after [configureAPI patch]. *)
Definition configured_key (patch : ApiMore.ApiConfigPatch) (w : World) : string :=
  nullish (ApiMore.patch_apiKey patch) (apiKey (apiConfig w)).

(** The selected avatar of the try-on screen exists, and the avatar
    found under the id ["default-1"] is a default one. *)
Definition avatar_selection_valid (s : Screen) : Prop :=
  (exists a, In a (avatars s) /\ avatar_item_id a = selectedAvatarId s)
  /\ Handlers.is_default
       (array_find (fun a => String.eqb (avatar_item_id a) "default-1") (avatars s))
     = true.

(** The cells of the try-on screen that hold the user's input: the
    selections, the lists, the avatars and the mode. *)
Definition same_inputs (s s' : Screen) : Prop :=
  selectedShirt s' = selectedShirt s
  /\ selectedTrousers s' = selectedTrousers s
  /\ selectedJacket s' = selectedJacket s
  /\ selectedAvatarId s' = selectedAvatarId s
  /\ avatars s' = avatars s
  /\ generationMode s' = generationMode s
  /\ shirts s' = shirts s
  /\ trousers s' = trousers s
  /\ jackets s' = jackets s.

(** The history entry a successful run adds. *)
Definition committed_entry (type : MediaType) (uri : string)
    (thumbnail : option string) (w : World) : HistoryItem :=
  new_history_item {| in_type := type; in_uri := uri; in_thumbnail := thumbnail |} w.

(** The first three calls of [createAvatar]: encoding the two photos
    and the avatar request. *)
Definition avatarStep (selfie posture : string) : M AvatarResponse :=
  selfieB64 <- Api.imageUriToBase64 selfie ;;
  postureB64 <- Api.imageUriToBase64 posture ;;
  Api.generateAvatar
    {| selfie_b64 := selfieB64;
       posture_b64 := postureB64;
       background := Some "studio";
       keep_clothes := Some false |}.

(** The avatar [createAvatar] adds for a result received at time [t]. *)
Definition created_avatar (result : AvatarResponse) (t : Z) : AvatarItem :=
  {| avatar_item_id := "avatar-" ++ number_toString t;
     avatar_item_image := Api.base64ToDataUri (avatar_image_b64 result) "image/png";
     isDefault := None;
     avatar_item_isGenerating := None |}.

(** The store's selected avatar, when there is one, exists. *)
Definition pointer_valid (s : PlaygroundState) : Prop :=
  match StoreState.selectedAvatarId s with
  | Some p => exists a, In a (StoreState.avatars s) /\ avatar_id a = p
  | None => True
  end.

(** The list of the try-on screen that shows a category, and the
    selection that goes with it. *)
Definition displayed (category : string) (s : Screen) : list DisplayItem :=
  Handlers.by_category category (shirts s) (trousers s) (jackets s) [].

Definition selected_in (category : string) (s : Screen) : option string :=
  Handlers.by_category category
    (selectedShirt s) (selectedTrousers s) (selectedJacket s) None.

(** The display item [saveItem] shows for a garment saved in [w]. *)
Definition shown_item (category : ClothingCategory) (frontUri : string)
    (backUri : option string) (w : World) : DisplayItem :=
  {| display_id := "local-" ++ number_toString (now w);
     display_image := frontUri;
     backImage := backUri;
     display_category := Handlers.category_name category;
     display_isLocal := Some true |}.

(** The garment [saveItem] stores for a garment saved in [w]. *)
Definition stored_garment (category : ClothingCategory) (frontUri : string)
    (backUri : option string) (w : World) : ClothingItem :=
  {| item_id := toString36 (now w) ++ "-" ++ hd "" (entropy w);
     item_createdAt := now w;
     item_updatedAt := now w;
     item_name := "My " ++ Handlers.category_name category;
     item_category := category;
     frontImageUri := frontUri;
     backImageUri := backUri;
     item_thumbnail := None;
     parameters := None;
     tags := None;
     isLocal := Some true |}.

(** The effect on [storedClothingItems], run after a render that saw
    the store of [w]. *)
Definition stored_items_effect (w : World) : M unit :=
  Handlers.showStoredLocalItems (clothingItems (store w)).

(** A request of the catalogue: a GET without headers or body to a path
    under [/assets/clothes/]. *)
Definition catalogue_request (q : Request) : Prop :=
  method q = "GET" /\ headers q = [] /\ body q = []
  /\ startsWith "/assets/clothes/" (url_path q) = true.

(** A run of [m] sends catalogue requests only. *)
Definition OnlyCatalogueRequests {A} (m : M A) : Prop :=
  forall w, exists sent,
    requests (after m w) = (requests w ++ sent)%list
    /\ Forall catalogue_request sent.

(** A category with a list on the try-on screen. *)
Definition has_list (category : string) : bool :=
  Handlers.by_category category true true true false.

(** A stored garment is shown in the list of its category. *)
Definition listed (item : ClothingItem) (s : Screen) : bool :=
  existsb (fun i => String.eqb (display_id i) (item_id item))
    (displayed (Handlers.category_name (item_category item)) s).

(** No list of the try-on screen shows an id twice. *)
Definition distinct_ids (s : Screen) : Prop :=
  NoDup (map display_id (shirts s))
  /\ NoDup (map display_id (trousers s))
  /\ NoDup (map display_id (jackets s)).

(** The local items of a display list. *)
Definition local_items (l : list DisplayItem) : list DisplayItem :=
  filter Handlers.display_local l.

End SpecMore.

(* ================================================================== *)
(** * Further concrete worlds *)
(* ================================================================== *)

Module SamplesMore.
Import Js Types Wire Runtime StoreState ScreenState Spec.

Definition pending_avatar : StoreMore.AvatarInput :=
  {| StoreMore.new_avatar_name := "Avatar 1";
     StoreMore.new_sourcePhotoId := "";
     StoreMore.new_avatar_perspective := front;
     StoreMore.new_avatar_state := base;
     StoreMore.new_backgroundType := white;
     StoreMore.new_avatar_imageUri := "file:///photos/me.png";
     StoreMore.new_avatar_thumbnail := None;
     StoreMore.new_avatar_status := pending;
     StoreMore.new_avatar_errorMessage := None |}.

Definition avatar_image : AvatarResponse :=
  {| avatar_image_b64 := "QVZBVEFSMg=="; avatar_width := 768;
     avatar_height := 1024; avatar_meta := None |}.

Definition video_clip : VideoLoopResponse :=
  {| video_b64 := "VklERU8="; first_frame_b64 := "RlJBTUU=";
     duration_seconds := 4; video_width := 768; video_height := 1024;
     video_mode := "360"; video_meta := None |}.

(** Every generation endpoint answers with success. *)
Definition world_success : World :=
  Samples.sample_world
    (Samples.sample_env (Samples.success avatar_image)
       (Samples.success Samples.tryon_image) (Samples.success video_clip)
       (Downloaded 200 "QUJD"))
    initialState.

(** The same, on a screen in image mode. *)
Definition image_screen : Screen :=
  {| selectedShirt := Some "shirts-1"; selectedTrousers := None;
     selectedJacket := None; selectedAvatarId := "default-1";
     avatars := [Samples.default_avatar]; isGenerating := false;
     generationMode := image; resultUri := None; resultType := image;
     shirts := [Samples.shirt]; trousers := []; jackets := [];
     translateY := SNAP_TOP |}.

(** A shirt and trousers, composed separately, with a seed. *)
Definition seeded_outfit : TryOnGenerationRequest :=
  {| avatar_b64 := "QVZBVEFS"; clothes_b64 := ["U0hJUlQ="; "UEFOVFM="];
     compose := Some false; tryon_seed := Some 42%Z |}.

(** Two stored avatars, the first one selected. *)
Definition second_avatar : Avatar :=
  {| avatar_id := "a2"; avatar_createdAt := 1600000001000%Z;
     avatar_updatedAt := 1600000001000%Z; avatar_name := "Avatar 2";
     sourcePhotoId := ""; avatar_perspective := front; avatar_state := base;
     backgroundType := white; avatar_imageUri := "file:///photos/me2.png";
     avatar_thumbnail := None; avatar_status := completed;
     avatar_errorMessage := None |}.

Definition world_two_avatars : World :=
  Samples.sample_world
    (Samples.sample_env (Samples.success avatar_image)
       (Samples.success Samples.tryon_image) (Samples.success video_clip)
       (Downloaded 200 "QUJD"))
    (StoreMore.with_selectedAvatarId (Some "a1")
       (with_avatars [Samples.failed_avatar; second_avatar] initialState)).

(** A created avatar next to the default one, the created one selected. *)
Definition own_avatar : AvatarItem :=
  {| avatar_item_id := "avatar-1690000000000";
     avatar_item_image := "data:image/png;base64,T1dO";
     isDefault := None;
     avatar_item_isGenerating := None |}.

Definition world_own_avatar : World :=
  with_screen
    (Handlers.with_avatar_items [Samples.default_avatar; own_avatar]
       "avatar-1690000000000" Samples.video_screen)
    world_success.

(** The avatar creation modal with both photos chosen. *)
Definition filled_modal : Handlers.AvatarModal :=
  {| Handlers.showAvatarModal := true;
     Handlers.avatarSelfie := Some "data:image/jpeg;base64,U0VMRklF";
     Handlers.avatarPosture := Some "data:image/jpeg;base64,UE9TVFVSRQ==";
     Handlers.isCreatingAvatar := false |}.

End SamplesMore.

(* ================================================================== *)
(** * The built-ins on small inputs *)
(* ================================================================== *)

Module JsFacts.
Import Js.

Example toString36_of_a_timestamp : toString36 1700000000000 = "loyw3v28".
Proof. reflexivity. Qed.

Example split_of_a_data_uri :
  split ","%char "data:image/png;base64,QUJD" = ["data:image/png;base64"; "QUJD"].
Proof. reflexivity. Qed.

Example split_without_separator : split ","%char "QUJD" = ["QUJD"].
Proof. reflexivity. Qed.

Example data_uri_prefix_stripped :
  Api.strip_data_uri_prefix "data:image/png;base64,QUJD" = "QUJD".
Proof. reflexivity. Qed.

Example toStr_of_a_nested_array :
  toStr (JArr [JStr "body"; JNull; JArr [JNum 1; JNum 2]]) = "body,,1,2".
Proof. reflexivity. Qed.

Example location_with_an_index :
  Api.location_of (JObj [("loc", JArr [JStr "body"; JStr "clothes"; JNum 0])]) "unknown"
  = inr "body.clothes.0".
Proof. reflexivity. Qed.

Example location_that_is_not_an_array :
  Api.location_of (JObj [("loc", JStr "clothes")]) "unknown"
  = inl (TypeError "e.loc?.join is not a function").
Proof. reflexivity. Qed.

Example file_object_gets_a_scheme :
  Wire.file_uri (Api.createFileObject "/cache/avatar_1.png" "avatar.png" "image/png")
  = "file:///cache/avatar_1.png".
Proof. reflexivity. Qed.

Example base64_size_with_padding :
  Runtime.base64_size "QUI=" = 2%Z /\ Runtime.base64_size "QUJD" = 3%Z.
Proof. split; reflexivity. Qed.

End JsFacts.

(* ================================================================== *)
(** * Facts about the store *)
(* ================================================================== *)

Module StoreFacts.
Import Js Types Runtime StoreState Spec.

Lemma array_includes_In (x : string) (l : list string) :
  array_includes x l = true <-> In x l.
Proof.
  unfold array_includes. rewrite existsb_exists. split.
  - intros (y & Hy & E). apply String.eqb_eq in E. now subst.
  - intros H. exists x. split; [assumption | apply String.eqb_refl].
Qed.

Lemma array_includes_false (x : string) (l : list string) :
  array_includes x l = false -> ~ In x l.
Proof.
  intros E H. apply array_includes_In in H. congruence.
Qed.

Lemma NoDup_snoc (x : string) (l : list string) :
  NoDup l -> ~ In x l -> NoDup (l ++ [x])%list.
Proof.
  intros Hl Hx. apply NoDup_app.
  - assumption.
  - constructor; [intros [] | constructor].
  - intros a Ha [E | []]. subst. contradiction.
Qed.

(** ** Selection *)

Lemma selection_after_select (id : string) (w : World) :
  selection (after (Store.selectClothingItem id) w)
  = if array_includes id (selection w) then selection w
    else (selection w ++ [id])%list.
Proof. reflexivity. Qed.

Lemma selection_after_deselect (id : string) (w : World) :
  selection (after (Store.deselectClothingItem id) w)
  = filter (fun cid => negb (String.eqb cid id)) (selection w).
Proof. reflexivity. Qed.

Lemma select_present_unchanged (id : string) (w : World) :
  In id (selection w) -> after (Store.selectClothingItem id) w = w.
Proof.
  intros H. apply array_includes_In in H.
  destruct w as [e n en cfg fs rq co al sc st].
  destruct st. unfold selection in H. cbn in H.
  unfold after, Store.selectClothingItem, Store.set, modify, with_store,
    with_selectedClothingIds. cbn. rewrite H. reflexivity.
Qed.

Lemma selected_after_select (id : string) (w : World) :
  In id (selection (after (Store.selectClothingItem id) w)).
Proof.
  rewrite selection_after_select.
  destruct (array_includes id (selection w)) eqn:E.
  - now apply array_includes_In.
  - apply in_or_app. right. now left.
Qed.

Lemma selection_run_NoDup (w0 w : World) :
  NoDup (selection w0) -> selection_run w0 w -> NoDup (selection w).
Proof.
  intros H0 Hrun.
  induction Hrun
    as [| w id _ IH | w id _ IH | w id _ IH | w _ IH | w _ IH | w w' _ IH E].
  - assumption.
  - rewrite selection_after_select.
    destruct (array_includes id (selection w)) eqn:E.
    + assumption.
    + apply NoDup_snoc; [assumption | now apply array_includes_false].
  - rewrite selection_after_deselect. now apply NoDup_filter.
  - change (NoDup (filter (fun cid => negb (String.eqb cid id)) (selection w))).
    now apply NoDup_filter.
  - constructor.
  - constructor.
  - rewrite E. assumption.
Qed.

(** C10. [selectClothingItem] is idempotent and the selection stays free
    of duplicates: along any run of the store's selection actions that
    starts from a duplicate-free selection (the initial one is empty),
    no id occurs twice in [selectedClothingIds]; selecting an id that is
    already selected changes nothing at all; and selecting the same id a
    second time changes nothing. *)
Theorem selectClothingItem_idempotent_duplicate_free
    (w0 w : World) (id : string) :
  NoDup (selection w0) ->
  selection_run w0 w ->
  NoDup (selection w)
  /\ (In id (selection w) -> after (Store.selectClothingItem id) w = w)
  /\ after (Store.selectClothingItem id) (after (Store.selectClothingItem id) w)
     = after (Store.selectClothingItem id) w
  /\ NoDup (selection (after (Store.selectClothingItem id) w)).
Proof.
  intros H0 Hrun. repeat split.
  - eapply selection_run_NoDup; eassumption.
  - apply select_present_unchanged.
  - apply select_present_unchanged, selected_after_select.
  - eapply selection_run_NoDup; [eassumption |].
    now apply selection_select.
Qed.

(** ** History *)

Lemma history_after_add (item : HistoryInput) (w : World) :
  history (after (Store.addToHistory item) w)
  = firstn 50 (new_history_item item w :: history w).
Proof.
  unfold after, Store.addToHistory, Store.generateId, bind, Date_now,
    random_suffix, new_history_item.
  destruct (entropy w); reflexivity.
Qed.

Lemma id_returned_by_add (item : HistoryInput) (w : World) :
  outcome (Store.addToHistory item) w
  = Return (history_id (new_history_item item w)).
Proof.
  unfold outcome, Store.addToHistory, Store.generateId, bind, Date_now,
    random_suffix, new_history_item.
  destruct (entropy w); reflexivity.
Qed.

Lemma history_run_bounded (w0 w : World) :
  List.length (history w0) <= 50 ->
  history_run w0 w ->
  List.length (history w) <= 50.
Proof.
  intros H0 Hrun.
  induction Hrun as [| w item _ IH | w id _ IH | w _ IH | w _ IH | w w' _ IH E].
  - assumption.
  - rewrite history_after_add. apply firstn_le_length.
  - change (List.length
              (filter (fun h => negb (String.eqb (history_id h) id)) (history w)) <= 50).
    pose proof (filter_length_le
                  (fun h => negb (String.eqb (history_id h) id)) (history w)).
    lia.
  - apply Nat.le_0_l.
  - apply Nat.le_0_l.
  - rewrite E. assumption.
Qed.

Lemma last_of_fifty {A} (l : list A) (x : A) :
  List.length l = 50 -> nth_error l 49 = Some x ->
  l = (firstn 49 l ++ [x])%list.
Proof.
  intros Hlen Hx.
  rewrite <- (firstn_skipn 49 l) at 1. f_equal.
  assert (Hs : List.length (skipn 49 l) = 1) by (rewrite length_skipn; lia).
  assert (Hn : nth_error (skipn 49 l) 0 = Some x).
  { rewrite nth_error_skipn. now rewrite Nat.add_0_r. }
  destruct (skipn 49 l) as [| y [| z t]]; try discriminate.
  cbn in Hn. congruence.
Qed.

Lemma oldest_evicted (h : list HistoryItem) (new oldest : HistoryItem) :
  List.length h = 50 ->
  nth_error h 49 = Some oldest ->
  NoDup (map history_id h) ->
  ~ In (history_id new) (map history_id h) ->
  ~ In oldest (new :: firstn 49 h).
Proof.
  intros Hlen Hold Hnd Hfresh [E | Hin].
  - apply Hfresh. rewrite E. apply in_map.
    apply nth_error_In with (n := 49). assumption.
  - rewrite (last_of_fifty h Hlen Hold) in Hnd.
    rewrite map_app in Hnd. cbn in Hnd.
    apply NoDup_remove_2 in Hnd. apply Hnd.
    rewrite app_nil_r. now apply in_map.
Qed.

(** C1. Along any run of [addToHistory] calls (and of the store's other
    history actions) that starts with at most 50 entries, the history
    never holds more than 50 entries. Each call
    returns the new id and puts the new item at index 0, in front of the
    49 most recent entries; below 50 entries nothing is dropped; at 50
    entries exactly the last (oldest) entry is dropped, and, identities
    being distinct, that entry no longer occurs in the list. *)
Theorem addToHistory_bounded_newest_first
    (w0 w : World) (item : HistoryInput) :
  List.length (history w0) <= 50 ->
  history_run w0 w ->
  let w' := after (Store.addToHistory item) w in
  let new := new_history_item item w in
  List.length (history w) <= 50
  /\ List.length (history w') <= 50
  /\ outcome (Store.addToHistory item) w = Return (history_id new)
  /\ history w' = new :: firstn 49 (history w)
  /\ nth_error (history w') 0 = Some new
  /\ (List.length (history w) < 50 -> history w' = new :: history w)
  /\ (List.length (history w) = 50 ->
        history w' = new :: removelast (history w)
        /\ forall oldest,
             nth_error (history w) 49 = Some oldest ->
             NoDup (map history_id (history w)) ->
             ~ In (history_id new) (map history_id (history w)) ->
             ~ In oldest (history w')).
Proof.
  intros H0 Hrun w' new.
  assert (Hw' : history w' = new :: firstn 49 (history w))
    by (subst w' new; now rewrite history_after_add).
  repeat split.
  - eapply history_run_bounded; eassumption.
  - subst w'. rewrite history_after_add. apply firstn_le_length.
  - apply id_returned_by_add.
  - assumption.
  - now rewrite Hw'.
  - intros Hlt. rewrite Hw'. f_equal. apply firstn_all2. lia.
  - rewrite Hw'. f_equal. rewrite removelast_firstn_len.
    now replace (Nat.pred (List.length (history w))) with 49 by lia.
  - intros oldest Hold Hnd Hfresh. rewrite Hw'.
    now apply oldest_evicted.
Qed.

(** ** Persistence *)

(** C8. The persisted subset is the generation history together with
    the clothing items whose [isLocal] flag is set, in their order;
    items of the remote catalogue are left out, and nothing else of the
    state (avatars, try-on results, animations, selections) has any
    influence on what is persisted. *)
Theorem partialize_history_and_local_items (state : PlaygroundState) :
  persisted_generationHistory (Store.partialize state) = generationHistory state
  /\ persisted_clothingItems (Store.partialize state)
     = filter (fun item => match isLocal item with Some true => true | _ => false end)
         (clothingItems state)
  /\ (forall item,
        In item (persisted_clothingItems (Store.partialize state))
        <-> In item (clothingItems state) /\ isLocal item = Some true)
  /\ (forall other,
        generationHistory other = generationHistory state ->
        clothingItems other = clothingItems state ->
        Store.partialize other = Store.partialize state).
Proof.
  repeat split.
  - apply filter_In in H. tauto.
  - apply filter_In in H. destruct H as [_ H].
    unfold Store.isLocal_truthy in H.
    destruct (isLocal item) as [[|]|]; congruence.
  - intros [Hin Hloc]. apply filter_In. split; [assumption |].
    unfold Store.isLocal_truthy. now rewrite Hloc.
  - intros other Hh Hc. unfold Store.partialize. now rewrite Hh, Hc.
Qed.

(** ** Status updates *)

Lemma Forall2_map_self {E} (R : E -> E -> Prop) (f : E -> E) (l : list E) :
  (forall x, R x (f x)) -> Forall2 R l (map f l).
Proof.
  intros H. induction l as [| x l IH]; cbn; constructor; auto.
Qed.

Lemma avatars_updated (w : World) (id : string) (status : GenerationStatus)
    (uri error : option string) :
  let w' := after (Store.updateAvatarStatus id status uri error) w in
  updated_where avatar_id id (avatar_merged (now w) status uri error)
    (avatars (store w)) (avatars (store w'))
  /\ store w' = with_avatars (avatars (store w')) (store w)
  /\ w' = with_store (store w') w.
Proof.
  cbn zeta. repeat split.
  apply Forall2_map_self. intros a.
  destruct (String.eqb (avatar_id a) id).
  - unfold avatar_merged. cbn. destruct uri; repeat split.
  - reflexivity.
Qed.

Lemma tryOnResults_updated (w : World) (id : string) (status : GenerationStatus)
    (uri error : option string) :
  let w' := after (Store.updateTryOnStatus id status uri error) w in
  updated_where tryon_id id (tryon_merged (now w) status uri error)
    (tryOnResults (store w)) (tryOnResults (store w'))
  /\ store w' = with_tryOnResults (tryOnResults (store w')) (store w)
  /\ w' = with_store (store w') w.
Proof.
  cbn zeta. repeat split.
  apply Forall2_map_self. intros t.
  destruct (String.eqb (tryon_id t) id).
  - unfold tryon_merged. cbn. destruct uri; repeat split.
  - reflexivity.
Qed.

Lemma animations_updated (w : World) (id : string) (status : GenerationStatus)
    (uri error : option string) :
  let w' := after (Store.updateAnimationStatus id status uri error) w in
  updated_where anim_id id (animation_merged (now w) status uri error)
    (animations (store w)) (animations (store w'))
  /\ store w' = with_animations (animations (store w')) (store w)
  /\ w' = with_store (store w') w.
Proof.
  cbn zeta. repeat split.
  apply Forall2_map_self. intros a.
  destruct (String.eqb (anim_id a) id).
  - unfold animation_merged. cbn. destruct uri; repeat split.
  - reflexivity.
Qed.

(** C7, as the code has it. A status update rewrites, in every entity
    named by the id, the status, the updated timestamp and the error
    message, the last one also when no error is passed (it is then
    cleared); the output locator is replaced only when one is passed;
    every other field of the entity, every other entity, every other
    slice of the store and the rest of the world are left as they were. *)
Theorem status_update_merges_except_status_time_error
    (w : World) (id : string) (status : GenerationStatus)
    (uri error : option string) :
  (let w' := after (Store.updateAvatarStatus id status uri error) w in
   updated_where avatar_id id (avatar_merged (now w) status uri error)
     (avatars (store w)) (avatars (store w'))
   /\ store w' = with_avatars (avatars (store w')) (store w)
   /\ w' = with_store (store w') w)
  /\ (let w' := after (Store.updateTryOnStatus id status uri error) w in
      updated_where tryon_id id (tryon_merged (now w) status uri error)
        (tryOnResults (store w)) (tryOnResults (store w'))
      /\ store w' = with_tryOnResults (tryOnResults (store w')) (store w)
      /\ w' = with_store (store w') w)
  /\ (let w' := after (Store.updateAnimationStatus id status uri error) w in
      updated_where anim_id id (animation_merged (now w) status uri error)
        (animations (store w)) (animations (store w'))
      /\ store w' = with_animations (animations (store w')) (store w)
      /\ w' = with_store (store w') w).
Proof.
  split; [apply avatars_updated |].
  split; [apply tryOnResults_updated | apply animations_updated].
Qed.

(** C7, as stated, fails: an avatar that carries an error message loses
    it when its status is updated without an error argument, while its
    output locator, also omitted, is kept. *)
Lemma omitted_error_message_is_cleared :
  let w' := after (Store.updateAvatarStatus "a1" processing None None)
              Samples.world_failed_avatar in
  map avatar_errorMessage (avatars (store Samples.world_failed_avatar))
    = [Some "model overloaded"]
  /\ map avatar_errorMessage (avatars (store w')) = [None]
  /\ map avatar_imageUri (avatars (store w')) = ["file:///photos/me.png"]
  /\ map avatar_status (avatars (store w')) = [processing].
Proof. repeat split. Qed.

(** ** Witnesses *)

Lemma selectClothingItem_idempotent_witness :
  NoDup (selection Samples.world_two_selected)
  /\ after (Store.selectClothingItem "c2")
       (after (Store.deselectClothingItem "c1") Samples.world_two_selected)
     = after (Store.deselectClothingItem "c1") Samples.world_two_selected.
Proof.
  assert (H0 : NoDup (selection Samples.world_two_selected)).
  { cbn. repeat constructor; cbn; intuition discriminate. }
  split; [exact H0 |].
  apply (selectClothingItem_idempotent_duplicate_free "c2" H0
           (selection_deselect "c1" (selection_start _))).
Defined.

Lemma addToHistory_bounded_witness :
  List.length (history Samples.world_full_history) = 50
  /\ List.length
       (history (after (Store.addToHistory Samples.new_entry)
                   Samples.world_full_history)) <= 50
  /\ nth_error
       (history (after (Store.addToHistory Samples.new_entry)
                   Samples.world_full_history)) 0
     = Some (new_history_item Samples.new_entry Samples.world_full_history)
  /\ ~ In (Samples.numbered_entry 49)
         (history (after (Store.addToHistory Samples.new_entry)
                     Samples.world_full_history)).
Proof.
  assert (H0 : List.length (history Samples.world_full_history) <= 50)
    by (vm_compute; apply le_n).
  pose proof (addToHistory_bounded_newest_first Samples.new_entry H0
                (history_start _)) as H.
  cbv zeta in H. destruct H as (_ & Hb & _ & _ & Hn & _ & Hfull).
  split; [reflexivity | split; [assumption | split; [assumption |]]].
  destruct (Hfull eq_refl) as [_ Hev].
  apply (Hev (Samples.numbered_entry 49) eq_refl).
  - replace (map history_id (history Samples.world_full_history))
      with (nodup string_dec (map history_id (history Samples.world_full_history)))
      by (vm_compute; reflexivity).
    apply NoDup_nodup.
  - intros H. vm_compute in H.
    repeat (destruct H as [H | H]; [discriminate H |]). exact H.
Defined.

End StoreFacts.

(* ================================================================== *)
(** * Frame reasoning: what a computation leaves alone *)
(* ================================================================== *)

Module Frame.
Import Js Wire Runtime StoreState ScreenState Spec.

Lemma Preserves_ret {X A} (p : World -> X) (a : A) : Preserves p (ret a).
Proof. intros w. reflexivity. Qed.

Lemma Preserves_throw {X A} (p : World -> X) (e : Exn) :
  Preserves p (throw e : M A).
Proof. intros w. reflexivity. Qed.

Lemma Preserves_get {X} (p : World -> X) : Preserves p get.
Proof. intros w. reflexivity. Qed.

Lemma Preserves_Date_now {X} (p : World -> X) : Preserves p Date_now.
Proof. intros w. reflexivity. Qed.

Lemma Preserves_lift {X A} (p : World -> X) (r : Exn + A) :
  Preserves p (Api.lift r).
Proof. destruct r; intros w; reflexivity. Qed.

Lemma Preserves_bind {X A B} (p : World -> X) (m : M A) (k : A -> M B) :
  Preserves p m -> (forall a, Preserves p (k a)) -> Preserves p (bind m k).
Proof.
  intros Hm Hk w. unfold after, bind.
  specialize (Hm w). unfold after in Hm.
  destruct (m w) as [[a | e] w1]; cbn in *.
  - rewrite <- Hm. apply Hk.
  - assumption.
Qed.

Lemma Preserves_try_catch {X A} (p : World -> X) (m : M A) (h : Exn -> M A) :
  Preserves p m -> (forall e, Preserves p (h e)) -> Preserves p (try_catch m h).
Proof.
  intros Hm Hh w. unfold after, try_catch.
  specialize (Hm w). unfold after in Hm.
  destruct (m w) as [[a | e] w1]; cbn in *.
  - assumption.
  - rewrite <- Hm. apply Hh.
Qed.

Lemma Preserves_try_finally {X A} (p : World -> X) (m : M A) (final : M unit) :
  Preserves p m -> Preserves p final -> Preserves p (try_finally m final).
Proof.
  intros Hm Hf w. unfold after, try_finally.
  specialize (Hm w). unfold after in Hm.
  destruct (m w) as [c w1]. cbn in Hm.
  specialize (Hf w1). unfold after in Hf.
  destruct (final w1) as [[u | e] w2]; cbn in *; congruence.
Qed.

Lemma Preserves_modify {X} (p : World -> X) (f : World -> World) :
  (forall w, p (f w) = p w) -> Preserves p (modify f).
Proof. intros H w. apply H. Qed.

Lemma Preserves_promise_all {X A B} (p : World -> X) (xs : list A)
    (body : A -> M B) :
  (forall x, Preserves p (body x)) -> Preserves p (promise_all xs body).
Proof.
  intros Hb. induction xs as [| x xs IH]; intros w.
  - reflexivity.
  - unfold after. cbn.
    specialize (Hb x w). unfold after in Hb.
    destruct (body x w) as [[b | e] w1]; cbn in Hb.
    + specialize (IH w1). unfold after in IH.
      destruct (promise_all xs body w1) as [[bs | e] w2]; cbn in *; congruence.
    + cbn. rewrite <- Hb. apply IH.
Qed.

Create HintDb frame.
#[export] Hint Resolve Preserves_ret Preserves_throw Preserves_get
  Preserves_Date_now Preserves_lift : frame.

(** One step through the syntax of a computation. *)
Ltac frame_step :=
  match goal with
  | |- Preserves _ (bind _ _) => apply Preserves_bind; [| intros ?]
  | |- Preserves _ (try_catch _ _) => apply Preserves_try_catch; [| intros ?]
  | |- Preserves _ (catch_value _ _) => apply Preserves_try_catch; [| intros ?]
  | |- Preserves _ (try_finally _ _) => apply Preserves_try_finally
  | |- Preserves _ (promise_all _ _) => apply Preserves_promise_all; intros ?
  | |- Preserves _ (if ?b then _ else _) => destruct b
  | |- Preserves _ (match ?x with _ => _ end) => destruct x
  | |- Preserves _ (let _ := _ in _) => cbv zeta
  end.

Ltac frame := repeat first [ solve [auto with frame] | frame_step ].

(** ** Observations that read neither the files nor the console *)

Section FilesAndConsole.
Context {X : Type} (p : World -> X).
Hypothesis p_files : forall v w, p (with_files v w) = p w.
Hypothesis p_console : forall v w, p (with_console v w) = p w.

Lemma writeAsStringAsync_frame path data :
  Preserves p (writeAsStringAsync path data).
Proof.
  intros w. unfold after, writeAsStringAsync.
  destruct (writeFailure (env w) path data); cbn; auto.
Qed.

Lemma getInfoAsync_frame path : Preserves p (getInfoAsync path).
Proof.
  intros w. unfold after, getInfoAsync.
  destruct (file_lookup path (files w)); reflexivity.
Qed.

Lemma readAsStringAsync_frame path : Preserves p (readAsStringAsync path).
Proof.
  intros w. unfold after, readAsStringAsync.
  destruct (file_lookup path (files w)); reflexivity.
Qed.

Lemma deleteAsync_frame path : Preserves p (deleteAsync_idempotent path).
Proof. apply Preserves_modify. intros w. apply p_files. Qed.

Lemma downloadAsync_frame uri target : Preserves p (downloadAsync uri target).
Proof.
  intros w. unfold after, downloadAsync.
  destruct (download (env w) uri); cbn; auto.
Qed.

Lemma console_error_frame label value : Preserves p (console_error label value).
Proof. apply Preserves_modify. intros w. apply p_console. Qed.

#[local] Hint Resolve writeAsStringAsync_frame getInfoAsync_frame
  readAsStringAsync_frame deleteAsync_frame downloadAsync_frame
  console_error_frame : frame.

Lemma base64ToTempFile_frame base64 filename :
  Preserves p (Api.base64ToTempFile base64 filename).
Proof. unfold Api.base64ToTempFile. frame. Qed.

Lemma imageUriToBase64_frame uri : Preserves p (Api.imageUriToBase64 uri).
Proof. unfold Api.imageUriToBase64, Api.download_and_encode. frame. Qed.

#[local] Hint Resolve base64ToTempFile_frame imageUriToBase64_frame : frame.

Lemma append_clothes_frame clothes : forall index formData,
  Preserves p (Api.append_clothes index clothes formData).
Proof.
  induction clothes as [| cloth rest IH]; intros index formData; cbn.
  - frame.
  - frame.
Qed.

#[local] Hint Resolve append_clothes_frame : frame.

Lemma prepare_tryon_form_frame request :
  Preserves p (Api.prepare_tryon_form request).
Proof. unfold Api.prepare_tryon_form. frame. Qed.

Lemma avatar_failure_frame {T} (r : Response T) : Preserves p (Api.avatar_failure r).
Proof. unfold Api.avatar_failure, response_json_any. frame. Qed.

Lemma tryon_failure_frame {T} (r : Response T) : Preserves p (Api.tryon_failure r).
Proof. unfold Api.tryon_failure. frame. Qed.

Lemma video_failure_frame {T} (r : Response T) : Preserves p (Api.video_failure r).
Proof. unfold Api.video_failure, response_json_any. frame. Qed.

Lemma response_json_frame {T} (r : Response T) : Preserves p (response_json r).
Proof. unfold response_json. frame. Qed.

#[local] Hint Resolve prepare_tryon_form_frame avatar_failure_frame
  tryon_failure_frame video_failure_frame response_json_frame : frame.

Lemma fetch_frame {T} (serve : Env -> Request -> option (Response T)) q :
  (forall w, p (with_requests (requests w ++ [q])%list w) = p w) ->
  Preserves p (fetch serve q).
Proof.
  intros Hq w. unfold after, fetch.
  destruct (serve (env w) q); cbn; apply Hq.
Qed.

Lemma generateAvatar_frame request :
  blind_to_requests_for p "/generate/avatar" ->
  Preserves p (Api.generateAvatar request).
Proof.
  intros Hq. unfold Api.generateAvatar. frame.
  apply fetch_frame. intros w. now apply Hq.
Qed.

Lemma generateTryOn_frame request :
  blind_to_requests_for p "/generate/tryon" ->
  Preserves p (Api.generateTryOn request).
Proof.
  intros Hq. unfold Api.generateTryOn. frame.
  apply fetch_frame. intros w. now apply Hq.
Qed.

Lemma generateVideoLoop_frame request :
  blind_to_requests_for p "/generate/videoloop" ->
  Preserves p (Api.generateVideoLoop request).
Proof.
  intros Hq. unfold Api.generateVideoLoop. frame.
  apply fetch_frame. intros w. now apply Hq.
Qed.

Lemma getAvatarImage_frame r : Preserves p (Screen.getAvatarImage r).
Proof. unfold Screen.getAvatarImage. frame. Qed.

Lemma getClothingImages_frame r : Preserves p (Screen.getClothingImages r).
Proof. unfold Screen.getClothingImages. frame. Qed.

Lemma tryOnStep_frame r :
  blind_to_requests_for p "/generate/tryon" ->
  Preserves p (tryOnStep r).
Proof.
  intros Hq. unfold tryOnStep.
  apply Preserves_bind; [apply getAvatarImage_frame | intros a].
  apply Preserves_bind; [apply getClothingImages_frame | intros c].
  now apply generateTryOn_frame.
Qed.

Lemma generateVideo_frame t :
  blind_to_requests_for p "/generate/videoloop" ->
  Preserves p (Screen.generateVideo t).
Proof.
  intros Hq. unfold Screen.generateVideo.
  apply Preserves_bind; [now apply generateVideoLoop_frame | intros v].
  frame.
Qed.

End FilesAndConsole.

End Frame.

(* ================================================================== *)
(** * Facts about the remote generation client *)
(* ================================================================== *)

Module ApiFacts.
Import Js Wire Runtime StoreState ScreenState Spec Frame.

(** ** Throwing *)

Lemma Throws_throw {A} (e : Exn) (w : World) : Throws (throw e : M A) w.
Proof. now exists e. Qed.

Lemma ThrowsWhen_throw {A} (P : Env -> Prop) (e : Exn) :
  ThrowsWhen P (throw e : M A).
Proof. intros w _. apply Throws_throw. Qed.

Lemma ThrowsWhen_bind {A B} (P : Env -> Prop) (m : M A) (k : A -> M B) :
  Preserves env m ->
  (forall a, ThrowsWhen P (k a)) ->
  ThrowsWhen P (bind m k).
Proof.
  intros Hm Hk w HP. specialize (Hm w).
  unfold Throws, outcome, after, bind in *.
  destruct (m w) as [[a | e] w1]; cbn in *.
  - apply Hk. now rewrite Hm.
  - now exists e.
Qed.

(** After a failed answer each call ends in a [throw]. *)
Lemma failed_request_throws {T} (serve : Env -> Request -> option (Response T))
    (failure : Response T -> M Exn) (q : Request) :
  ThrowsWhen (fun e => forall q r, serve e q = Some r -> ok r = false)
    (response <- fetch serve q ;;
     if negb (ok response)
     then (e <- failure response ;; throw e)
     else response_json response).
Proof.
  intros w Hfail. unfold Throws, outcome, bind, fetch.
  destruct (serve (env w) q) as [r |] eqn:E; cbn.
  - rewrite (Hfail _ _ E). cbn.
    destruct (failure r _) as [[e | e] w1]; cbn; eauto.
  - eauto.
Qed.

(** Observations of the environment, the component state, the store or
    the alerts are blind to files, console and requests. *)
Ltac observe :=
  first
    [ solve [auto with frame]
    | (apply Frame.base64ToTempFile_frame
       || apply Frame.imageUriToBase64_frame
       || apply Frame.prepare_tryon_form_frame
       || apply Frame.console_error_frame
       || apply Frame.generateAvatar_frame
       || apply Frame.generateTryOn_frame
       || apply Frame.generateVideoLoop_frame
       || apply Frame.getAvatarImage_frame
       || apply Frame.getClothingImages_frame
       || apply Frame.tryOnStep_frame
       || apply Frame.generateVideo_frame);
      unfold blind_to_requests_for; intros; reflexivity ].

Lemma generateAvatar_throws request :
  ThrowsWhen (fun e => forall q r, serveAvatar e q = Some r -> ok r = false)
    (Api.generateAvatar request).
Proof.
  unfold Api.generateAvatar.
  repeat (apply ThrowsWhen_bind; [observe | intros ?]; cbv zeta).
  apply failed_request_throws.
Qed.

Lemma generateTryOn_throws request :
  ThrowsWhen (fun e => forall q r, serveTryOn e q = Some r -> ok r = false)
    (Api.generateTryOn request).
Proof.
  unfold Api.generateTryOn.
  destruct (negb _); [apply ThrowsWhen_throw |].
  destruct (Nat.eqb _ _); [apply ThrowsWhen_throw |].
  apply ThrowsWhen_bind.
  { apply Frame.Preserves_try_catch; [observe | intros e].
    apply Frame.Preserves_bind; [observe | intros _; observe]. }
  intros formData.
  apply ThrowsWhen_bind; [observe | intros w1].
  apply failed_request_throws.
Qed.

Lemma generateVideoLoop_throws request :
  ThrowsWhen (fun e => forall q r, serveVideoLoop e q = Some r -> ok r = false)
    (Api.generateVideoLoop request).
Proof.
  unfold Api.generateVideoLoop.
  repeat (apply ThrowsWhen_bind; [observe | intros ?]; cbv zeta).
  apply failed_request_throws.
Qed.

(** ** Fast failure on empty inputs *)

(** C6. A try-on call with an empty avatar or with no garment fails at
    once with the validation error of the first violated rule, and the
    world is exactly as before: no request was issued, no file was
    written, nothing was logged. *)
Theorem generateTryOn_empty_input_fails_locally
    (request : TryOnGenerationRequest) (w : World) :
  clothes_b64 request = [] \/ avatar_b64 request = "" ->
  Api.generateTryOn request w
  = (Throw (Error (if String.eqb (avatar_b64 request) ""
                   then "Avatar image is required"
                   else "At least one clothing item is required")), w)
  /\ requests (after (Api.generateTryOn request) w) = requests w
  /\ files (after (Api.generateTryOn request) w) = files w.
Proof.
  intros H.
  assert (E : Api.generateTryOn request w
              = (Throw (Error (if String.eqb (avatar_b64 request) ""
                               then "Avatar image is required"
                               else "At least one clothing item is required")), w)).
  { unfold Api.generateTryOn, truthy_string.
    destruct (String.eqb (avatar_b64 request) "") eqn:Ea; cbn.
    - reflexivity.
    - destruct H as [Hc | Ha].
      + rewrite Hc. reflexivity.
      + rewrite Ha in Ea. discriminate. }
  unfold after. rewrite E. repeat split.
Qed.

Lemma generateTryOn_empty_input_witness :
  Api.generateTryOn Samples.no_garment Samples.world_422
  = (Throw (Error "At least one clothing item is required"), Samples.world_422)
  /\ requests (after (Api.generateTryOn Samples.no_garment) Samples.world_422) = [].
Proof.
  destruct (@generateTryOn_empty_input_fails_locally Samples.no_garment
              Samples.world_422 (or_introl eq_refl)) as (E & Hr & _).
  split; [exact E | exact Hr].
Defined.

(** An empty blob given to [generateAvatar] or [generateVideoLoop] is
    caught by [base64ToTempFile]; no request has been issued by then. *)
Lemma base64ToTempFile_rejects_empty filename w :
  Api.base64ToTempFile "" filename w
  = (Throw (Error ("Invalid base64 data for " ++ filename)), w).
Proof. reflexivity. Qed.

Lemma generateAvatar_empty_selfie request w :
  selfie_b64 request = "" ->
  Api.generateAvatar request w
  = (Throw (Error ("Invalid base64 data for selfie_"
                     ++ number_toString (now w) ++ ".png")), w).
Proof.
  intros E. unfold Api.generateAvatar, bind, Date_now. rewrite E. reflexivity.
Qed.

Lemma generateVideoLoop_empty_image request w :
  video_image_b64 request = "" ->
  Api.generateVideoLoop request w
  = (Throw (Error ("Invalid base64 data for image_"
                     ++ number_toString (now w) ++ ".png")), w).
Proof.
  intros E. unfold Api.generateVideoLoop, bind, Date_now. rewrite E. reflexivity.
Qed.

(** ** Normalisation of error bodies *)

Lemma join_values_of_strings sep (l : list string) :
  join_values sep (map JStr l) = join sep l.
Proof.
  unfold join_values. rewrite map_map. cbn. now rewrite map_id.
Qed.

Lemma location_of_validation fallback (v : ValidationError) :
  Api.location_of (validation_json v) fallback = inr (field_path fallback v).
Proof.
  destruct v as [[l |] m t]; unfold Api.location_of, field_path, validation_json; cbn.
  - rewrite join_values_of_strings. unfold truthy_string.
    now destruct (String.eqb (join "." l) "").
  - destruct m, t; reflexivity.
Qed.

Lemma msg_of_validation (v : ValidationError) :
  prop (validation_json v) "msg" = inr (option_map JStr (msg v)).
Proof. destruct v as [[l |] [m |] [t |]]; reflexivity. Qed.

Lemma tryon_entry_line (v : ValidationError) :
  Api.tryon_detail_entry (validation_json v) = inr (tryon_line v).
Proof.
  unfold Api.tryon_detail_entry, tryon_line.
  rewrite location_of_validation, msg_of_validation.
  destruct (msg v) as [m |]; cbn; [| reflexivity].
  unfold truthy_string. now destruct (String.eqb m "").
Qed.

Lemma avatar_entry_line (v : ValidationError) :
  Api.avatar_detail_entry (validation_json v) = inr (avatar_line v).
Proof.
  unfold Api.avatar_detail_entry, avatar_line.
  rewrite location_of_validation, msg_of_validation.
  f_equal. destruct (msg v); cbn;
    destruct (field_path "field" v); reflexivity.
Qed.

Lemma video_entry_line (v : ValidationError) :
  Api.video_detail_entry (validation_json v) = inr (JStr (video_line v)).
Proof.
  unfold Api.video_detail_entry, video_line.
  rewrite msg_of_validation.
  destruct (msg v) as [m |]; cbn [option_map truthy]; [| reflexivity].
  unfold truthy_string. now destruct (String.eqb m "").
Qed.

Lemma array_map_validation {B} (f : json -> Exn + B) (g : ValidationError -> B)
    (entries : list ValidationError) :
  (forall v, f (validation_json v) = inr (g v)) ->
  Api.array_map f (map validation_json entries) = inr (map g entries).
Proof.
  intros H. induction entries as [| v l IH]; cbn; [reflexivity |].
  now rewrite H, IH.
Qed.

Lemma video_values (entries : list ValidationError) :
  join_values "; " (map (fun v => JStr (video_line v)) entries)
  = join "; " (map video_line entries).
Proof.
  rewrite <- join_values_of_strings. now rewrite map_map.
Qed.

Section Normalisation.
Context {T : Type} (r : Response T) (w : World).

Lemma tryon_list_message members entries :
  parsed r = Some (JObj members) ->
  lookup "detail" members = Some (JArr (map validation_json entries)) ->
  outcome (Api.tryon_failure r) w
  = Return (Error (join "; " (map tryon_line entries))).
Proof.
  intros Hp Hd. unfold outcome, Api.tryon_failure, bind, console_error, modify.
  cbn. rewrite Hp. cbn. rewrite Hd. cbn.
  now rewrite (array_map_validation _ _ entries tryon_entry_line).
Qed.

Lemma tryon_string_message members reason :
  parsed r = Some (JObj members) ->
  lookup "detail" members = Some (JStr reason) ->
  outcome (Api.tryon_failure r) w = Return (Error reason).
Proof.
  intros Hp Hd. unfold outcome, Api.tryon_failure, bind, console_error, modify.
  cbn. rewrite Hp. cbn. now rewrite Hd.
Qed.

Lemma tryon_unparsed_message :
  parsed r = None ->
  outcome (Api.tryon_failure r) w
  = Return (Error ("Server error: " ++ number_toString (status r)
                     ++ " " ++ statusText r)).
Proof.
  intros Hp. unfold outcome, Api.tryon_failure, bind, console_error, modify.
  cbn. now rewrite Hp.
Qed.

Lemma avatar_list_message members entries :
  parsed r = Some (JObj members) ->
  lookup "detail" members = Some (JArr (map validation_json entries)) ->
  outcome (Api.avatar_failure r) w
  = Return (Error (join "; " (map avatar_line entries))).
Proof.
  intros Hp Hd.
  unfold outcome, Api.avatar_failure, bind, catch_value, try_catch,
    response_json_any.
  rewrite Hp. cbn. rewrite Hd. cbn.
  now rewrite (array_map_validation _ _ entries avatar_entry_line).
Qed.

Lemma avatar_string_message members reason :
  parsed r = Some (JObj members) ->
  lookup "detail" members = Some (JStr reason) ->
  outcome (Api.avatar_failure r) w = Return (Error reason).
Proof.
  intros Hp Hd.
  unfold outcome, Api.avatar_failure, bind, catch_value, try_catch,
    response_json_any.
  rewrite Hp. cbn. now rewrite Hd.
Qed.

Lemma avatar_unparsed_message :
  parsed r = None ->
  outcome (Api.avatar_failure r) w = Return (Error (statusText r)).
Proof.
  intros Hp.
  unfold outcome, Api.avatar_failure, bind, catch_value, try_catch,
    response_json_any.
  now rewrite Hp.
Qed.

Lemma video_list_message members entries :
  parsed r = Some (JObj members) ->
  lookup "detail" members = Some (JArr (map validation_json entries)) ->
  outcome (Api.video_failure r) w
  = Return (Error (join "; " (map video_line entries))).
Proof.
  intros Hp Hd.
  unfold outcome, Api.video_failure, bind, catch_value, try_catch,
    response_json_any.
  rewrite Hp. cbn. rewrite Hd. cbn.
  rewrite (array_map_validation _ _ entries video_entry_line). cbn.
  now rewrite video_values.
Qed.

Lemma video_string_message members reason :
  parsed r = Some (JObj members) ->
  lookup "detail" members = Some (JStr reason) ->
  outcome (Api.video_failure r) w = Return (Error reason).
Proof.
  intros Hp Hd.
  unfold outcome, Api.video_failure, bind, catch_value, try_catch,
    response_json_any.
  rewrite Hp. cbn. now rewrite Hd.
Qed.

Lemma video_unparsed_message :
  parsed r = None ->
  outcome (Api.video_failure r) w = Return (Error (statusText r)).
Proof.
  intros Hp.
  unfold outcome, Api.video_failure, bind, catch_value, try_catch,
    response_json_any.
  now rewrite Hp.
Qed.

End Normalisation.



(** The error computed by [tryon_failure] is the one [generateTryOn]
    throws when the endpoint answers with a non-success status. *)
Lemma generateTryOn_throws_normalised request w formData w1 r :
  avatar_b64 request <> "" ->
  clothes_b64 request <> [] ->
  Api.prepare_tryon_form request w = (Return formData, w1) ->
  let q := {| url_base := baseUrl (apiConfig w1);
              url_path := "/generate/tryon";
              method := "POST";
              headers := Api.api_key_headers (apiConfig w1);
              body := formData |} in
  serveTryOn (env w1) q = Some r ->
  ok r = false ->
  outcome (Api.generateTryOn request) w
  = match outcome (Api.tryon_failure r)
            (with_requests (requests w1 ++ [q])%list w1) with
    | Return e => Throw e
    | Throw e => Throw e
    end.
Proof.
  intros Ha Hc Hprep q Hq Hok.
  unfold outcome, Api.generateTryOn, truthy_string.
  destruct (String.eqb (avatar_b64 request) "") eqn:Ea;
    [apply String.eqb_eq in Ea; contradiction |].
  destruct (clothes_b64 request) as [| c cs] eqn:Ec; [contradiction |].
  cbn [negb List.length Nat.eqb].
  unfold bind at 1. unfold try_catch. rewrite Hprep.
  unfold bind at 1. unfold get.
  unfold bind at 1. unfold fetch. fold q. rewrite Hq.
  rewrite Hok. cbn [negb].
  unfold bind at 1.
  destruct (Api.tryon_failure r _) as [[e | e] w2]; reflexivity.
Qed.

(** ** The thrown error is the normalised one *)

Lemma independent_ret {A} (a : A) : WorldIndependent (ret a).
Proof. intros w w'. reflexivity. Qed.

Lemma independent_throw {A} (e : Exn) : WorldIndependent (throw e : M A).
Proof. intros w w'. reflexivity. Qed.

Lemma independent_lift {A} (x : Exn + A) : WorldIndependent (Api.lift x).
Proof. destruct x; intros w w'; reflexivity. Qed.

Lemma independent_modify f : WorldIndependent (modify f).
Proof. intros w w'. reflexivity. Qed.

Lemma independent_bind {A B} (m : M A) (k : A -> M B) :
  WorldIndependent m -> (forall a, WorldIndependent (k a)) ->
  WorldIndependent (bind m k).
Proof.
  intros Hm Hk w w'. specialize (Hm w w'). unfold outcome, bind in *.
  destruct (m w) as [[a | e] w1], (m w') as [[a' | e'] w1']; cbn in Hm;
    try discriminate; injection Hm as <-; [apply Hk | reflexivity].
Qed.

Lemma independent_try_catch {A} (m : M A) (h : Exn -> M A) :
  WorldIndependent m -> (forall e, WorldIndependent (h e)) ->
  WorldIndependent (try_catch m h).
Proof.
  intros Hm Hh w w'. specialize (Hm w w'). unfold outcome, try_catch in *.
  destruct (m w) as [[a | e] w1], (m w') as [[a' | e'] w1']; cbn in Hm;
    try discriminate; injection Hm as <-; [reflexivity | apply Hh].
Qed.

Ltac independent :=
  repeat first
    [ apply independent_ret | apply independent_throw | apply independent_lift
    | apply independent_modify
    | apply independent_bind; [| intros ?]
    | apply independent_try_catch; [| intros ?]
    | match goal with
      | |- WorldIndependent (match ?x with _ => _ end) => destruct x
      | |- WorldIndependent (let _ := _ in _) => cbv zeta
      end ].

Lemma tryon_failure_independent {T} (r : Response T) :
  WorldIndependent (Api.tryon_failure r).
Proof. unfold Api.tryon_failure, console_error. independent. Qed.

Lemma avatar_failure_independent {T} (r : Response T) :
  WorldIndependent (Api.avatar_failure r).
Proof. unfold Api.avatar_failure, catch_value, response_json_any. independent. Qed.

Lemma video_failure_independent {T} (r : Response T) :
  WorldIndependent (Api.video_failure r).
Proof. unfold Api.video_failure, catch_value, response_json_any. independent. Qed.

Lemma requests_not_extended (l : list Request) q : l <> (l ++ [q])%list.
Proof.
  intros E. apply (f_equal (@List.length _)) in E.
  rewrite length_app in E. cbn in E. lia.
Qed.

Section Normalised.
Context {T : Type} (serve : Env -> Request -> option (Response T)).
Context (failure : Response T -> M Exn).
Hypothesis failure_independent : forall r, WorldIndependent (failure r).
Hypothesis failure_requests : forall r, Preserves requests (failure r).

Lemma normalised_throw e : ThrowsNormalised serve failure (throw e).
Proof.
  intros w q r Hreq _ _. cbn in Hreq. now apply requests_not_extended in Hreq.
Qed.

Lemma normalised_bind {A} (m : M A) (k : A -> M T) :
  Preserves requests m ->
  Preserves env m ->
  (forall a, ThrowsNormalised serve failure (k a)) ->
  ThrowsNormalised serve failure (bind m k).
Proof.
  intros Hrq Henv Hk w q r Hreq Hserve Hok.
  specialize (Hrq w). specialize (Henv w).
  unfold after in Hrq, Henv, Hreq. unfold outcome. unfold bind in *.
  destruct (m w) as [[a | e] w1]; cbn [fst snd] in *.
  - pose proof (Hk a w1 q r) as H. unfold after, outcome in H.
    rewrite <- Hrq in Hreq. rewrite <- Henv in Hserve.
    rewrite (H Hreq Hserve Hok). f_equal.
    unfold raised. now rewrite (failure_independent r w1 w).
  - rewrite Hrq in Hreq. now apply requests_not_extended in Hreq.
Qed.

Lemma normalised_request q0 :
  ThrowsNormalised serve failure
    (response <- fetch serve q0 ;;
     if negb (ok response)
     then (e <- failure response ;; throw e)
     else response_json response).
Proof.
  intros w q r Hreq Hserve Hok.
  assert (Hq : q0 = q).
  { unfold after, bind, fetch in Hreq.
    destruct (serve (env w) q0) as [r0 |]; cbn [fst snd] in Hreq.
    - assert (E : requests (with_requests (requests w ++ [q0])%list w)
                  = (requests w ++ [q])%list).
      { rewrite <- Hreq. destruct (negb (ok r0)).
        - unfold bind. pose proof (failure_requests r0
            (with_requests (requests w ++ [q0])%list w)) as Hf.
          unfold after in Hf.
          destruct (failure r0 _) as [[e | e] w2]; cbn in *; congruence.
        - unfold response_json. destruct (payload r0); reflexivity. }
      cbn in E. apply app_inv_head in E. congruence.
    - cbn in Hreq. apply app_inv_head in Hreq. congruence. }
  subst q0. unfold outcome, bind, fetch. rewrite Hserve, Hok. cbn [negb fst snd].
  unfold raised, outcome.
  pose proof (failure_independent r (with_requests (requests w ++ [q])%list w) w) as Hi.
  unfold outcome in Hi.
  destruct (failure r (with_requests _ w)) as [[e | e] w2]; cbn in *;
    rewrite <- Hi; reflexivity.
Qed.

End Normalised.

Lemma generateAvatar_normalised request :
  ThrowsNormalised serveAvatar Api.avatar_failure (Api.generateAvatar request).
Proof.
  unfold Api.generateAvatar.
  repeat (apply normalised_bind;
          [apply avatar_failure_independent | observe | observe | intros ?];
          cbv zeta).
  apply normalised_request;
    [apply avatar_failure_independent
    | intros r; apply Frame.avatar_failure_frame; intros; reflexivity].
Qed.

Lemma generateTryOn_normalised request :
  ThrowsNormalised serveTryOn Api.tryon_failure (Api.generateTryOn request).
Proof.
  unfold Api.generateTryOn.
  destruct (negb _); [apply normalised_throw |].
  destruct (Nat.eqb _ _); [apply normalised_throw |].
  apply normalised_bind; [apply tryon_failure_independent | | | intros formData].
  - apply Frame.Preserves_try_catch; [observe | intros e].
    apply Frame.Preserves_bind; [observe | intros _; observe].
  - apply Frame.Preserves_try_catch; [observe | intros e].
    apply Frame.Preserves_bind; [observe | intros _; observe].
  - apply normalised_bind;
      [apply tryon_failure_independent | observe | observe | intros w1].
    apply normalised_request;
      [apply tryon_failure_independent
      | intros r; apply Frame.tryon_failure_frame; intros; reflexivity].
Qed.

Lemma generateVideoLoop_normalised request :
  ThrowsNormalised serveVideoLoop Api.video_failure (Api.generateVideoLoop request).
Proof.
  unfold Api.generateVideoLoop.
  repeat (apply normalised_bind;
          [apply video_failure_independent | observe | observe | intros ?];
          cbv zeta).
  apply normalised_request;
    [apply video_failure_independent
    | intros r; apply Frame.video_failure_frame; intros; reflexivity].
Qed.

(** ** Temporary download of [imageUriToBase64] *)

Lemma file_lookup_removed path fs : file_lookup path (file_remove path fs) = None.
Proof.
  induction fs as [| [p c] fs IH]; cbn; [reflexivity |].
  destruct (String.eqb path p) eqn:E; cbn; [assumption |].
  now rewrite E.
Qed.

(** On the success path the temporary file is gone after the call. *)
Lemma temp_file_removed_after_success uri w content :
  startsWith "data:" uri = false ->
  startsWith "file://" uri || startsWith "/" uri = false ->
  download (env w) uri = Downloaded 200 content ->
  let temp := Api.cacheDirectory_text w ++ "temp_" ++ number_toString (now w) ++ ".png" in
  outcome (Api.imageUriToBase64 uri) w = Return content
  /\ file_exists temp (after (Api.imageUriToBase64 uri) w) = false.
Proof.
  intros Hd Hf Hdl temp.
  unfold outcome, after, Api.imageUriToBase64. rewrite Hd, Hf.
  unfold try_catch, Api.download_and_encode, bind, Date_now, get, downloadAsync.
  cbn. rewrite Hdl. cbn.
  unfold readAsStringAsync. cbn. rewrite String.eqb_refl. cbn.
  split; [reflexivity |].
  unfold file_exists. cbn. rewrite String.eqb_refl.
  fold temp. now rewrite file_lookup_removed.
Qed.

(** C9 fails on the code: when the download of a remote image is
    answered with a status other than 200, [imageUriToBase64] throws and
    the temporary file it downloaded into is still there. The deletion
    sits on the success path only. *)
Theorem temp_file_left_after_failed_download :
  let w' := after (Api.imageUriToBase64 Samples.remote_image) Samples.world_404 in
  outcome (Api.imageUriToBase64 Samples.remote_image) Samples.world_404
    = Throw (Error "Failed to convert image: Failed to download image: 404")
  /\ file_exists Samples.remote_temp_file Samples.world_404 = false
  /\ temp_file_left Samples.remote_temp_file w'
  /\ files w' = [(Samples.remote_temp_file, "Tm90IEZvdW5k")].
Proof. repeat split. Qed.

End ApiFacts.

(* ================================================================== *)
(** * Facts about the try-on pipeline *)
(* ================================================================== *)

Module PipelineFacts.
Import Js Wire Runtime StoreState ScreenState Spec Frame.

Lemma tryBlock_regrouped r w :
  Screen.tryBlock r w = bind (tryOnStep r) (Screen.afterTryOn r) w.
Proof.
  unfold Screen.tryBlock, tryOnStep, bind.
  destruct (Screen.getAvatarImage r w) as [[a | e] w1]; [| reflexivity].
  destruct (Screen.getClothingImages r w1) as [[c | e] w2]; reflexivity.
Qed.

(** What [handleGenerate] does once its guard is passed. *)
Lemma handleGenerate_runs r w :
  Screen.canGenerate r = true ->
  isGenerating r = false ->
  Screen.handleGenerate r w
  = try_finally
      (try_catch (bind (tryOnStep r) (Screen.afterTryOn r)) Screen.catchBlock)
      (Screen.setIsGenerating false) (started w).
Proof.
  intros Hc Hg. unfold Screen.handleGenerate. rewrite Hc, Hg. cbn [negb orb].
  unfold bind at 1 2. cbn [Screen.setIsGenerating Screen.setTranslateY modify].
  unfold try_finally, try_catch. rewrite tryBlock_regrouped. reflexivity.
Qed.

Lemma video_calls_blind_to_tryon :
  blind_to_requests_for Screen.video_calls "/generate/tryon".
Proof.
  intros q w Hq. unfold Screen.video_calls. cbn.
  rewrite filter_app, length_app. cbn. rewrite Hq. cbn. lia.
Qed.

Lemma tryOnStep_sends_no_video_request r :
  Preserves Screen.video_calls (tryOnStep r).
Proof.
  apply tryOnStep_frame; try (intros; reflexivity).
  apply video_calls_blind_to_tryon.
Qed.

(** [handleGenerate] never throws: whatever the [try] block throws is
    caught. *)
Lemma handleGenerate_returns r w :
  outcome (Screen.handleGenerate r) w = Return tt.
Proof.
  unfold outcome, Screen.handleGenerate.
  destruct (negb (Screen.canGenerate r) || isGenerating r); [reflexivity |].
  unfold bind at 1 2. cbn [Screen.setIsGenerating Screen.setTranslateY modify].
  unfold try_finally, try_catch.
  destruct (Screen.tryBlock r _) as [[[] | e] w1]; reflexivity.
Qed.

(** The world the [catch] and [finally] blocks leave, entered in [w1]
    with the error [e]. *)
Lemma handleGenerate_after_throw r w e w1 :
  Screen.canGenerate r = true ->
  isGenerating r = false ->
  bind (tryOnStep r) (Screen.afterTryOn r) (started w) = (Throw e, w1) ->
  Screen.handleGenerate r w
  = (Return tt,
     after (Screen.setIsGenerating false) (after (Screen.catchBlock e) w1)).
Proof.
  intros Hc Hg Hthrow. rewrite (@handleGenerate_runs r w Hc Hg).
  unfold try_finally, try_catch. rewrite Hthrow. reflexivity.
Qed.

Lemma after_catch_and_finally e w1 :
  let w' := after (Screen.setIsGenerating false) (after (Screen.catchBlock e) w1) in
  requests w' = requests w1
  /\ console w' = (console w1 ++ [("Generation failed:", LogError e)])%list
  /\ alerts w'
     = (alerts w1 ++ [("Error", "Failed to generate result. Please try again.")])%list
  /\ store w' = store w1
  /\ resultUri (screen w') = resultUri (screen w1)
  /\ resultType (screen w') = resultType (screen w1)
  /\ isGenerating (screen w') = false
  /\ translateY (screen w') = SNAP_TOP.
Proof. repeat split. Qed.

Lemma started_frame w :
  requests (started w) = requests w
  /\ console (started w) = console w
  /\ alerts (started w) = alerts w
  /\ store (started w) = store w
  /\ resultUri (screen (started w)) = resultUri (screen w)
  /\ resultType (screen (started w)) = resultType (screen w).
Proof. repeat split. Qed.

(** C3. When the try-on step of a run fails, [handleGenerate] completes
    without having sent any request to the video-loop endpoint; the
    failure is reported: the try-on step's own error is logged with
    ["Generation failed:"] and the error alert is shown; nothing is
    added to the history, the displayed result is the previous one, and
    the generating flag is cleared. *)
Theorem failed_tryon_never_dispatches_video
    (r : Screen) (w : World) (e : Exn) :
  Screen.canGenerate r = true ->
  isGenerating r = false ->
  outcome (tryOnStep r) (started w) = Throw e ->
  let w' := after (Screen.handleGenerate r) w in
  outcome (Screen.handleGenerate r) w = Return tt
  /\ Screen.video_calls w' = Screen.video_calls w
  /\ console w'
     = (console (after (tryOnStep r) (started w))
          ++ [("Generation failed:", LogError e)])%list
  /\ alerts w'
     = (alerts w ++ [("Error", "Failed to generate result. Please try again.")])%list
  /\ store w' = store w
  /\ resultUri (screen w') = resultUri (screen w)
  /\ resultType (screen w') = resultType (screen w)
  /\ isGenerating (screen w') = false.
Proof.
  intros Hc Hg Hfail w'.
  split; [apply handleGenerate_returns |].
  pose proof (tryOnStep_sends_no_video_request r (started w)) as Hv.
  assert (Ha : alerts (after (tryOnStep r) (started w)) = alerts (started w))
    by (apply tryOnStep_frame; unfold blind_to_requests_for; intros; reflexivity).
  assert (Hs : store (after (tryOnStep r) (started w)) = store (started w))
    by (apply tryOnStep_frame; unfold blind_to_requests_for; intros; reflexivity).
  assert (Hsc : screen (after (tryOnStep r) (started w)) = screen (started w))
    by (apply tryOnStep_frame; unfold blind_to_requests_for; intros; reflexivity).
  unfold outcome, after in Hfail, Hv, Ha, Hs, Hsc |- *.
  destruct (tryOnStep r (started w)) as [c w1] eqn:Estep.
  cbn [fst snd] in *. subst c.
  assert (Hthrow : bind (tryOnStep r) (Screen.afterTryOn r) (started w) = (Throw e, w1))
    by (unfold bind; now rewrite Estep).
  subst w'. unfold after. rewrite (handleGenerate_after_throw r w Hc Hg Hthrow).
  cbn [snd].
  destruct (after_catch_and_finally e w1) as (Hq & Hco & Hal & Hst & Hru & Hrt & Hig & _).
  destruct (started_frame w) as (_ & _ & Hal0 & Hst0 & Hru0 & Hrt0).
  split; [| split; [| split; [| split; [| split; [| split]]]]].
  - unfold Screen.video_calls in *. rewrite Hq. exact Hv.
  - exact Hco.
  - rewrite Hal, Ha. now rewrite Hal0.
  - rewrite Hst, Hs. exact Hst0.
  - rewrite Hru, Hsc. exact Hru0.
  - rewrite Hrt, Hsc. exact Hrt0.
  - exact Hig.
Qed.

Lemma failed_tryon_witness :
  Screen.video_calls (after (Screen.handleGenerate Samples.video_screen) Samples.world_422) = 0
  /\ alerts (after (Screen.handleGenerate Samples.video_screen) Samples.world_422)
     = [("Error", "Failed to generate result. Please try again.")]
  /\ console (after (Screen.handleGenerate Samples.video_screen) Samples.world_422)
     = [("[API] Error response body:", LogText Samples.too_short_text);
        ("Generation failed:", LogError (Error "clothes: too short"))].
Proof.
  destruct (@failed_tryon_never_dispatches_video Samples.video_screen
              Samples.world_422 (Error "clothes: too short")
              eq_refl eq_refl eq_refl)
    as (_ & Hv & Hc & Ha & _).
  split; [exact Hv | split; [exact Ha | exact Hc]].
Defined.

(** C4, as the code has it. When the try-on step succeeds and the video
    step then fails, [handleGenerate] completes, the video step's error
    is logged with ["Generation failed:"] and the error alert is shown;
    the try-on image is not kept: the displayed result and its type are
    the previous ones and the store (history, try-on results) is
    unchanged. *)
Theorem failed_video_reports_and_discards_tryon
    (r : Screen) (w : World) (t : TryOnResponse) (e : Exn) :
  Screen.canGenerate r = true ->
  isGenerating r = false ->
  generationMode r = video ->
  outcome (tryOnStep r) (started w) = Return t ->
  outcome (Screen.generateVideo t) (after (tryOnStep r) (started w)) = Throw e ->
  let w' := after (Screen.handleGenerate r) w in
  outcome (Screen.handleGenerate r) w = Return tt
  /\ console w'
     = (console (after (Screen.generateVideo t) (after (tryOnStep r) (started w)))
          ++ [("Generation failed:", LogError e)])%list
  /\ alerts w'
     = (alerts w ++ [("Error", "Failed to generate result. Please try again.")])%list
  /\ store w' = store w
  /\ resultUri (screen w') = resultUri (screen w)
  /\ resultType (screen w') = resultType (screen w)
  /\ isGenerating (screen w') = false.
Proof.
  intros Hc Hg Hmode Hstep Hvideo w'.
  split; [apply handleGenerate_returns |].
  set (w1 := after (tryOnStep r) (started w)) in *.
  assert (Ha : alerts w1 = alerts (started w))
    by (apply tryOnStep_frame; unfold blind_to_requests_for; intros; reflexivity).
  assert (Hs : store w1 = store (started w))
    by (apply tryOnStep_frame; unfold blind_to_requests_for; intros; reflexivity).
  assert (Hsc : screen w1 = screen (started w))
    by (apply tryOnStep_frame; unfold blind_to_requests_for; intros; reflexivity).
  assert (Ha2 : alerts (after (Screen.generateVideo t) w1) = alerts w1)
    by (apply generateVideo_frame; unfold blind_to_requests_for; intros; reflexivity).
  assert (Hs2 : store (after (Screen.generateVideo t) w1) = store w1)
    by (apply generateVideo_frame; unfold blind_to_requests_for; intros; reflexivity).
  assert (Hsc2 : screen (after (Screen.generateVideo t) w1) = screen w1)
    by (apply generateVideo_frame; unfold blind_to_requests_for; intros; reflexivity).
  set (w2 := after (Screen.generateVideo t) w1) in *.
  assert (Hthrow : bind (tryOnStep r) (Screen.afterTryOn r) (started w) = (Throw e, w2)).
  { unfold bind, Screen.afterTryOn. rewrite Hmode.
    subst w2 w1. unfold outcome, after in *.
    destruct (tryOnStep r (started w)) as [c wa]. cbn [fst snd] in *. subst c.
    unfold bind.
    destruct (Screen.generateVideo t wa) as [c wb]. cbn [fst snd] in *.
    now subst c. }
  subst w'. unfold after at 1 2 3 4 5 6.
  rewrite (handleGenerate_after_throw r w Hc Hg Hthrow). cbn [snd].
  destruct (after_catch_and_finally e w2) as (_ & Hco & Hal & Hst & Hru & Hrt & Hig & _).
  destruct (started_frame w) as (_ & _ & Hal0 & Hst0 & Hru0 & Hrt0).
  split; [| split; [| split; [| split; [| split]]]].
  - exact Hco.
  - rewrite Hal, Ha2, Ha. now rewrite Hal0.
  - rewrite Hst, Hs2, Hs. exact Hst0.
  - rewrite Hru, Hsc2, Hsc. exact Hru0.
  - rewrite Hrt, Hsc2, Hsc. exact Hrt0.
  - exact Hig.
Qed.

Lemma failed_video_witness :
  alerts (after (Screen.handleGenerate Samples.video_screen) Samples.world_video_500)
    = [("Error", "Failed to generate result. Please try again.")]
  /\ resultUri (screen (after (Screen.handleGenerate Samples.video_screen)
                          Samples.world_video_500)) = None
  /\ history (after (Screen.handleGenerate Samples.video_screen)
                Samples.world_video_500) = [].
Proof.
  destruct (@failed_video_reports_and_discards_tryon Samples.video_screen
              Samples.world_video_500 Samples.tryon_image
              (Error "Video loop generation failed")
              eq_refl eq_refl eq_refl eq_refl eq_refl)
    as (_ & _ & Ha & Hs & Hr & _).
  split; [exact Ha | split; [exact Hr |]].
  unfold history. rewrite Hs. reflexivity.
Defined.

(** C4, as stated, fails: in a run where the try-on call succeeds and
    the video-loop call is answered with 500, the try-on image is
    nowhere afterwards: not displayed, not in the history, not a
    completed try-on artifact of the store. *)
Lemma tryon_image_lost_when_video_fails :
  outcome (tryOnStep Samples.video_screen) (started Samples.world_video_500)
    = Return Samples.tryon_image
  /\ outcome (Screen.generateVideo Samples.tryon_image)
       (after (tryOnStep Samples.video_screen) (started Samples.world_video_500))
     = Throw (Error "Video loop generation failed")
  /\ ~ tryOnPreserved (image_b64 Samples.tryon_image)
         (after (Screen.handleGenerate Samples.video_screen) Samples.world_video_500).
Proof.
  split; [reflexivity | split; [reflexivity |]].
  intros [H | [(h & Hin & _) | (t & Hin & _)]].
  - discriminate H.
  - exact Hin.
  - exact Hin.
Qed.

(** ** Failures at the client boundary *)

(** The normalisation of a readable body completes. *)
Lemma detail_entries_readable (entries : list json) :
  forallb entry_readable entries = true ->
  (exists lines, Api.array_map Api.avatar_detail_entry entries = inr lines)
  /\ (exists lines, Api.array_map Api.tryon_detail_entry entries = inr lines)
  /\ (exists values, Api.array_map Api.video_detail_entry entries = inr values).
Proof.
  induction entries as [| e rest IH]; intros H; [cbn; repeat split; eauto |].
  cbn [forallb] in H. apply andb_prop in H. destruct H as [He Hrest].
  destruct (IH Hrest) as ((la & Ea) & (lt & Et) & (lv & Ev)).
  cbn [Api.array_map]. rewrite Ea, Et, Ev.
  unfold Api.avatar_detail_entry, Api.tryon_detail_entry, Api.video_detail_entry,
    Api.location_of.
  destruct e as [| b | n | x | l | members]; try discriminate He; cbn [prop].
  5: { unfold entry_readable in He.
       destruct (lookup "loc" members) as [[| b | n | x | l | ms] |];
         try discriminate He; cbn; repeat split; eauto. }
  all: cbn; repeat split; eauto.
Qed.

Lemma avatar_failure_readable {T} (r : Response T) (w : World) :
  body_readable r = true ->
  exists msg, outcome (Api.avatar_failure r) w = Return (Error msg).
Proof.
  unfold body_readable, outcome, Api.avatar_failure, catch_value, try_catch,
    response_json_any, bind.
  destruct (parsed r) as [[| b | n | x | l | members] |]; cbn;
    intros H; try discriminate H; eauto.
  destruct (lookup "detail" members) as [[| b | n | x | entries | ms] |]; cbn; eauto.
  destruct (detail_entries_readable entries H) as ((lines & E) & _).
  rewrite E. cbn. eauto.
Qed.

Lemma tryon_failure_readable {T} (r : Response T) (w : World) :
  body_readable r = true ->
  exists msg, outcome (Api.tryon_failure r) w = Return (Error msg).
Proof.
  unfold body_readable, outcome, Api.tryon_failure, console_error, modify, bind.
  cbn [fst snd].
  destruct (parsed r) as [[| b | n | x | l | members] |]; cbn;
    intros H; try discriminate H; eauto.
  destruct (lookup "detail" members) as [[| b | n | x | entries | ms] |]; cbn;
    try (destruct (truthy (lookup "message" members)); cbn; eauto; fail); eauto.
  destruct (detail_entries_readable entries H) as (_ & (lines & E) & _).
  rewrite E. cbn. eauto.
Qed.

Lemma video_failure_readable {T} (r : Response T) (w : World) :
  body_readable r = true ->
  exists msg, outcome (Api.video_failure r) w = Return (Error msg).
Proof.
  unfold body_readable, outcome, Api.video_failure, catch_value, try_catch,
    response_json_any, bind.
  destruct (parsed r) as [[| b | n | x | l | members] |]; cbn;
    intros H; try discriminate H; eauto.
  destruct (lookup "detail" members) as [[| b | n | x | entries | ms] |]; cbn; eauto.
  destruct (detail_entries_readable entries H) as (_ & _ & (values & E)).
  rewrite E. cbn. eauto.
Qed.

(** On the JSON body [null] the normalisation itself fails: reading
    [error.detail] raises the engine's [TypeError]. *)
Lemma failure_of_null_body {T} (r : Response T) (w : World) :
  parsed r = Some JNull ->
  (exists msg, raised (Api.avatar_failure r) w = TypeError msg)
  /\ (exists msg, raised (Api.tryon_failure r) w = TypeError msg)
  /\ (exists msg, raised (Api.video_failure r) w = TypeError msg).
Proof.
  intros H.
  unfold raised, outcome, Api.avatar_failure, Api.tryon_failure, Api.video_failure,
    catch_value, try_catch, response_json_any, console_error, modify, bind.
  rewrite H. cbn. repeat split; eauto.
Qed.

Lemma raised_of_return (m : M Exn) (w : World) (e : Exn) :
  outcome m w = Return e -> raised m w = e.
Proof. unfold raised. now intros ->. Qed.




(** Answered with the JSON body [null], the three calls throw the
    [TypeError] of the failed property read, not an [Error] with a
    normalised message. *)
Example null_body_throws_a_TypeError :
  outcome (Api.generateTryOn Samples.one_garment) Samples.world_null_500
    = Throw (TypeError "Cannot read property 'detail' of null")
  /\ outcome (Api.generateAvatar Samples.two_photos) Samples.world_null_500
     = Throw (TypeError "Cannot read property 'detail' of null")
  /\ outcome (Api.generateVideoLoop Samples.still_image) Samples.world_null_500
     = Throw (TypeError "Cannot read property 'detail' of null").
Proof. repeat split. Qed.

End PipelineFacts.

(* ================================================================== *)
(** * Facts about the other store actions *)
(* ================================================================== *)

Module StoreMoreFacts.
Import Js Types Runtime StoreState Spec.

Lemma world_eta (w : World) : with_store (store w) w = w.
Proof. now destruct w. Qed.

Lemma filter_excludes {A} (key : A -> string) (id : string) (l : list A) (x : A) :
  In x (filter (fun y => negb (String.eqb (key y) id)) l) -> key x <> id.
Proof.
  intros H E. apply filter_In in H. destruct H as [_ H].
  rewrite E, String.eqb_refl in H. discriminate.
Qed.

Lemma find_some_key {A} (key : A -> string) (pointer : option string)
    (l : list A) (x : A) :
  array_find (fun y => StoreMore.points_to pointer (key y)) l = Some x ->
  In x l /\ pointer = Some (key x).
Proof.
  intros H. apply find_some in H. destruct H as [Hin Hp]. split; [assumption |].
  destruct pointer as [p |]; cbn in Hp; [| discriminate].
  apply String.eqb_eq in Hp. now subst.
Qed.

Lemma cleared_if_not (pointer : option string) (id : string) :
  StoreMore.cleared_if pointer id <> Some id.
Proof.
  unfold StoreMore.cleared_if, StoreMore.points_to.
  destruct pointer as [p |]; [| discriminate].
  destruct (String.eqb p id) eqn:E; [discriminate |].
  intros H. injection H as ->. rewrite String.eqb_refl in E. discriminate.
Qed.

Lemma cleared_if_other (pointer : option string) (id : string) :
  pointer <> Some id -> StoreMore.cleared_if pointer id = pointer.
Proof.
  unfold StoreMore.cleared_if, StoreMore.points_to. intros H.
  destruct pointer as [p |]; [| reflexivity].
  destruct (String.eqb p id) eqn:E; [| reflexivity].
  apply String.eqb_eq in E. subst. contradiction.
Qed.


(** X2. Removing a clothing item removes it from the catalogue and from
    the selection, so the selected clothing never contains it; clothing
    sets are left as they are, also those that list the removed id. *)
Theorem removeClothingItem_unselects_but_keeps_sets (w : World) (id : string) :
  let s := store w in
  let s' := store (after (Store.removeClothingItem id) w) in
  (forall item, In item (clothingItems s') <-> In item (clothingItems s) /\ item_id item <> id)
  /\ (forall cid, In cid (selectedClothingIds s')
                  <-> In cid (selectedClothingIds s) /\ cid <> id)
  /\ (forall item, In item (StoreMore.selectSelectedClothing s') -> item_id item <> id)
  /\ clothingSets s' = clothingSets s.
Proof.
  cbn zeta. split; [| split; [| split]].
  - intros item. change (clothingItems (store (after (Store.removeClothingItem id) w)))
      with (filter (fun i => negb (String.eqb (item_id i) id)) (clothingItems (store w))).
    rewrite filter_In. split; intros [Hin H]; split; try assumption.
    + intros E. rewrite E, String.eqb_refl in H. discriminate.
    + apply Bool.negb_true_iff. now apply String.eqb_neq.
  - intros cid. change (selectedClothingIds (store (after (Store.removeClothingItem id) w)))
      with (filter (fun c => negb (String.eqb c id)) (selectedClothingIds (store w))).
    rewrite filter_In. split; intros [Hin H]; split; try assumption.
    + intros E. rewrite E, String.eqb_refl in H. discriminate.
    + apply Bool.negb_true_iff. now apply String.eqb_neq.
  - intros item H. unfold StoreMore.selectSelectedClothing in H.
    apply filter_In in H. destruct H as [Hin _].
    revert Hin. apply (filter_excludes item_id).
  - reflexivity.
Qed.

Lemma find_last_fresh {A} (p : A -> bool) (l : list A) (x : A) :
  (forall y, In y l -> p y = false) -> p x = true ->
  find p (l ++ [x])%list = Some x.
Proof.
  intros Hl Hx. induction l as [| y l IH]; cbn.
  - now rewrite Hx.
  - rewrite (Hl y (or_introl eq_refl)). apply IH.
    intros z Hz. apply Hl. now right.
Qed.

(** X3. [addAvatar] appends the new avatar, stamped with the current
    time, and returns its id; when no avatar carries that id yet,
    selecting the returned id makes [selectSelectedAvatar] return
    exactly the avatar that was added. *)
Theorem addAvatar_then_select_finds_it (w : World) (avatar : StoreMore.AvatarInput) :
  let id := toString36 (now w) ++ "-" ++ hd "" (entropy w) in
  (forall a, In a (avatars (store w)) -> avatar_id a <> id) ->
  let w1 := after (StoreMore.addAvatar avatar) w in
  let w2 := after (StoreMore.selectAvatar (Some id)) w1 in
  outcome (StoreMore.addAvatar avatar) w = Return id
  /\ exists a,
       avatars (store w2) = (avatars (store w) ++ [a])%list
       /\ StoreMore.selectSelectedAvatar (store w2) = Some a
       /\ avatar_id a = id
       /\ avatar_createdAt a = now w
       /\ avatar_updatedAt a = now w
       /\ avatar_status a = StoreMore.new_avatar_status avatar
       /\ avatar_imageUri a = StoreMore.new_avatar_imageUri avatar
       /\ avatar_name a = StoreMore.new_avatar_name avatar.
Proof.
  intros id Hfresh w1 w2. subst w1 w2.
  unfold outcome, after, StoreMore.addAvatar, Store.generateId, Store.new_Date,
    bind, Date_now, random_suffix.
  destruct (entropy w) as [| r rest] eqn:E; cbn [hd] in *; cbn.
  all: split; [reflexivity |].
  all: eexists; split; [reflexivity |]; split; [| repeat split].
  all: unfold StoreMore.selectSelectedAvatar, array_find; cbn.
  all: apply find_last_fresh;
    [ intros y Hy; apply String.eqb_neq; intros Eq; symmetry in Eq;
      now apply (Hfresh y Hy)
    | cbn; apply String.eqb_refl ].
Qed.

Lemma addAvatar_then_select_witness :
  exists a,
    StoreMore.selectSelectedAvatar
      (store (after (StoreMore.selectAvatar (Some "loyw3v28-k3x9q2m1z"))
                (after (StoreMore.addAvatar SamplesMore.pending_avatar)
                   Samples.world_failed_avatar)))
    = Some a
    /\ avatar_id a = "loyw3v28-k3x9q2m1z"
    /\ avatar_status a = pending.
Proof.
  destruct (@addAvatar_then_select_finds_it Samples.world_failed_avatar
              SamplesMore.pending_avatar) as (_ & a & _ & Hsel & Hid & _ & _ & Hst & _).
  - intros a [<- | []] E. vm_compute in E. discriminate E.
  - exists a. split; [exact Hsel |]. split; [exact Hid | exact Hst].
Defined.

Lemma filter_snoc_absent (id : string) (l : list string) :
  ~ In id l ->
  filter (fun cid => negb (String.eqb cid id)) (l ++ [id])%list = l.
Proof.
  intros H. rewrite filter_app. cbn. rewrite String.eqb_refl. cbn.
  rewrite app_nil_r. induction l as [| x l IH]; cbn; [reflexivity |].
  destruct (String.eqb x id) eqn:E.
  - apply String.eqb_eq in E. subst. exfalso. apply H. now left.
  - cbn. f_equal. apply IH. intros Hin. apply H. now right.
Qed.

(** X4. Deselecting a clothing item right after selecting it restores
    the world exactly, provided the item was not selected before. *)
Theorem select_then_deselect_restores (w : World) (id : string) :
  ~ In id (selection w) ->
  after (Store.deselectClothingItem id) (after (Store.selectClothingItem id) w) = w.
Proof.
  intros H.
  assert (E : array_includes id (selectedClothingIds (store w)) = false).
  { destruct (array_includes id (selectedClothingIds (store w))) eqn:E; [| reflexivity].
    apply StoreFacts.array_includes_In in E. contradiction. }
  destruct w as [e n en cfg fs rq co al sc st]. destruct st.
  unfold selection in H. cbn in H, E.
  unfold after, Store.deselectClothingItem, Store.selectClothingItem, Store.set,
    modify, with_store, with_selectedClothingIds. cbn.
  rewrite E. now rewrite filter_snoc_absent.
Qed.

Lemma select_then_deselect_witness :
  after (Store.deselectClothingItem "c3")
    (after (Store.selectClothingItem "c3") Samples.world_two_selected)
  = Samples.world_two_selected.
Proof.
  apply (@select_then_deselect_restores Samples.world_two_selected "c3").
  intros [E | [E | []]]; discriminate E.
Defined.

Lemma filter_keeps_all {A} (key : A -> string) (id : string) (l : list A) :
  ~ In id (map key l) ->
  filter (fun y => negb (String.eqb (key y) id)) l = l.
Proof.
  intros H. induction l as [| x l IH]; cbn; [reflexivity |].
  destruct (String.eqb (key x) id) eqn:E.
  - apply String.eqb_eq in E. exfalso. apply H. now left.
  - cbn. f_equal. apply IH. intros Hin. apply H. now right.
Qed.

(** X5. Removing from the history the id that [addToHistory] has just
    returned leaves the 49 most recent of the previous entries, when the
    id was new: below 50 entries the history is as before; at 50 entries
    the oldest entry, evicted by the insertion, does not come back. *)
Theorem add_then_remove_from_history (w : World) (item : HistoryInput) :
  let id := history_id (new_history_item item w) in
  ~ In id (map history_id (history w)) ->
  let w' := after (Store.removeFromHistory id) (after (Store.addToHistory item) w) in
  history w' = firstn 49 (history w)
  /\ (List.length (history w) < 50 -> history w' = history w)
  /\ (List.length (history w) = 50 -> history w' = removelast (history w)).
Proof.
  intros id Hfresh w'.
  assert (H : history w' = firstn 49 (history w)).
  { subst w'.
    change (history (after (Store.removeFromHistory id) (after (Store.addToHistory item) w)))
      with (filter (fun h => negb (String.eqb (history_id h) id))
              (history (after (Store.addToHistory item) w))).
    rewrite StoreFacts.history_after_add. cbn [firstn filter].
    fold id. rewrite String.eqb_refl. cbn [negb].
    apply filter_keeps_all. intros Hin. apply Hfresh.
    apply in_map_iff in Hin. destruct Hin as (h & Hh & Hin).
    apply in_map_iff. exists h. split; [exact Hh |].
    rewrite <- (firstn_skipn 49 (history w)). apply in_or_app. now left. }
  split; [exact H |]. split.
  - intros Hlt. rewrite H. apply firstn_all2. lia.
  - intros Hlen. rewrite H, removelast_firstn_len.
    now replace (Nat.pred (List.length (history w))) with 49 by lia.
Qed.

Lemma add_then_remove_witness :
  history (after (Store.removeFromHistory "loyw3v28-k3x9q2m1z")
             (after (Store.addToHistory Samples.new_entry) Samples.world_full_history))
  = removelast (history Samples.world_full_history).
Proof.
  destruct (@add_then_remove_from_history Samples.world_full_history Samples.new_entry)
    as (_ & _ & Hfull).
  - intros H. vm_compute in H.
    repeat (destruct H as [H | H]; [discriminate H |]). exact H.
  - apply Hfull. reflexivity.
Defined.

Lemma map_unchanged {A} (f : A -> A) (l : list A) :
  (forall x, In x l -> f x = x) -> map f l = l.
Proof.
  intros H. induction l as [| x l IH]; cbn; [reflexivity |].
  rewrite H by now left. f_equal. apply IH. intros y Hy. apply H. now right.
Qed.

(** X6. A status update for an id that no entity carries changes
    nothing: the world after the call is the world before it. *)
Theorem status_update_of_unknown_id_is_noop
    (w : World) (id : string) (status : GenerationStatus)
    (uri error : option string) :
  ((forall a, In a (avatars (store w)) -> avatar_id a <> id) ->
   after (Store.updateAvatarStatus id status uri error) w = w)
  /\ ((forall t, In t (tryOnResults (store w)) -> tryon_id t <> id) ->
      after (Store.updateTryOnStatus id status uri error) w = w)
  /\ ((forall a, In a (animations (store w)) -> anim_id a <> id) ->
      after (Store.updateAnimationStatus id status uri error) w = w).
Proof.
  split; [| split]; intros H.
  - unfold after, Store.updateAvatarStatus, Store.new_Date, bind, Date_now,
      Store.set, modify. cbn.
    rewrite map_unchanged.
    + destruct w as [e n en cfg fs rq co al sc st]. now destruct st.
    + intros a Ha. apply H in Ha. apply String.eqb_neq in Ha. now rewrite Ha.
  - unfold after, Store.updateTryOnStatus, Store.new_Date, bind, Date_now,
      Store.set, modify. cbn.
    rewrite map_unchanged.
    + destruct w as [e n en cfg fs rq co al sc st]. now destruct st.
    + intros a Ha. apply H in Ha. apply String.eqb_neq in Ha. now rewrite Ha.
  - unfold after, Store.updateAnimationStatus, Store.new_Date, bind, Date_now,
      Store.set, modify. cbn.
    rewrite map_unchanged.
    + destruct w as [e n en cfg fs rq co al sc st]. now destruct st.
    + intros a Ha. apply H in Ha. apply String.eqb_neq in Ha. now rewrite Ha.
Qed.

(** X7. What [addClothingItem] adds reaches the persisted subset exactly
    when its [isLocal] flag is set: a local item is appended to the
    persisted items, any other item (a catalogue or sample item) leaves
    the persisted subset unchanged. *)
Theorem added_item_is_persisted_iff_local (w : World) (item : StoreMore.ClothingItemInput) :
  let w' := after (StoreMore.addClothingItem item) w in
  let before := Store.partialize (store w) in
  let after_ := Store.partialize (store w') in
  persisted_generationHistory after_ = persisted_generationHistory before
  /\ (StoreMore.new_isLocal item = Some true ->
      exists added,
        persisted_clothingItems after_
          = (persisted_clothingItems before ++ [added])%list
        /\ Return (item_id added) = outcome (StoreMore.addClothingItem item) w
        /\ frontImageUri added = StoreMore.new_frontImageUri item
        /\ item_category added = StoreMore.new_item_category item)
  /\ (StoreMore.new_isLocal item <> Some true -> after_ = before).
Proof.
  cbn zeta.
  unfold outcome, after, StoreMore.addClothingItem, Store.generateId, Store.new_Date,
    bind, Date_now, random_suffix, Store.partialize.
  destruct (entropy w) as [| r rest]; cbn.
  all: rewrite filter_app; cbn; unfold Store.isLocal_truthy at 2; cbn.
  all: split; [reflexivity |]; split.
  all: try (intros ->; eexists; repeat split).
  all: intros H; destruct (StoreMore.new_isLocal item) as [[|] |];
    try contradiction; now rewrite app_nil_r.
Qed.

End StoreMoreFacts.

(* ================================================================== *)
(** * Facts about the media codec *)
(* ================================================================== *)

Module CodecFacts.
Import Js Wire Runtime StoreState ScreenState Spec SpecMore Frame.

(** ** Strings *)

Lemma append_assoc (a b c : string) : (a ++ b) ++ c = a ++ (b ++ c).
Proof. induction a as [| x a IH]; cbn; [reflexivity | now rewrite IH]. Qed.

Lemma includes_app (c : ascii) (s t : string) :
  includes c (s ++ t) = includes c s || includes c t.
Proof.
  induction s as [| x s IH]; cbn; [reflexivity |].
  rewrite IH. now rewrite Bool.orb_assoc.
Qed.

Lemma split_of_separator_free (c : ascii) (s : string) :
  includes c s = false -> split c s = [s].
Proof.
  induction s as [| x s IH]; cbn; [reflexivity |].
  intros H. apply Bool.orb_false_iff in H. destruct H as [Hx Hs].
  rewrite Hx, (IH Hs). reflexivity.
Qed.

Lemma split_at_first_separator (c : ascii) (s t : string) :
  includes c s = false ->
  split c (s ++ String c t) = s :: split c t.
Proof.
  induction s as [| x s IH]; cbn; intros H.
  - now rewrite Ascii.eqb_refl.
  - apply Bool.orb_false_iff in H. destruct H as [Hx Hs].
    rewrite Hx, (IH Hs). reflexivity.
Qed.

Lemma prefix_cons (a b : ascii) (p s : string) :
  String.prefix (String a p) (String b s)
  = if ascii_dec a b then String.prefix p s else false.
Proof. reflexivity. Qed.

Lemma prefix_app (p s t : string) :
  String.prefix p s = true -> String.prefix p (s ++ t) = true.
Proof.
  revert s. induction p as [| a p IH]; intros s H.
  - now destruct (s ++ t).
  - destruct s as [| b s]; [discriminate H |].
    change (String b s ++ t) with (String b (s ++ t)).
    rewrite prefix_cons in H |- *.
    destruct (ascii_dec a b); [now apply IH | discriminate].
Qed.

Lemma prefix_nonempty (p s : string) :
  p <> "" -> String.prefix p s = true -> s <> "".
Proof.
  intros Hp H E. subst s. destruct p; [contradiction | discriminate].
Qed.

Lemma data_uri_parts (b64 mime : string) :
  Api.base64ToDataUri b64 mime = ("data:" ++ mime ++ ";base64") ++ String ","%char b64.
Proof.
  unfold Api.base64ToDataUri. now rewrite !append_assoc.
Qed.

Lemma data_uri_split (b64 mime : string) :
  includes ","%char b64 = false ->
  includes ","%char mime = false ->
  split ","%char (Api.base64ToDataUri b64 mime) = ["data:" ++ mime ++ ";base64"; b64].
Proof.
  intros Hb Hm. rewrite data_uri_parts, split_at_first_separator.
  - now rewrite (split_of_separator_free _ _ Hb).
  - cbn. rewrite includes_app, Hm. reflexivity.
Qed.

(** X8. A data URI built by [base64ToDataUri] decodes back: for a
    non-empty payload and a MIME type that contain no comma,
    [imageUriToBase64] returns the payload without touching the world,
    and the prefix stripping of [base64ToTempFile] yields it too. *)
Theorem data_uri_round_trip (b64 mime : string) (w : World) :
  b64 <> "" ->
  includes ","%char b64 = false ->
  includes ","%char mime = false ->
  Api.imageUriToBase64 (Api.base64ToDataUri b64 mime) w = (Return b64, w)
  /\ Api.strip_data_uri_prefix (Api.base64ToDataUri b64 mime) = b64.
Proof.
  intros Hne Hb Hm. split.
  - unfold Api.imageUriToBase64.
    replace (startsWith "data:" (Api.base64ToDataUri b64 mime)) with true
      by (symmetry; apply (prefix_app "data:" "data:"); reflexivity).
    rewrite (data_uri_split _ _ Hb Hm). cbn [nth_error].
    unfold truthy_string. apply String.eqb_neq in Hne. now rewrite Hne.
  - unfold Api.strip_data_uri_prefix.
    rewrite (data_uri_split _ _ Hb Hm).
    replace (includes ","%char (Api.base64ToDataUri b64 mime)) with true;
      [reflexivity |].
    rewrite data_uri_parts, includes_app. cbn [includes].
    now rewrite Ascii.eqb_refl, Bool.orb_true_r.
Qed.

Lemma data_uri_round_trip_witness :
  Api.imageUriToBase64 (Api.base64ToDataUri "QUJD" "image/png") Samples.world_422
  = (Return "QUJD", Samples.world_422).
Proof.
  apply (@data_uri_round_trip "QUJD" "image/png" Samples.world_422);
    [discriminate | reflexivity | reflexivity].
Defined.

(** ** Temporary files *)

Lemma file_lookup_written path data fs :
  file_lookup path ((path, data) :: fs) = Some data.
Proof. cbn. now rewrite String.eqb_refl. Qed.

(** [base64ToTempFile] as one case analysis. *)
Lemma base64ToTempFile_cases (base64 filename : string) (w : World) :
  Api.base64ToTempFile base64 filename w
  = let data := Api.strip_data_uri_prefix base64 in
    if String.eqb data ""
    then (Throw (Error ("Invalid base64 data for " ++ filename)), w)
    else
      match cacheDirectory (env w) with
      | None => (Throw (Error "Cache directory not available"), w)
      | Some dir =>
          if String.eqb dir ""
          then (Throw (Error "Cache directory not available"), w)
          else
            let path := (if endsWith "/" dir then dir else dir ++ "/") ++ filename in
            match writeFailure (env w) path data with
            | Some reason => (Throw (Error reason), w)
            | None =>
                (Return path,
                 with_files ((path, data) :: file_remove path (files w)) w)
            end
      end.
Proof.
  cbv zeta. unfold Api.base64ToTempFile, truthy_string.
  destruct (String.eqb (Api.strip_data_uri_prefix base64) ""); [reflexivity |].
  cbn [negb]. unfold bind at 1. unfold get.
  destruct (cacheDirectory (env w)) as [dir |]; [| reflexivity].
  destruct (String.eqb dir ""); [reflexivity |]. cbn [negb].
  unfold bind, writeAsStringAsync, getInfoAsync.
  destruct (writeFailure (env w) _ _); [reflexivity |].
  cbn. now rewrite String.eqb_refl.
Qed.

(** X9. [base64ToTempFile] is all or nothing. When it returns a path,
    the file at that path holds the payload (without its data-URI
    prefix) and writing that file is its only effect on the world; when
    it throws, the world is as before, and the error is the
    empty-payload error (checked first), the missing-cache-directory
    error, or the writer's own. (The world records [console.error]
    lines; the informational [console.log] lines of the source are not
    part of it.) *)
Theorem base64ToTempFile_all_or_nothing (base64 filename : string) (w : World) :
  let data := Api.strip_data_uri_prefix base64 in
  (forall path w1,
      Api.base64ToTempFile base64 filename w = (Return path, w1) ->
      file_lookup path (files w1) = Some data
      /\ w1 = with_files ((path, data) :: file_remove path (files w)) w
      /\ exists dir,
           cacheDirectory (env w) = Some dir
           /\ path = (if endsWith "/" dir then dir else dir ++ "/") ++ filename)
  /\ (forall e w1,
        Api.base64ToTempFile base64 filename w = (Throw e, w1) ->
        w1 = w
        /\ (data = "" -> e = Error ("Invalid base64 data for " ++ filename))
        /\ (data <> "" ->
            e = Error "Cache directory not available"
            \/ exists path, writeFailure (env w) path data = Some (message e))).
Proof.
  cbn zeta. rewrite base64ToTempFile_cases. cbv zeta.
  destruct (String.eqb (Api.strip_data_uri_prefix base64) "") eqn:Ed.
  { apply String.eqb_eq in Ed. split; [intros path w1 H | intros e w1 H];
      inversion H; subst; clear H.
    split; [reflexivity |]. split; [reflexivity | intros Hne; contradiction]. }
  apply String.eqb_neq in Ed.
  destruct (cacheDirectory (env w)) as [dir |] eqn:Ec.
  2: { split; [intros path w1 H | intros e w1 H]; inversion H; subst; clear H.
       split; [reflexivity |]. split; [intros E; contradiction | now left]. }
  destruct (String.eqb dir "") eqn:Edir.
  { split; [intros path w1 H | intros e w1 H]; inversion H; subst; clear H.
    split; [reflexivity |]. split; [intros E; contradiction | now left]. }
  destruct (writeFailure (env w) _ _) as [reason |] eqn:Ew.
  { split; [intros path w1 H | intros e w1 H]; inversion H; subst; clear H.
    split; [reflexivity |]. split; [intros E; contradiction |].
    intros _. right. eexists. exact Ew. }
  split; [intros path w1 H | intros e w1 H]; inversion H; subst; clear H.
  cbn. rewrite String.eqb_refl.
  split; [reflexivity |]. split; [reflexivity |]. now exists dir.
Qed.

Lemma not_data_uri (s : string) :
  startsWith "file://" s = true \/ startsWith "/" s = true ->
  startsWith "data:" s = false.
Proof.
  unfold startsWith. intros [H | H]; destruct s as [| c s]; try discriminate H;
    rewrite prefix_cons in H |- *.
  - destruct (ascii_dec "f"%char c) as [<- |]; [| discriminate H].
    destruct (ascii_dec "d"%char "f"%char) as [E |]; [discriminate E | reflexivity].
  - destruct (ascii_dec "/"%char c) as [<- |]; [| discriminate H].
    destruct (ascii_dec "d"%char "/"%char) as [E |]; [discriminate E | reflexivity].
Qed.



(** X11. Only a remote URL makes [imageUriToBase64] do anything to the
    world: for a data URI it always returns, and for a [file://] URI or
    an absolute path it returns the content of the file or throws the
    reader's own error; in both cases the world is as before (no
    download, no temporary file, no error logged). *)
Theorem imageUriToBase64_local_sources_leave_world (uri : string) (w : World) :
  (startsWith "data:" uri = true ->
   after (Api.imageUriToBase64 uri) w = w
   /\ exists b64, outcome (Api.imageUriToBase64 uri) w = Return b64)
  /\ (startsWith "data:" uri = false ->
      startsWith "file://" uri || startsWith "/" uri = true ->
      after (Api.imageUriToBase64 uri) w = w
      /\ match file_lookup uri (files w) with
         | Some content => outcome (Api.imageUriToBase64 uri) w = Return content
         | None => exists e, outcome (Api.imageUriToBase64 uri) w = Throw e
         end).
Proof.
  unfold outcome, after, Api.imageUriToBase64. split.
  - intros ->. destruct (nth_error _ 1); cbn; eauto.
  - intros -> ->. unfold readAsStringAsync.
    destruct (file_lookup uri (files w)); cbn; eauto.
Qed.

Lemma file_lookup_remove_other path other fs :
  other <> path ->
  file_lookup other (file_remove path fs) = file_lookup other fs.
Proof.
  intros Hne. induction fs as [| [p c] fs IH]; cbn; [reflexivity |].
  destruct (String.eqb path p) eqn:E; cbn.
  - apply String.eqb_eq in E. subst p.
    apply String.eqb_neq in Hne. now rewrite Hne.
  - now rewrite IH.
Qed.

(** X12. On its success path the remote branch of [imageUriToBase64]
    cleans up after itself: when the download of a remote URL is
    answered with status 200, the call returns the downloaded content,
    the temporary file [temp_<time>.png] is gone afterwards, every other
    file is as it was and no request to the generation service has been
    made. *)
Theorem remote_image_is_read_and_its_temp_file_removed
    (uri content : string) (w : World) :
  startsWith "data:" uri = false ->
  startsWith "file://" uri || startsWith "/" uri = false ->
  download (env w) uri = Downloaded 200 content ->
  let temp := Api.cacheDirectory_text w ++ "temp_" ++ number_toString (now w) ++ ".png" in
  let w' := after (Api.imageUriToBase64 uri) w in
  outcome (Api.imageUriToBase64 uri) w = Return content
  /\ file_exists temp w' = false
  /\ (forall other, other <> temp ->
        file_lookup other (files w') = file_lookup other (files w))
  /\ requests w' = requests w.
Proof.
  intros Hd Hf Hdl temp w'. subst w'.
  unfold outcome, after, Api.imageUriToBase64. rewrite Hd, Hf.
  unfold try_catch, Api.download_and_encode, bind, Date_now, get, downloadAsync.
  cbn. rewrite Hdl. cbn.
  unfold readAsStringAsync. cbn. rewrite String.eqb_refl. cbn.
  split; [reflexivity |]. fold temp. rewrite String.eqb_refl.
  split; [| split; [| reflexivity]].
  - unfold file_exists. cbn. now rewrite ApiFacts.file_lookup_removed.
  - intros other Hne. now rewrite !file_lookup_remove_other.
Qed.

Lemma remote_image_witness :
  outcome (Api.imageUriToBase64 Samples.remote_image) SamplesMore.world_success
    = Return "QUJD"
  /\ file_exists Samples.remote_temp_file
       (after (Api.imageUriToBase64 Samples.remote_image) SamplesMore.world_success)
     = false.
Proof.
  destruct (@remote_image_is_read_and_its_temp_file_removed Samples.remote_image
              "QUJD" SamplesMore.world_success eq_refl eq_refl eq_refl)
    as (Ho & He & _).
  split; [exact Ho | exact He].
Defined.


End CodecFacts.

(* ================================================================== *)
(** * Facts about the requests of the generation client *)
(* ================================================================== *)

Module ClientFacts.
Import Js Wire Runtime StoreState ScreenState Spec SpecMore Frame.

Ltac observe := ApiFacts.observe.

(** The request-and-answer tail shared by the three calls. *)
Lemma tail_records_request {T} (serve : Env -> Request -> option (Response T))
    (failure : Response T -> M Exn) (q : Request) (w : World) :
  (forall r, Preserves requests (failure r)) ->
  requests (after (response <- fetch serve q ;;
                   if negb (ok response)
                   then (e <- failure response ;; throw e)
                   else response_json response) w)
  = (requests w ++ [q])%list.
Proof.
  intros Hf. unfold after, bind, fetch.
  destruct (serve (env w) q) as [r |]; cbn [fst snd]; [| reflexivity].
  destruct (negb (ok r)).
  - pose proof (Hf r (with_requests (requests w ++ [q])%list w)) as H.
    unfold after in H. unfold bind.
    destruct (failure r _) as [[e | e] w2]; cbn in *; exact H.
  - unfold response_json. destruct (payload r); reflexivity.
Qed.

Section AtMostOne.
Context {T : Type} (serve : Env -> Request -> option (Response T)).
Context (failure : Response T -> M Exn).
Hypothesis failure_requests : forall r, Preserves requests (failure r).

Lemma sends_nothing_when_thrown path e : SendsAtMostOne path (throw e : M T).
Proof. intros w. now left. Qed.

Lemma sends_bind {A} path (m : M A) (k : A -> M T) :
  Preserves requests m ->
  Preserves apiConfig m ->
  (forall a, SendsAtMostOne path (k a)) ->
  SendsAtMostOne path (bind m k).
Proof.
  intros Hrq Hcfg Hk w. specialize (Hrq w). specialize (Hcfg w).
  unfold after in *. unfold bind.
  destruct (m w) as [[a | e] w1]; cbn [fst snd] in *.
  - specialize (Hk a w1). unfold after in Hk. rewrite Hrq, Hcfg in Hk. exact Hk.
  - now left.
Qed.

Lemma sends_request path form :
  SendsAtMostOne path
    (w <- get ;;
     response <- fetch serve
                   {| url_base := baseUrl (apiConfig w);
                      url_path := path;
                      method := "POST";
                      headers := Api.api_key_headers (apiConfig w);
                      body := form |} ;;
     if negb (ok response)
     then (e <- failure response ;; throw e)
     else response_json response).
Proof.
  intros w. right. eexists. split.
  - unfold after at 1. unfold bind at 1. unfold get.
    apply (tail_records_request serve failure _ w failure_requests).
  - repeat split.
Qed.

Lemma returns_nothing_when_thrown e : ReturnsPayload serve (throw e).
Proof.
  intros w q r v Hreq _ _ _. cbn in Hreq.
  now apply ApiFacts.requests_not_extended in Hreq.
Qed.

Lemma returns_bind {A} (m : M A) (k : A -> M T) :
  Preserves requests m ->
  Preserves env m ->
  (forall a, ReturnsPayload serve (k a)) ->
  ReturnsPayload serve (bind m k).
Proof.
  intros Hrq Henv Hk w q r v Hreq Hserve Hok Hv.
  specialize (Hrq w). specialize (Henv w).
  unfold after in Hrq, Henv, Hreq. unfold outcome. unfold bind in *.
  destruct (m w) as [[a | e] w1]; cbn [fst snd] in *.
  - apply (Hk a w1 q r v); [now rewrite Hrq | now rewrite Henv | assumption..].
  - rewrite Hrq in Hreq. now apply ApiFacts.requests_not_extended in Hreq.
Qed.

Lemma returns_answer q0 :
  ReturnsPayload serve
    (response <- fetch serve q0 ;;
     if negb (ok response)
     then (e <- failure response ;; throw e)
     else response_json response).
Proof.
  intros w q r v Hreq Hserve Hok Hv.
  rewrite tail_records_request in Hreq by assumption.
  apply app_inv_head in Hreq. injection Hreq as ->.
  unfold outcome, bind, fetch. rewrite Hserve. cbn [fst snd].
  rewrite Hok. cbn [negb]. unfold response_json. now rewrite Hv.
Qed.

End AtMostOne.

Lemma try_catch_prepare_preserves {X} (p : World -> X) request :
  (forall v w, p (with_files v w) = p w) ->
  (forall v w, p (with_console v w) = p w) ->
  Preserves p
    (try_catch (Api.prepare_tryon_form request)
       (fun fileError =>
          console_error "[API] Error preparing files:" (LogError fileError) ;;
          throw (Error ("Failed to prepare files: " ++ message fileError)))).
Proof.
  intros Hf Hc. apply Preserves_try_catch.
  - now apply prepare_tryon_form_frame.
  - intros e. apply Preserves_bind; [now apply console_error_frame | intros _].
    apply Preserves_throw.
Qed.

Lemma avatar_failure_requests {T} (r : Response T) :
  Preserves requests (Api.avatar_failure r).
Proof. apply avatar_failure_frame; intros; reflexivity. Qed.

Lemma tryon_failure_requests {T} (r : Response T) :
  Preserves requests (Api.tryon_failure r).
Proof. apply tryon_failure_frame; intros; reflexivity. Qed.

Lemma video_failure_requests {T} (r : Response T) :
  Preserves requests (Api.video_failure r).
Proof. apply video_failure_frame; intros; reflexivity. Qed.

Lemma generateAvatar_sends request :
  SendsAtMostOne "/generate/avatar" (Api.generateAvatar request).
Proof.
  unfold Api.generateAvatar.
  do 4 (apply sends_bind; [observe | observe | intros ?]; cbv zeta).
  apply sends_request. apply avatar_failure_requests.
Qed.

Lemma generateTryOn_sends request :
  SendsAtMostOne "/generate/tryon" (Api.generateTryOn request).
Proof.
  unfold Api.generateTryOn.
  destruct (negb _); [apply sends_nothing_when_thrown |].
  destruct (Nat.eqb _ _); [apply sends_nothing_when_thrown |].
  apply sends_bind;
    [ apply try_catch_prepare_preserves; intros; reflexivity
    | apply try_catch_prepare_preserves; intros; reflexivity
    | intros formData ].
  apply sends_request. apply tryon_failure_requests.
Qed.

Lemma generateVideoLoop_sends request :
  SendsAtMostOne "/generate/videoloop" (Api.generateVideoLoop request).
Proof.
  unfold Api.generateVideoLoop.
  do 2 (apply sends_bind; [observe | observe | intros ?]; cbv zeta).
  apply sends_request. apply video_failure_requests.
Qed.

(** X14. No retries and no stray traffic: each generation call sends at
    most one request, and when it sends one it is a POST to its own
    endpoint at the configured base URL, carrying the configured key as
    its only header, or no header at all when no key is configured. *)
Theorem generation_call_sends_at_most_one_request :
  (forall request, SendsAtMostOne "/generate/avatar" (Api.generateAvatar request))
  /\ (forall request, SendsAtMostOne "/generate/tryon" (Api.generateTryOn request))
  /\ (forall request,
        SendsAtMostOne "/generate/videoloop" (Api.generateVideoLoop request)).
Proof.
  split; [| split]; intros request;
    [ apply generateAvatar_sends | apply generateTryOn_sends
    | apply generateVideoLoop_sends ].
Qed.

(** X15. On a success answer a generation call returns the decoded body
    as it is: whenever a request was sent and the service answered it
    with a success response carrying a value, that value is the result
    of the call. *)
Theorem generation_call_returns_the_payload :
  (forall request, ReturnsPayload serveAvatar (Api.generateAvatar request))
  /\ (forall request, ReturnsPayload serveTryOn (Api.generateTryOn request))
  /\ (forall request, ReturnsPayload serveVideoLoop (Api.generateVideoLoop request)).
Proof.
  split; [| split]; intros request.
  - unfold Api.generateAvatar.
    do 5 (apply returns_bind; [observe | observe | intros ?]; cbv zeta).
    apply returns_answer. apply avatar_failure_requests.
  - unfold Api.generateTryOn.
    destruct (negb _); [apply returns_nothing_when_thrown |].
    destruct (Nat.eqb _ _); [apply returns_nothing_when_thrown |].
    apply returns_bind;
      [ apply try_catch_prepare_preserves; intros; reflexivity
      | apply try_catch_prepare_preserves; intros; reflexivity
      | intros formData ].
    apply returns_bind; [observe | observe | intros w1].
    apply returns_answer. apply tryon_failure_requests.
  - unfold Api.generateVideoLoop.
    do 3 (apply returns_bind; [observe | observe | intros ?]; cbv zeta).
    apply returns_answer. apply video_failure_requests.
Qed.

(** ** The form of a try-on request *)

Lemma length_app_string (a b : string) :
  String.length (a ++ b) = String.length a + String.length b.
Proof. induction a as [| c a IH]; cbn; [reflexivity | now rewrite IH]. Qed.

Lemma append_cancel_l (p a b : string) : p ++ a = p ++ b -> a = b.
Proof.
  induction p as [| c p IH]; cbn; intros H; [exact H |].
  injection H as H. now apply IH.
Qed.

Lemma append_cancel_same_length (a b s t : string) :
  String.length a = String.length b -> a ++ s = b ++ t -> a = b.
Proof.
  revert b. induction a as [| c a IH]; intros [| d b] Hlen H;
    try discriminate Hlen; [reflexivity |].
  cbn in H. injection H as -> H. injection Hlen as Hlen.
  f_equal. now apply IH.
Qed.

Lemma append_cancel_r (a b s : string) : a ++ s = b ++ s -> a = b.
Proof.
  intros H. apply (append_cancel_same_length a b s s); [| exact H].
  apply (f_equal String.length) in H. rewrite !length_app_string in H. lia.
Qed.

(** Two integers print alike only when they are equal. *)
Lemma number_toString_inj (n m : Z) :
  number_toString n = number_toString m -> n = m.
Proof.
  unfold number_toString. intros H.
  assert (Hnil : forall z, Z.to_int z <> Decimal.Pos Decimal.Nil
                           /\ Z.to_int z <> Decimal.Neg Decimal.Nil).
  { intros [| p | p]; cbn; split; try discriminate; intros E; injection E as E;
      now apply DecimalPos.Unsigned.to_uint_nonnil in E. }
  apply DecimalZ.to_int_inj.
  destruct (Hnil n) as [Hn1 Hn2]. destruct (Hnil m) as [Hm1 Hm2].
  pose proof (NilZero.isi (Z.to_int n) Hn1 Hn2) as En.
  pose proof (NilZero.isi (Z.to_int m) Hm1 Hm2) as Em.
  rewrite H in En. rewrite En in Em. now injection Em.
Qed.

Lemma temp_path_inj (w : World) (a b : string) :
  temp_path w a = temp_path w b -> a = b.
Proof.
  unfold temp_path. destruct (cacheDirectory (env w)); [apply append_cancel_l | easy].
Qed.

Lemma cloth_temp_file_inj (w : World) (i j : nat) :
  cloth_temp_file w i = cloth_temp_file w j -> i = j.
Proof.
  unfold cloth_temp_file. intros H. apply temp_path_inj in H.
  apply (append_cancel_l "cloth_") in H. apply append_cancel_r in H.
  apply number_toString_inj in H. lia.
Qed.

Lemma avatar_is_no_cloth_file (w : World) (i : nat) :
  avatar_temp_file w <> cloth_temp_file w i.
Proof.
  unfold avatar_temp_file, cloth_temp_file. intros H.
  apply temp_path_inj in H. discriminate H.
Qed.

(** What a returning [base64ToTempFile] has done. *)
Lemma base64ToTempFile_returned base64 filename w path w1 :
  Api.base64ToTempFile base64 filename w = (Return path, w1) ->
  path = temp_path w filename
  /\ w1 = with_files
            ((path, Api.strip_data_uri_prefix base64) :: file_remove path (files w)) w.
Proof.
  rewrite CodecFacts.base64ToTempFile_cases. cbv zeta. unfold temp_path.
  destruct (String.eqb _ ""); [discriminate |].
  destruct (cacheDirectory (env w)) as [dir |]; [| discriminate].
  destruct (String.eqb dir ""); [discriminate |].
  destruct (writeFailure _ _ _); [discriminate |].
  intros H. injection H as <- <-. split; reflexivity.
Qed.

Lemma file_lookup_after_write other path data fs :
  other <> path ->
  file_lookup other ((path, data) :: file_remove path fs) = file_lookup other fs.
Proof.
  intros Hne. cbn. apply String.eqb_neq in Hne. rewrite Hne.
  apply CodecFacts.file_lookup_remove_other. now apply String.eqb_neq.
Qed.

(** The loop over the garments: the file of each garment holds it when
    the loop ends, and no other file is touched. *)
Lemma append_clothes_carries clothes : forall index form w form' w',
  Api.append_clothes index clothes form w = (Return form', w') ->
  exists clothFiles,
    form' = (form ++ map (fun f => ("clothes", File f)) clothFiles)%list
    /\ List.length clothFiles = List.length clothes
    /\ (forall i f cloth,
          nth_error clothFiles i = Some f ->
          nth_error clothes i = Some cloth ->
          f = Api.createFileObject (cloth_temp_file w (index + i))
                ("cloth_" ++ number_toString (Z.of_nat (index + i)) ++ ".png")
                "image/png"
          /\ file_lookup (cloth_temp_file w (index + i)) (files w')
             = Some (Api.strip_data_uri_prefix cloth))
    /\ (forall other,
          (forall i, i < List.length clothes -> other <> cloth_temp_file w (index + i)) ->
          file_lookup other (files w') = file_lookup other (files w)).
Proof.
  induction clothes as [| cloth rest IH]; intros index form w form' w' H.
  - cbn in H. inversion H; subst. exists []. cbn. rewrite app_nil_r.
    split; [reflexivity |]. split; [reflexivity |].
    split; [intros [| i] f c Hf; discriminate Hf | reflexivity].
  - cbn [Api.append_clothes] in H. unfold bind at 1 in H. unfold Date_now in H.
    unfold bind at 1 in H.
    destruct (Api.base64ToTempFile cloth _ w) as [[clothUri | e] w1] eqn:Eb;
      [| discriminate H].
    apply base64ToTempFile_returned in Eb. destruct Eb as [Hpath Hw1].
    fold (cloth_temp_file w index) in Hpath.
    apply IH in H. destruct H as (fs & Hform & Hlen & Hcarry & Hframe).
    assert (Hsame : forall k, cloth_temp_file w1 k = cloth_temp_file w k)
      by (intros k; subst w1; reflexivity).
    assert (Hhead : file_lookup (cloth_temp_file w index) (files w')
                    = Some (Api.strip_data_uri_prefix cloth)).
    { rewrite Hframe.
      - subst w1 clothUri. cbn [files with_files].
        apply CodecFacts.file_lookup_written.
      - intros i _ E. rewrite Hsame in E. apply cloth_temp_file_inj in E. lia. }
    eexists (_ :: fs). split; [| split; [| split]].
    + rewrite Hform, <- app_assoc. reflexivity.
    + cbn. now rewrite Hlen.
    + intros [| i] f c Hf Hc; cbn in Hf, Hc.
      * injection Hf as <-. injection Hc as <-. rewrite Nat.add_0_r.
        split; [now rewrite Hpath | exact Hhead].
      * rewrite Nat.add_succ_r. rewrite <- Hsame. now apply Hcarry.
    + intros other Hother. rewrite Hframe.
      * subst w1. cbn [files with_files]. apply file_lookup_after_write.
        rewrite Hpath. specialize (Hother 0). rewrite Nat.add_0_r in Hother.
        apply Hother. cbn. lia.
      * intros i Hi. rewrite Hsame. specialize (Hother (S i)).
        rewrite Nat.add_succ_r in Hother. apply Hother. cbn. lia.
Qed.

Lemma prepare_tryon_form_carries request w form w1 :
  Api.prepare_tryon_form request w = (Return form, w1) ->
  tryon_form request w1 form.
Proof.
  unfold Api.prepare_tryon_form. intros H.
  unfold bind at 1 in H. unfold Date_now in H. unfold bind at 1 in H.
  destruct (Api.base64ToTempFile (avatar_b64 request) _ w) as [[avatarUri | e] w0] eqn:Eb;
    [| discriminate H].
  apply base64ToTempFile_returned in Eb. destruct Eb as [Hpath Hw0].
  fold (avatar_temp_file w) in Hpath.
  unfold bind at 1 in H.
  destruct (Api.append_clothes 0 _ _ w0) as [[form0 | e] w2] eqn:Ea;
    [| discriminate H].
  apply append_clothes_carries in Ea.
  destruct Ea as (fs & Hform & Hlen & Hcarry & Hframe).
  unfold ret in H. injection H as <- <-.
  assert (Hsame : forall k, cloth_temp_file w0 k = cloth_temp_file w k)
    by (intros k; subst w0; reflexivity).
  exists (Api.createFileObject avatarUri "avatar.png" "image/png"), fs.
  split; [| split; [| split; [exact Hlen |]]].
  - rewrite Hform. cbn [app].
    destruct (tryon_seed request); rewrite <- ?app_assoc; reflexivity.
  - exists avatarUri. split; [reflexivity |]. rewrite Hframe.
    + subst w0. cbn [files with_files]. apply CodecFacts.file_lookup_written.
    + intros i _. rewrite Hsame, Hpath. apply avatar_is_no_cloth_file.
  - intros i f cloth Hf Hc. destruct (Hcarry i f cloth Hf Hc) as [Hfile Hheld].
    cbn [Nat.add] in Hfile, Hheld.
    exists (cloth_temp_file w0 i). split; assumption.
Qed.

(** After the form is ready the call touches no file. *)
Lemma request_keeps_files {T} (serve : Env -> Request -> option (Response T))
    (failure : Response T -> M Exn) (q : Request) :
  (forall r, Preserves files (failure r)) ->
  Preserves files
    (response <- fetch serve q ;;
     if negb (ok response)
     then (e <- failure response ;; throw e)
     else response_json response).
Proof.
  intros Hf. apply Preserves_bind.
  - apply fetch_frame. intros w. reflexivity.
  - intros response. destruct (negb (ok response)).
    + apply Preserves_bind; [apply Hf | intros e; apply Preserves_throw].
    + apply response_json_frame.
Qed.

(** X16. The request a try-on call sends carries the avatar, then the
    garments of the call one by one: the first file is that of the
    avatar, then comes one [clothes] file per garment, in order and
    named [cloth_<index>.png], and in the file system the call leaves
    each of these files holds exactly its own image, without the
    data-URI prefix. Then come the [compose] field (["true"] unless the
    caller says otherwise) and, only when a seed is given, the [seed]
    field with the seed in decimal. The seed is taken to be a safe
    integer, which [String] prints digit by digit. *)
Theorem tryon_request_has_one_file_per_garment
    (request : TryOnGenerationRequest) (w : World) (q : Request) :
  seed_is_safe request ->
  requests (after (Api.generateTryOn request) w) = (requests w ++ [q])%list ->
  tryon_form request (after (Api.generateTryOn request) w) (body q).
Proof.
  intros _ H.
  assert (Hrq : requests (after (Api.prepare_tryon_form request) w) = requests w)
    by (apply prepare_tryon_form_frame; intros; reflexivity).
  unfold after in H, Hrq |- *.
  destruct (negb (truthy_string (avatar_b64 request))) eqn:Ea.
  { unfold Api.generateTryOn in H. rewrite Ea in H. cbn in H.
    now apply ApiFacts.requests_not_extended in H. }
  destruct (Nat.eqb (List.length (clothes_b64 request)) 0) eqn:El.
  { unfold Api.generateTryOn in H. rewrite Ea, El in H. cbn in H.
    now apply ApiFacts.requests_not_extended in H. }
  destruct (Api.prepare_tryon_form request w) as [[form | e] w1] eqn:Ep;
    cbn [fst snd] in Hrq.
  - set (q1 := {| url_base := baseUrl (apiConfig w1);
                  url_path := "/generate/tryon";
                  method := "POST";
                  headers := Api.api_key_headers (apiConfig w1);
                  body := form |}).
    assert (E : Api.generateTryOn request w
                = bind (fetch serveTryOn q1)
                    (fun response =>
                       if negb (ok response)
                       then bind (Api.tryon_failure response) (fun e => throw e)
                       else response_json response) w1).
    { unfold Api.generateTryOn. rewrite Ea, El.
      unfold bind at 1. unfold try_catch. rewrite Ep. reflexivity. }
    rewrite E in H |- *.
    pose proof (tail_records_request serveTryOn Api.tryon_failure q1 w1
                  tryon_failure_requests) as Ht.
    pose proof (@request_keeps_files _ serveTryOn Api.tryon_failure q1
                  (fun r => @tryon_failure_frame _ files
                              (fun v w0 => eq_refl) _ r) w1) as Hfs.
    unfold after in Ht, Hfs. rewrite Ht, Hrq in H.
    apply app_inv_head in H. injection H as <-. cbn [body q1].
    apply prepare_tryon_form_carries in Ep.
    destruct Ep as (avatarFile & fs & Hform & (pa & Hfa & Hla) & Hlen & Hcl).
    exists avatarFile, fs. split; [exact Hform |].
    split; [exists pa; split; [exact Hfa | now rewrite Hfs] |].
    split; [exact Hlen |].
    intros i f cloth Hf Hc. destruct (Hcl i f cloth Hf Hc) as (pc & Hfc & Hlc).
    exists pc. split; [exact Hfc | now rewrite Hfs].
  - assert (E : requests (snd (Api.generateTryOn request w)) = requests w1).
    { unfold Api.generateTryOn. rewrite Ea, El.
      unfold bind at 1. unfold try_catch. rewrite Ep. reflexivity. }
    rewrite E, Hrq in H. now apply ApiFacts.requests_not_extended in H.
Qed.

Lemma tryon_request_witness :
  exists q,
    requests (after (Api.generateTryOn SamplesMore.seeded_outfit) Samples.world_422)
    = [q]
    /\ tryon_form SamplesMore.seeded_outfit
         (after (Api.generateTryOn SamplesMore.seeded_outfit) Samples.world_422)
         (body q)
    /\ map fst (body q) = ["avatar"; "clothes"; "clothes"; "compose"; "seed"].
Proof.
  eexists. split; [reflexivity |]. split; [| reflexivity].
  apply (@tryon_request_has_one_file_per_garment SamplesMore.seeded_outfit
           Samples.world_422); [| reflexivity].
  unfold seed_is_safe, safe_integer. cbn. lia.
Defined.

(** ** Configuration *)

Lemma api_key_headers_cases (cfg : ApiConfig) :
  Api.api_key_headers cfg
  = if String.eqb (apiKey cfg) "" then [] else [("api-key", apiKey cfg)].
Proof.
  unfold Api.api_key_headers, truthy_string.
  now destruct (String.eqb (apiKey cfg) "").
Qed.

(** X17. [configureAPI] replaces only the parts of the configuration it
    is given, and the next generation call uses the result: its request
    goes to the configured base URL; it carries the header [api-key]
    with the configured key, and with an empty key it is still sent,
    without any header. *)
Theorem configured_base_and_key_are_used
    (patch : ApiMore.ApiConfigPatch) (request : TryOnGenerationRequest)
    (w : World) (q : Request) :
  let w1 := after (ApiMore.configureAPI patch) w in
  requests (after (Api.generateTryOn request) w1) = (requests w1 ++ [q])%list ->
  url_base q = nullish (ApiMore.patch_baseUrl patch) (baseUrl (apiConfig w))
  /\ headers q = (if String.eqb (configured_key patch w) ""
                  then []
                  else [("api-key", configured_key patch w)])
  /\ (ApiMore.patch_baseUrl patch = None -> url_base q = baseUrl (apiConfig w))
  /\ (ApiMore.patch_apiKey patch = Some "" -> headers q = []).
Proof.
  intros w1 H.
  destruct (generateTryOn_sends request w1) as [Hno | (q' & Hq & _ & _ & Hbase & Hhead)].
  - rewrite Hno in H. now apply ApiFacts.requests_not_extended in H.
  - rewrite Hq in H. apply app_inv_head in H. injection H as ->.
    rewrite api_key_headers_cases in Hhead.
    assert (Hb : url_base q
                 = nullish (ApiMore.patch_baseUrl patch) (baseUrl (apiConfig w)))
      by exact Hbase.
    assert (Hh : headers q = (if String.eqb (configured_key patch w) ""
                              then []
                              else [("api-key", configured_key patch w)]))
      by exact Hhead.
    split; [exact Hb |]. split; [exact Hh |]. split.
    + intros E. rewrite Hb, E. reflexivity.
    + intros E. rewrite Hh. unfold configured_key. rewrite E. reflexivity.
Qed.

Lemma configured_base_and_key_witness :
  exists q,
    requests (after (Api.generateTryOn Samples.one_garment)
                (after (ApiMore.configureAPI
                          {| ApiMore.patch_baseUrl := Some "https://vto.example";
                             ApiMore.patch_apiKey := Some "" |})
                   Samples.world_422)) = [q]
    /\ url_base q = "https://vto.example"
    /\ headers q = [].
Proof.
  eexists. split; [reflexivity |].
  destruct (@configured_base_and_key_are_used
              {| ApiMore.patch_baseUrl := Some "https://vto.example";
                 ApiMore.patch_apiKey := Some "" |}
              Samples.one_garment Samples.world_422 _ eq_refl)
    as (Hb & _ & _ & Hh).
  split; [exact Hb | now apply Hh].
Defined.

(** ** An empty garment *)

Lemma append_clothes_throws_on_empty clothes cloth :
  In cloth clothes ->
  Api.strip_data_uri_prefix cloth = "" ->
  forall index form w, Throws (Api.append_clothes index clothes form) w.
Proof.
  intros Hin Hempty. induction clothes as [| c rest IH]; [contradiction |].
  intros index form w. cbn [Api.append_clothes].
  unfold Throws, outcome. unfold bind at 1. unfold Date_now. unfold bind at 1.
  destruct Hin as [-> | Hin].
  - rewrite CodecFacts.base64ToTempFile_cases. cbv zeta. rewrite Hempty. cbn. eauto.
  - destruct (Api.base64ToTempFile c _ w) as [[clothUri | e] w1]; [| cbn; eauto].
    apply (IH Hin).
Qed.

(** X18. An empty garment anywhere in the list stops a try-on call
    before the network: the call throws an error whose message starts
    with ["Failed to prepare files: "] and no request is sent. *)
Theorem empty_garment_fails_before_any_request
    (request : TryOnGenerationRequest) (cloth : string) (w : World) :
  avatar_b64 request <> "" ->
  In cloth (clothes_b64 request) ->
  Api.strip_data_uri_prefix cloth = "" ->
  (exists reason,
      outcome (Api.generateTryOn request) w
      = Throw (Error ("Failed to prepare files: " ++ reason)))
  /\ requests (after (Api.generateTryOn request) w) = requests w.
Proof.
  intros Ha Hin Hempty.
  assert (Hprep : Throws (Api.prepare_tryon_form request) w).
  { unfold Api.prepare_tryon_form, Throws, outcome.
    unfold bind at 1. unfold Date_now. unfold bind at 1.
    destruct (Api.base64ToTempFile (avatar_b64 request) _ w)
      as [[avatarUri | e] w1]; [| cbn; eauto].
    unfold bind at 1.
    destruct (append_clothes_throws_on_empty _ _ Hin Hempty 0
                [("avatar", File (Api.createFileObject avatarUri "avatar.png" "image/png"))]
                w1) as [e He].
    unfold outcome in He.
    destruct (Api.append_clothes 0 _ _ w1) as [[form | e'] w2]; cbn in *;
      [discriminate | eauto]. }
  assert (Hrq : requests (after (Api.prepare_tryon_form request) w) = requests w)
    by (apply prepare_tryon_form_frame; intros; reflexivity).
  destruct Hprep as [e He]. unfold outcome, after in *.
  destruct (Api.prepare_tryon_form request w) as [[form | e'] w1] eqn:Ep;
    cbn [fst snd] in *; [discriminate |].
  assert (E : Api.generateTryOn request w
              = (Throw (Error ("Failed to prepare files: " ++ message e')),
                 with_console
                   (console w1 ++ [("[API] Error preparing files:", LogError e')])%list
                   w1)).
  { unfold Api.generateTryOn, truthy_string.
    apply String.eqb_neq in Ha. rewrite Ha. cbn [negb].
    destruct (clothes_b64 request) as [| c cs] eqn:Ec; [contradiction |].
    cbn [List.length Nat.eqb]. unfold bind at 1. unfold try_catch.
    rewrite Ep. reflexivity. }
  rewrite E. cbn [fst snd].
  split; [eexists; reflexivity | exact Hrq].
Qed.

Lemma empty_garment_witness :
  requests (after (Api.generateTryOn
                     {| avatar_b64 := "QVZBVEFS";
                        clothes_b64 := ["U0hJUlQ="; "data:image/png;base64,"];
                        compose := None; tryon_seed := None |})
              SamplesMore.world_success) = [].
Proof.
  apply (@empty_garment_fails_before_any_request
           {| avatar_b64 := "QVZBVEFS";
              clothes_b64 := ["U0hJUlQ="; "data:image/png;base64,"];
              compose := None; tryon_seed := None |}
           "data:image/png;base64," SamplesMore.world_success);
    [discriminate | right; now left | reflexivity].
Defined.

Lemma generation_call_sends_witness :
  exists q,
    requests (after (Api.generateVideoLoop Samples.still_image)
                SamplesMore.world_success) = [q]
    /\ url_path q = "/generate/videoloop"
    /\ headers q = [("api-key", "openvto-dev")].
Proof.
  destruct generation_call_sends_at_most_one_request as (_ & _ & Hv).
  destruct (Hv Samples.still_image SamplesMore.world_success)
    as [Hno | (q & Hq & Hpath & _ & _ & Hhead)].
  - discriminate Hno.
  - exists q. split; [exact Hq | split; [exact Hpath | exact Hhead]].
Defined.

Lemma generation_call_returns_witness :
  outcome (Api.generateTryOn Samples.one_garment) SamplesMore.world_success
  = Return Samples.tryon_image.
Proof.
  destruct generation_call_returns_the_payload as (_ & Ht & _).
  eapply (Ht Samples.one_garment SamplesMore.world_success); reflexivity.
Defined.

End ClientFacts.

(* ================================================================== *)
(** * Facts about what a run of the pipeline commits *)
(* ================================================================== *)

Module PipelineMoreFacts.
Import Js Wire Runtime StoreState ScreenState Spec SpecMore Frame.

(** What step 5 does to a world. *)
Lemma updateState_effect (uri : string) (type : MediaType)
    (thumbnail : option string) (w : World) :
  let w' := after (Screen.updateState uri type thumbnail) w in
  outcome (Screen.updateState uri type thumbnail) w = Return tt
  /\ resultUri (screen w') = Some uri
  /\ resultType (screen w') = type
  /\ translateY (screen w') = SNAP_BOTTOM
  /\ isGenerating (screen w') = isGenerating (screen w)
  /\ same_inputs (screen w) (screen w')
  /\ history w' = firstn 50 (committed_entry type uri thumbnail w :: history w)
  /\ requests w' = requests w
  /\ alerts w' = alerts w
  /\ console w' = console w
  /\ files w' = files w.
Proof.
  cbn zeta.
  unfold outcome, after, Screen.updateState, Store.addToHistory, Store.generateId,
    bind, Date_now, random_suffix, committed_entry, new_history_item, same_inputs.
  cbn. destruct (entropy w); cbn; repeat split.
Qed.

Lemma handleGenerate_after_return r w w1 :
  Screen.canGenerate r = true ->
  isGenerating r = false ->
  bind (tryOnStep r) (Screen.afterTryOn r) (started w) = (Return tt, w1) ->
  Screen.handleGenerate r w
  = (Return tt, after (Screen.setIsGenerating false) w1).
Proof.
  intros Hc Hg Hret. rewrite (@PipelineFacts.handleGenerate_runs r w Hc Hg).
  unfold try_finally, try_catch. rewrite Hret. reflexivity.
Qed.

(** Observations that the try-on step leaves alone. *)
Ltac untouched :=
  first [ apply tryOnStep_frame | apply generateVideo_frame ];
  unfold blind_to_requests_for; intros; reflexivity.

Ltac untouched_at p :=
  first [ apply (@tryOnStep_frame _ p) | apply (@generateVideo_frame _ p) ];
  unfold blind_to_requests_for; intros; reflexivity.

(** X19. A try-on run in image mode that succeeds shows the composed
    image as a data URI, appends exactly one history entry for it (type
    [image], no thumbnail) in front of the history, sends nothing to the
    video-loop endpoint, shows no alert and clears the generating
    flag. *)
Theorem image_run_commits_one_entry (r : Screen) (w : World) (t : TryOnResponse) :
  Screen.canGenerate r = true ->
  isGenerating r = false ->
  generationMode r = image ->
  outcome (tryOnStep r) (started w) = Return t ->
  let shown := Api.base64ToDataUri (image_b64 t) "image/png" in
  let w' := after (Screen.handleGenerate r) w in
  resultUri (screen w') = Some shown
  /\ resultType (screen w') = image
  /\ history w' = firstn 50 (committed_entry image shown None w :: history w)
  /\ Screen.video_calls w' = Screen.video_calls w
  /\ alerts w' = alerts w
  /\ isGenerating (screen w') = false.
Proof.
  intros Hc Hg Hmode Hstep shown w'.
  set (w1 := after (tryOnStep r) (started w)).
  assert (Hv : Screen.video_calls w1 = Screen.video_calls (started w))
    by apply PipelineFacts.tryOnStep_sends_no_video_request.
  assert (Ha : alerts w1 = alerts (started w)) by untouched.
  assert (Hs : store w1 = store (started w)) by untouched.
  assert (Hn : now w1 = now (started w)) by untouched.
  assert (He : entropy w1 = entropy (started w)) by untouched.
  destruct (updateState_effect shown image None w1)
    as (Hout & Hru & Hrt & _ & _ & _ & Hh & Hrq & Hal & _).
  assert (Hret : bind (tryOnStep r) (Screen.afterTryOn r) (started w)
                 = (Return tt, after (Screen.updateState shown image None) w1)).
  { unfold bind, Screen.afterTryOn. rewrite Hmode.
    subst w1. unfold outcome, after in *.
    destruct (tryOnStep r (started w)) as [c wa]. cbn [fst snd] in *. subst c.
    fold shown. destruct (Screen.updateState shown image None wa) as [c wb].
    cbn [fst snd] in *. now subst c. }
  subst w'. unfold after at 1 2 3 4 5 6.
  rewrite (handleGenerate_after_return r w Hc Hg Hret). cbn [snd].
  split; [exact Hru |]. split; [exact Hrt |]. split; [| split; [| split]].
  - change (history (after (Screen.updateState shown image None) w1)
            = firstn 50 (committed_entry image shown None w :: history w)).
    rewrite Hh. unfold committed_entry, new_history_item, history.
    rewrite Hn, He, Hs. reflexivity.
  - change (Screen.video_calls (after (Screen.updateState shown image None) w1)
            = Screen.video_calls w).
    unfold Screen.video_calls in *. rewrite Hrq. exact Hv.
  - change (alerts (after (Screen.updateState shown image None) w1) = alerts w).
    rewrite Hal. exact Ha.
  - reflexivity.
Qed.

Lemma image_run_witness :
  resultUri (screen (after (Screen.handleGenerate SamplesMore.image_screen)
                       SamplesMore.world_success))
    = Some "data:image/png;base64,QUJD"
  /\ List.length (history (after (Screen.handleGenerate SamplesMore.image_screen)
                             SamplesMore.world_success)) = 1.
Proof.
  destruct (@image_run_commits_one_entry SamplesMore.image_screen
              SamplesMore.world_success Samples.tryon_image
              eq_refl eq_refl eq_refl eq_refl)
    as (Hr & _ & Hh & _).
  split; [exact Hr | now rewrite Hh].
Defined.


(** A request that is answered with a value was answered with success,
    and that value is the body of the answer. *)
Lemma answered_request {T} (serve : Env -> Request -> option (Response T))
    (failure : Response T -> M Exn) (q : Request) (w : World) (v : T) (w1 : World) :
  bind (fetch serve q)
    (fun response =>
       if negb (ok response)
       then bind (failure response) (fun e => throw e)
       else response_json response) w = (Return v, w1) ->
  w1 = with_requests (requests w ++ [q])%list w
  /\ exists answer,
       serve (env w) q = Some answer /\ ok answer = true /\ payload answer = Some v.
Proof.
  unfold bind, fetch. destruct (serve (env w) q) as [answer |]; [| discriminate].
  destruct (ok answer) eqn:Eok; cbn [negb].
  - unfold response_json, ret, throw. destruct (payload answer) as [x |] eqn:Ep;
      [| discriminate].
    intros H. injection H as <- <-. split; [reflexivity |]. now exists answer.
  - destruct (failure answer _) as [[e | e] w2]; discriminate.
Qed.

(** A video-loop call that returns has written the image to its
    temporary file, sent exactly one request, to its own endpoint, with
    that file in its form, and was answered with the value it returns. *)
Lemma generateVideoLoop_returned request w v w1 :
  Api.generateVideoLoop request w = (Return v, w1) ->
  let imagePath := temp_path w ("image_" ++ number_toString (now w) ++ ".png") in
  exists q answer,
    requests w1 = (requests w ++ [q])%list
    /\ url_path q = "/generate/videoloop"
    /\ (mode request = Some mode_360 -> seconds request = None ->
        video_seed request = None ->
        body q = [("image", File (Api.createFileObject imagePath "image.png" "image/png"));
                  ("mode", Field "360"); ("seconds", Field "4")])
    /\ files w1 = (imagePath, Api.strip_data_uri_prefix (video_image_b64 request))
                   :: file_remove imagePath (files w)
    /\ serveVideoLoop (env w) q = Some answer
    /\ ok answer = true
    /\ payload answer = Some v
    /\ env w1 = env w
    /\ now w1 = now w
    /\ cacheDirectory (env w) <> None.
Proof.
  intros H imagePath. unfold Api.generateVideoLoop in H.
  unfold bind at 1 in H. unfold Date_now in H. unfold bind at 1 in H.
  destruct (Api.base64ToTempFile (video_image_b64 request) _ w)
    as [[imageUri | e] w0] eqn:Eb; [| discriminate H].
  assert (Hdir : cacheDirectory (env w) <> None).
  { rewrite CodecFacts.base64ToTempFile_cases in Eb. cbv zeta in Eb.
    destruct (String.eqb _ ""); [discriminate Eb |].
    destruct (cacheDirectory (env w)); [discriminate | discriminate Eb]. }
  apply ClientFacts.base64ToTempFile_returned in Eb. destruct Eb as [Hpath Hw0].
  fold imagePath in Hpath. subst imageUri.
  cbv zeta in H. unfold bind at 1 in H. unfold get in H.
  apply answered_request in H. destruct H as [Hw1 (answer & Hserve & Hok & Hv)].
  eexists. exists answer. subst w1 w0.
  cbn [requests files env now with_requests with_files url_path body].
  split; [reflexivity |]. split; [reflexivity |].
  split; [intros -> -> ->; reflexivity |].
  split; [reflexivity |]. now repeat split.
Qed.

Lemma image_is_no_clip_file (w : World) :
  cacheDirectory (env w) <> None ->
  temp_path w ("image_" ++ number_toString (now w) ++ ".png")
  <> Api.cacheDirectory_text w ++ "vto_video_" ++ number_toString (now w) ++ ".mp4".
Proof.
  unfold temp_path, Api.cacheDirectory_text.
  destruct (cacheDirectory (env w)) as [dir |]; [intros _ | intros H; now contradiction H].
  destruct (endsWith "/" dir).
  - intros E. apply ClientFacts.append_cancel_l in E. discriminate E.
  - rewrite CodecFacts.append_assoc. intros E.
    apply ClientFacts.append_cancel_l in E. discriminate E.
Qed.

(** What a returning [generateVideo] has done. *)
Lemma generateVideo_returned t w path thumb w2 :
  Screen.generateVideo t w = (Return (path, thumb), w2) ->
  path = Api.cacheDirectory_text w ++ "vto_video_" ++ number_toString (now w) ++ ".mp4"
  /\ Screen.video_calls w2 = S (Screen.video_calls w)
  /\ exists q answer clip,
       requests w2 = (requests w ++ [q])%list
       /\ url_path q = "/generate/videoloop"
       /\ video_form t w2 (body q)
       /\ serveVideoLoop (env w) q = Some answer
       /\ ok answer = true
       /\ payload answer = Some clip
       /\ file_lookup path (files w2) = Some (Api.strip_data_uri_prefix (video_b64 clip))
       /\ thumb = (if truthy_string (first_frame_b64 clip)
                   then Some (Api.base64ToDataUri (first_frame_b64 clip) "image/png")
                   else None).
Proof.
  intros H. unfold Screen.generateVideo in H. unfold bind at 1 in H.
  set (request := {| video_image_b64 := image_b64 t; mode := Some mode_360;
                     seconds := None; video_seed := None |}) in H.
  destruct (Api.generateVideoLoop request w) as [[clip | e] w1] eqn:Ev;
    [| discriminate H].
  apply generateVideoLoop_returned in Ev. cbv zeta in Ev.
  destruct Ev as (q & answer & Hrq & Hurl & Hbody & Hfiles & Hserve & Hok & Hpay
                  & Henv & Hnow & Hdir).
  specialize (Hbody eq_refl eq_refl eq_refl).
  cbv zeta in H.
  unfold bind at 1 in H. unfold Date_now in H. unfold bind at 1 in H. unfold get in H.
  set (clipPath := Api.cacheDirectory_text w1 ++ _) in H.
  assert (Hpath : clipPath
                  = Api.cacheDirectory_text w ++ "vto_video_" ++ number_toString (now w)
                      ++ ".mp4")
    by (unfold clipPath, Api.cacheDirectory_text; now rewrite Henv, Hnow).
  clearbody clipPath. subst clipPath.
  unfold bind at 1 in H. unfold writeAsStringAsync in H.
  destruct (writeFailure (env w1) _ _); [discriminate H |].
  unfold bind in H. unfold getInfoAsync in H. cbn [files with_files] in H.
  rewrite CodecFacts.file_lookup_written in H. cbn [exists_ size negb orb] in H.
  destruct (_ =? 0)%Z; [discriminate H |].
  injection H as <- <- <-. cbn [files requests with_files].
  split; [reflexivity |]. split.
  { unfold Screen.video_calls. cbn [requests with_files].
    rewrite Hrq, filter_app, length_app. cbn [filter]. rewrite Hurl. cbn. lia. }
  exists q, answer, clip.
  split; [exact Hrq |]. split; [exact Hurl |]. split.
  { eexists. split; [exact Hbody |]. eexists. split; [reflexivity |].
    cbn [files with_files]. rewrite ClientFacts.file_lookup_after_write
      by (apply image_is_no_clip_file; exact Hdir).
    rewrite Hfiles. apply CodecFacts.file_lookup_written. }
  split; [exact Hserve |]. split; [exact Hok |]. split; [exact Hpay |].
  split; [apply CodecFacts.file_lookup_written | reflexivity].
Qed.

(** X20. A try-on run in video mode that succeeds sends exactly one
    request to the video-loop endpoint. That request carries the file of
    the try-on image, which at the end of the run holds the image the
    try-on step returned, with mode 360 and 4 seconds. The clip the service answers this
    request with is saved to [vto_video_<time>.mp4] in the cache
    directory; that file is shown as a video, and exactly one history
    entry is added for it, whose thumbnail is the first frame of that
    same answer as a data URI, or none when the answer carries no first
    frame. *)
Theorem video_run_commits_the_saved_clip (r : Screen) (w : World)
    (t : TryOnResponse) (path : string) (thumb : option string) :
  Screen.canGenerate r = true ->
  isGenerating r = false ->
  generationMode r = video ->
  outcome (tryOnStep r) (started w) = Return t ->
  outcome (Screen.generateVideo t) (after (tryOnStep r) (started w))
    = Return (path, thumb) ->
  let w' := after (Screen.handleGenerate r) w in
  resultUri (screen w') = Some path
  /\ resultType (screen w') = video
  /\ history w' = firstn 50 (committed_entry video path thumb w :: history w)
  /\ Screen.video_calls w' = S (Screen.video_calls w)
  /\ alerts w' = alerts w
  /\ isGenerating (screen w') = false
  /\ path = Api.cacheDirectory_text w ++ "vto_video_" ++ number_toString (now w) ++ ".mp4"
  /\ exists q answer clip,
       requests w' = (requests (after (tryOnStep r) (started w)) ++ [q])%list
       /\ url_path q = "/generate/videoloop"
       /\ video_form t w' (body q)
       /\ serveVideoLoop (env w) q = Some answer
       /\ ok answer = true
       /\ payload answer = Some clip
       /\ file_lookup path (files w') = Some (Api.strip_data_uri_prefix (video_b64 clip))
       /\ thumb = (if truthy_string (first_frame_b64 clip)
                   then Some (Api.base64ToDataUri (first_frame_b64 clip) "image/png")
                   else None).
Proof.
  intros Hc Hg Hmode Hstep Hvideo w'.
  set (w1 := after (tryOnStep r) (started w)) in *.
  set (w2 := after (Screen.generateVideo t) w1).
  assert (Hv1 : Screen.video_calls w1 = Screen.video_calls (started w))
    by apply PipelineFacts.tryOnStep_sends_no_video_request.
  assert (Ha1 : alerts w1 = alerts (started w)) by untouched.
  assert (Hs1 : store w1 = store (started w)) by untouched.
  assert (Hn1 : now w1 = now (started w)) by untouched.
  assert (He1 : entropy w1 = entropy (started w)) by untouched.
  assert (Hv1' : env w1 = env (started w)) by untouched.
  assert (Ha2 : alerts w2 = alerts w1) by untouched.
  assert (Hs2 : store w2 = store w1) by untouched.
  assert (Hn2 : now w2 = now w1) by untouched.
  assert (He2 : entropy w2 = entropy w1) by untouched.
  assert (Hgv : Screen.generateVideo t w1 = (Return (path, thumb), w2)).
  { subst w2. unfold outcome, after in *.
    destruct (Screen.generateVideo t w1) as [c wa]. cbn [fst snd] in *. now subst c. }
  destruct (generateVideo_returned _ _ Hgv)
    as (Hpath & Hcalls & q & answer & clip & Hsent & Hurl & (imageFile & Hbody & pi & Hfi & Hli)
        & Hserve & Hok & Hpay & Hfile & Hthumb).
  destruct (updateState_effect path video thumb w2)
    as (Hout & Hru & Hrt & _ & _ & _ & Hh & Hrq & Hal & _ & Hfs).
  assert (Hret : bind (tryOnStep r) (Screen.afterTryOn r) (started w)
                 = (Return tt, after (Screen.updateState path video thumb) w2)).
  { unfold bind at 1. unfold Screen.afterTryOn. rewrite Hmode.
    assert (E : tryOnStep r (started w) = (Return t, w1)).
    { subst w1. unfold outcome, after in *.
      destruct (tryOnStep r (started w)) as [c wa]. cbn [fst snd] in *. now subst c. }
    rewrite E. unfold bind. rewrite Hgv.
    unfold outcome, after in *.
    destruct (Screen.updateState path video thumb w2) as [c wb].
    cbn [fst snd] in *. now subst c. }
  set (wu := after (Screen.updateState path video thumb) w2) in *.
  assert (Hfinal : w' = after (Screen.setIsGenerating false) wu).
  { subst w'. unfold after at 1.
    now rewrite (handleGenerate_after_return r w Hc Hg Hret). }
  assert (Pfiles : files w' = files wu) by (rewrite Hfinal; reflexivity).
  assert (Prequests : requests w' = requests wu) by (rewrite Hfinal; reflexivity).
  assert (Palerts : alerts w' = alerts wu) by (rewrite Hfinal; reflexivity).
  assert (Pstore : store w' = store wu) by (rewrite Hfinal; reflexivity).
  assert (Puri : resultUri (screen w') = resultUri (screen wu))
    by (rewrite Hfinal; reflexivity).
  assert (Ptype : resultType (screen w') = resultType (screen wu))
    by (rewrite Hfinal; reflexivity).
  assert (Pflag : isGenerating (screen w') = false) by (rewrite Hfinal; reflexivity).
  clearbody w'.
  split; [now rewrite Puri |]. split; [now rewrite Ptype |].
  split; [| split; [| split; [| split; [| split]]]].
  - unfold history in *. rewrite Pstore, Hh.
    unfold committed_entry, new_history_item.
    rewrite Hn2, He2, Hs2, Hn1, He1, Hs1. reflexivity.
  - unfold Screen.video_calls in *. rewrite Prequests, Hrq, Hcalls, Hv1. reflexivity.
  - rewrite Palerts, Hal, Ha2. exact Ha1.
  - exact Pflag.
  - rewrite Hpath. unfold Api.cacheDirectory_text. rewrite Hn1, Hv1'. reflexivity.
  - exists q, answer, clip.
    split; [now rewrite Prequests, Hrq |]. split; [exact Hurl |].
    split; [exists imageFile; split; [exact Hbody |]; exists pi; split;
            [exact Hfi | now rewrite Pfiles, Hfs] |].
    split; [now rewrite <- Hserve, Hv1' |]. split; [exact Hok |].
    split; [exact Hpay |]. split; [now rewrite Pfiles, Hfs | exact Hthumb].
Qed.

Lemma video_run_witness :
  resultUri (screen (after (Screen.handleGenerate Samples.video_screen)
                       SamplesMore.world_success))
    = Some "file:///cache/vto_video_1700000000000.mp4"
  /\ Screen.video_calls (after (Screen.handleGenerate Samples.video_screen)
                           SamplesMore.world_success) = 1.
Proof.
  destruct (@video_run_commits_the_saved_clip Samples.video_screen
              SamplesMore.world_success Samples.tryon_image
              "file:///cache/vto_video_1700000000000.mp4"
              (Some "data:image/png;base64,RlJBTUU=")
              eq_refl eq_refl eq_refl eq_refl eq_refl)
    as (Hr & _ & _ & Hc & _).
  split; [exact Hr | exact Hc].
Defined.

(** X21. A run whose try block throws at any point, whether in reading
    the inputs, in the try-on call, in the video call or in saving the
    clip, commits nothing: the store, hence the history, and the
    displayed result and its type are as before the run, the error alert
    is shown once and the generating flag is cleared. *)
Theorem failed_run_commits_nothing (r : Screen) (w : World) (e : Exn) :
  Screen.canGenerate r = true ->
  isGenerating r = false ->
  outcome (Screen.tryBlock r) (started w) = Throw e ->
  let w' := after (Screen.handleGenerate r) w in
  store w' = store w
  /\ resultUri (screen w') = resultUri (screen w)
  /\ resultType (screen w') = resultType (screen w)
  /\ alerts w'
     = (alerts w ++ [("Error", "Failed to generate result. Please try again.")])%list
  /\ isGenerating (screen w') = false.
Proof.
  intros Hc Hg Hthrow w'.
  unfold outcome in Hthrow. rewrite PipelineFacts.tryBlock_regrouped in Hthrow.
  fold (outcome (bind (tryOnStep r) (Screen.afterTryOn r)) (started w)) in Hthrow.
  set (w1 := after (bind (tryOnStep r) (Screen.afterTryOn r)) (started w)).
  assert (Hrun : bind (tryOnStep r) (Screen.afterTryOn r) (started w) = (Throw e, w1)).
  { subst w1. unfold outcome, after in *.
    destruct (bind (tryOnStep r) (Screen.afterTryOn r) (started w)) as [c wa].
    cbn [fst snd] in *. now subst c. }
  assert (Hframe : store w1 = store (started w)
                   /\ resultUri (screen w1) = resultUri (screen (started w))
                   /\ resultType (screen w1) = resultType (screen (started w))
                   /\ alerts w1 = alerts (started w)).
  { clear w'. subst w1. unfold outcome, after, bind in *.
    assert (F1 : store (after (tryOnStep r) (started w)) = store (started w)) by untouched.
    assert (F2 : resultUri (screen (after (tryOnStep r) (started w)))
                 = resultUri (screen (started w)))
      by untouched_at (fun x => resultUri (screen x)).
    assert (F3 : resultType (screen (after (tryOnStep r) (started w)))
                 = resultType (screen (started w)))
      by untouched_at (fun x => resultType (screen x)).
    assert (F4 : alerts (after (tryOnStep r) (started w)) = alerts (started w))
      by untouched.
    unfold after in F1, F2, F3, F4.
    destruct (tryOnStep r (started w)) as [[t | e1] wa]; cbn [fst snd] in *;
      [| now repeat split].
    unfold Screen.afterTryOn in *. destruct (generationMode r).
    - pose proof (updateState_effect
                    (Api.base64ToDataUri (image_b64 t) "image/png") image None wa)
        as (Hout & _).
      unfold outcome in Hout. rewrite Hout in Hthrow. discriminate Hthrow.
    - unfold bind in *.
      assert (G1 : store (after (Screen.generateVideo t) wa) = store wa) by untouched.
      assert (G2 : resultUri (screen (after (Screen.generateVideo t) wa))
                   = resultUri (screen wa))
        by untouched_at (fun x => resultUri (screen x)).
      assert (G3 : resultType (screen (after (Screen.generateVideo t) wa))
                   = resultType (screen wa))
        by untouched_at (fun x => resultType (screen x)).
      assert (G4 : alerts (after (Screen.generateVideo t) wa) = alerts wa) by untouched.
      unfold after in G1, G2, G3, G4.
      destruct (Screen.generateVideo t wa) as [[[p th] | e2] wb]; cbn [fst snd] in *.
      + pose proof (updateState_effect p video th wb) as (Hout & _).
        unfold outcome in Hout. rewrite Hout in Hthrow. discriminate Hthrow.
      + repeat split; congruence. }
  destruct Hframe as (Fs & Fu & Ft & Fa).
  destruct (PipelineFacts.after_catch_and_finally e w1)
    as (_ & _ & Ha & Hs & Hu & Ht & Hf & _).
  destruct (PipelineFacts.started_frame w) as (_ & _ & Sa & Ss & Su & St).
  subst w'. unfold after at 1 2 3 4 5.
  rewrite (PipelineFacts.handleGenerate_after_throw r w Hc Hg Hrun). cbn [snd].
  split; [congruence |]. split; [congruence |]. split; [congruence |].
  split; [| exact Hf]. rewrite Ha. congruence.
Qed.

Lemma failed_run_witness :
  store (after (Screen.handleGenerate Samples.video_screen) Samples.world_video_500)
  = store Samples.world_video_500.
Proof.
  apply (@failed_run_commits_nothing Samples.video_screen Samples.world_video_500
           (Error "Video loop generation failed") eq_refl eq_refl).
  vm_compute. reflexivity.
Defined.

End PipelineMoreFacts.

(* ================================================================== *)
(** * Facts about the handlers of the screens *)
(* ================================================================== *)

Module HandlerFacts.
Import Js Types Wire Runtime StoreState ScreenState Spec SpecMore Frame.

(** ** Deleting avatars *)

Lemma find_filter_other (l : list AvatarItem) (id other : string) :
  other <> id ->
  find (fun a => String.eqb (avatar_item_id a) other)
    (filter (fun a => negb (String.eqb (avatar_item_id a) id)) l)
  = find (fun a => String.eqb (avatar_item_id a) other) l.
Proof.
  intros Hne. induction l as [| a l IH]; cbn; [reflexivity |].
  destruct (String.eqb (avatar_item_id a) id) eqn:E; cbn.
  - apply String.eqb_eq in E.
    destruct (String.eqb (avatar_item_id a) other) eqn:E2; [| exact IH].
    apply String.eqb_eq in E2. congruence.
  - destruct (String.eqb (avatar_item_id a) other); [reflexivity | exact IH].
Qed.

Lemma find_some_id (l : list AvatarItem) (id : string) (a : AvatarItem) :
  find (fun a => String.eqb (avatar_item_id a) id) l = Some a ->
  In a l /\ avatar_item_id a = id.
Proof.
  intros H. apply find_some in H. destruct H as [Hin E].
  apply String.eqb_eq in E. now split.
Qed.

(** X22. The try-on screen never loses its default avatar nor its
    selection. Asked to delete an avatar found to be a default one,
    [handleDeleteAvatar] only shows the "Cannot Delete" alert. For any
    other id, confirming the dialog removes every avatar with that id;
    if the selected avatar was among them the selection falls back to
    ["default-1"], and in all cases the selection afterwards names an
    avatar of the list and ["default-1"] is still the default avatar. *)
Theorem handleDeleteAvatar_keeps_default_and_selection
    (w : World) (avatarId : string) :
  avatar_selection_valid (screen w) ->
  let r := screen w in
  let target :=
    array_find (fun a => String.eqb (avatar_item_id a) avatarId) (avatars r) in
  (Handlers.is_default target = true ->
   Handlers.handleDeleteAvatar r avatarId w
   = (Return None,
      with_alerts
        (alerts w ++ [("Cannot Delete", "Default avatar cannot be deleted.")])%list w))
  /\ (Handlers.is_default target = false ->
      exists confirmed w1,
        Handlers.handleDeleteAvatar r avatarId w = (Return (Some confirmed), w1)
        /\ screen w1 = screen w
        /\ avatarId <> "default-1"
        /\ let w2 := after confirmed w1 in
           avatar_selection_valid (screen w2)
           /\ (forall a, In a (avatars (screen w2)) -> avatar_item_id a <> avatarId)
           /\ (selectedAvatarId r = avatarId ->
               selectedAvatarId (screen w2) = "default-1")
           /\ (selectedAvatarId r <> avatarId ->
               selectedAvatarId (screen w2) = selectedAvatarId r)).
Proof.
  intros [[sel [Hsel Hselid]] Hdef] r target. subst r target. split.
  - intros Ht. unfold Handlers.handleDeleteAvatar. rewrite Ht. reflexivity.
  - intros Ht. unfold Handlers.handleDeleteAvatar. rewrite Ht.
    eexists. eexists. split; [reflexivity |]. split; [reflexivity |].
    assert (Hne : avatarId <> "default-1").
    { intros ->. rewrite Hdef in Ht. discriminate Ht. }
    split; [exact Hne |]. cbv zeta.
    set (kept := filter (fun a => negb (String.eqb (avatar_item_id a) avatarId))
                   (avatars (screen w))).
    assert (Hkept_default :
              Handlers.is_default
                (array_find (fun a => String.eqb (avatar_item_id a) "default-1") kept)
              = true).
    { unfold array_find, kept. rewrite find_filter_other; [exact Hdef | congruence]. }
    assert (Hexcl : forall a, In a kept -> avatar_item_id a <> avatarId).
    { intros a Ha. unfold kept in Ha. apply filter_In in Ha. destruct Ha as [_ Ha].
      apply Bool.negb_true_iff in Ha. now apply String.eqb_neq. }
    unfold after, Handlers.deleteAvatar_confirmed, bind, Handlers.setAvatars,
      Handlers.setSelectedAvatarId, Handlers.update_screen, modify, Alert_alert.
    cbn [fst snd screen with_alerts].
    destruct (String.eqb (selectedAvatarId (screen w)) avatarId) eqn:E;
      cbn [fst snd screen with_screen with_alerts Handlers.with_avatar_items
           avatars selectedAvatarId]; fold kept.
    + apply String.eqb_eq in E. split; [split |].
      * unfold array_find in Hkept_default.
        destruct (find _ kept) as [d |] eqn:Ed; [| discriminate Hkept_default].
        apply find_some_id in Ed. exists d. exact Ed.
      * exact Hkept_default.
      * split; [exact Hexcl |]. split; [reflexivity | intros H; contradiction].
    + apply String.eqb_neq in E. split; [split |].
      * exists sel. split; [| exact Hselid].
        unfold kept. apply filter_In. split; [exact Hsel |].
        apply Bool.negb_true_iff, String.eqb_neq. congruence.
      * exact Hkept_default.
      * split; [exact Hexcl |]. split; [intros H; contradiction | reflexivity].
Qed.

Lemma handleDeleteAvatar_witness :
  exists confirmed w1,
    Handlers.handleDeleteAvatar (screen SamplesMore.world_own_avatar)
      "avatar-1690000000000" SamplesMore.world_own_avatar
    = (Return (Some confirmed), w1)
    /\ selectedAvatarId (screen (after confirmed w1)) = "default-1"
    /\ avatars (screen (after confirmed w1)) = [Samples.default_avatar].
Proof.
  assert (Hvalid : avatar_selection_valid (screen SamplesMore.world_own_avatar)).
  { split; [| reflexivity]. exists SamplesMore.own_avatar.
    split; [right; left |]; reflexivity. }
  destruct (@handleDeleteAvatar_keeps_default_and_selection
              SamplesMore.world_own_avatar "avatar-1690000000000" Hvalid)
    as [_ H].
  destruct (H eq_refl) as (confirmed & w1 & Hrun & _ & _ & _ & _ & Hsel & _).
  exists confirmed, w1. split; [exact Hrun |]. split; [now apply Hsel |].
  unfold Handlers.handleDeleteAvatar in Hrun. cbn in Hrun.
  inversion Hrun; subst. reflexivity.
Defined.

Lemma pointer_in_filter (l : list Avatar) (id p : string) :
  p <> id ->
  (exists a, In a l /\ avatar_id a = p) ->
  exists a, In a (filter (fun a => negb (String.eqb (avatar_id a) id)) l)
            /\ avatar_id a = p.
Proof.
  intros Hne (a & Hin & Hid). exists a. split; [| exact Hid].
  apply filter_In. split; [exact Hin |].
  apply Bool.negb_true_iff, String.eqb_neq. congruence.
Qed.

(** X23. On the avatar tab, deleting an avatar never leaves the store's
    selection dangling: every avatar with the id is removed; when the
    selected avatar was deleted, the first remaining avatar becomes
    selected, or none when no avatar remains; any other selection is
    kept; and the selection afterwards, when there is one, names an
    avatar of the store. *)
Theorem avatarTab_delete_keeps_selection_valid (w : World) (id : string) :
  pointer_valid (store w) ->
  let s := store w in
  let remaining :=
    filter (fun a => negb (String.eqb (avatar_id a) id)) (StoreState.avatars s) in
  let w' := after (Handlers.avatarTab_delete_confirmed
                     (StoreState.avatars s) (StoreState.selectedAvatarId s) id) w in
  StoreState.avatars (store w') = remaining
  /\ pointer_valid (store w')
  /\ (StoreState.selectedAvatarId s = Some id ->
      StoreState.selectedAvatarId (store w')
      = option_map avatar_id (hd_error remaining))
  /\ (StoreState.selectedAvatarId s <> Some id ->
      StoreState.selectedAvatarId (store w') = StoreState.selectedAvatarId s).
Proof.
  intros Hvalid s remaining w'. subst s w'.
  unfold pointer_valid in *.
  unfold after, Handlers.avatarTab_delete_confirmed, bind, StoreMore.removeAvatar,
    StoreMore.selectAvatar, Store.set, modify, StoreMore.cleared_if.
  cbn [fst snd].
  destruct (StoreState.selectedAvatarId (store w)) as [p |] eqn:Ep;
    cbn [StoreMore.points_to].
  - destruct (String.eqb p id) eqn:E.
    + apply String.eqb_eq in E. subst p. fold remaining.
      destruct remaining as [| first rest] eqn:Er; cbn.
      * split; [reflexivity |]. split; [exact I |].
        split; [reflexivity | intros H; now contradiction H].
      * split; [reflexivity |]. split.
        -- exists first. split; [now left | reflexivity].
        -- split; [reflexivity | intros H; now contradiction H].
    + apply String.eqb_neq in E. cbn. fold remaining.
      split; [reflexivity |]. split.
      * now apply pointer_in_filter.
      * split; [intros H; congruence | reflexivity].
  - cbn. fold remaining.
    split; [reflexivity |]. split; [exact I |].
    split; [intros H; discriminate H | reflexivity].
Qed.

Lemma avatarTab_delete_witness :
  StoreState.selectedAvatarId
    (store (after (Handlers.avatarTab_delete_confirmed
                     [Samples.failed_avatar; SamplesMore.second_avatar] (Some "a1") "a1")
              SamplesMore.world_two_avatars))
  = Some "a2".
Proof.
  assert (Hvalid : pointer_valid (store SamplesMore.world_two_avatars)).
  { exists Samples.failed_avatar. split; [left |]; reflexivity. }
  destruct (@avatarTab_delete_keeps_selection_valid SamplesMore.world_two_avatars
              "a1" Hvalid) as (_ & _ & H & _).
  exact (H eq_refl).
Defined.

(** ** Creating an avatar *)

Lemma avatarStep_frame {X} (p : World -> X) selfie posture :
  (forall v w, p (with_files v w) = p w) ->
  (forall v w, p (with_console v w) = p w) ->
  blind_to_requests_for p "/generate/avatar" ->
  Preserves p (avatarStep selfie posture).
Proof.
  intros Hf Hc Hq. unfold avatarStep.
  apply Preserves_bind; [now apply imageUriToBase64_frame | intros a].
  apply Preserves_bind; [now apply imageUriToBase64_frame | intros b].
  now apply generateAvatar_frame.
Qed.

Lemma createAvatar_after_throw selfie posture m w e w1 :
  avatarStep selfie posture w = (Throw e, w1) ->
  Handlers.createAvatar selfie posture m w = (Throw e, w1).
Proof.
  unfold avatarStep, Handlers.createAvatar, bind.
  destruct (Api.imageUriToBase64 selfie w) as [[a | e1] wa];
    [| intros H; inversion H; reflexivity].
  destruct (Api.imageUriToBase64 posture wa) as [[b | e2] wb];
    [| intros H; inversion H; reflexivity].
  destruct (Api.generateAvatar _ wb) as [[result | e3] wc];
    [discriminate | intros H; inversion H; reflexivity].
Qed.

Lemma createAvatar_after_return selfie posture m w result w1 :
  avatarStep selfie posture w = (Return result, w1) ->
  Handlers.createAvatar selfie posture m w
  = (Return {| Handlers.showAvatarModal := false;
               Handlers.avatarSelfie := None;
               Handlers.avatarPosture := None;
               Handlers.isCreatingAvatar := Handlers.isCreatingAvatar m |},
     with_alerts (alerts w1 ++ [("Success", "Avatar created successfully!")])%list
       (with_screen
          (Handlers.with_avatar_items
             (avatars (screen w1) ++ [created_avatar result (now w1)])%list
             ("avatar-" ++ number_toString (now w1)) (screen w1))
          w1)).
Proof.
  unfold avatarStep, Handlers.createAvatar, bind.
  destruct (Api.imageUriToBase64 selfie w) as [[a | e1] wa]; [| discriminate].
  destruct (Api.imageUriToBase64 posture wa) as [[b | e2] wb]; [| discriminate].
  destruct (Api.generateAvatar _ wb) as [[r | e3] wc]; [| discriminate].
  intros H. inversion H; subst. reflexivity.
Qed.

Lemma present_not_missing (uri : string) :
  uri <> "" -> Handlers.missing (Some uri) = false.
Proof.
  intros H. unfold Handlers.missing, truthy_string.
  apply String.eqb_neq in H. now rewrite H.
Qed.

Lemma handleCreateAvatar_after_throw m w selfie posture e w1 :
  Handlers.avatarSelfie m = Some selfie ->
  Handlers.avatarPosture m = Some posture ->
  selfie <> "" ->
  posture <> "" ->
  avatarStep selfie posture w = (Throw e, w1) ->
  Handlers.handleCreateAvatar m w
  = (Return {| Handlers.showAvatarModal := Handlers.showAvatarModal m;
               Handlers.avatarSelfie := Some selfie;
               Handlers.avatarPosture := Some posture;
               Handlers.isCreatingAvatar := false |},
     with_alerts (alerts w1 ++ [("Error", message e)])%list
       (with_console
          (console w1 ++ [("Avatar creation failed:", LogError e)])%list w1)).
Proof.
  intros Hs Hp Hsne Hpne Hrun. unfold Handlers.handleCreateAvatar.
  rewrite Hs, Hp, !present_not_missing by assumption. cbn [orb nullish].
  unfold bind at 1. unfold try_catch.
  rewrite (createAvatar_after_throw _ _ m _ Hrun).
  destruct m as [shown ms mp creating]. cbn in Hs, Hp. subst ms mp. reflexivity.
Qed.

Lemma handleCreateAvatar_after_return m w selfie posture result w1 :
  Handlers.avatarSelfie m = Some selfie ->
  Handlers.avatarPosture m = Some posture ->
  selfie <> "" ->
  posture <> "" ->
  avatarStep selfie posture w = (Return result, w1) ->
  Handlers.handleCreateAvatar m w
  = (Return {| Handlers.showAvatarModal := false;
               Handlers.avatarSelfie := None;
               Handlers.avatarPosture := None;
               Handlers.isCreatingAvatar := false |},
     with_alerts (alerts w1 ++ [("Success", "Avatar created successfully!")])%list
       (with_screen
          (Handlers.with_avatar_items
             (avatars (screen w1) ++ [created_avatar result (now w1)])%list
             ("avatar-" ++ number_toString (now w1)) (screen w1))
          w1)).
Proof.
  intros Hs Hp Hsne Hpne Hrun. unfold Handlers.handleCreateAvatar.
  rewrite Hs, Hp, !present_not_missing by assumption. cbn [orb nullish].
  unfold bind at 1. unfold try_catch.
  rewrite (createAvatar_after_return _ _ m _ Hrun). reflexivity.
Qed.

(** X24. [handleCreateAvatar] never throws and never half-creates an
    avatar. With a photo missing it only shows the "Missing Images"
    alert. When encoding a photo or the avatar call fails, it shows an
    alert carrying the error's own message, logs the error, and leaves
    the screen (avatars, selection) and the store as they were; the
    modal stays open with both photos, and the creating flag is
    cleared. *)
Theorem handleCreateAvatar_failure_changes_nothing
    (m : Handlers.AvatarModal) (w : World) :
  (Handlers.missing (Handlers.avatarSelfie m)
   || Handlers.missing (Handlers.avatarPosture m) = true ->
   Handlers.handleCreateAvatar m w
   = (Return m,
      with_alerts
        (alerts w ++ [("Missing Images", "Please add both selfie and posture images.")])%list
        w))
  /\ (exists m', outcome (Handlers.handleCreateAvatar m) w = Return m')
  /\ (forall selfie posture e,
        Handlers.avatarSelfie m = Some selfie ->
        Handlers.avatarPosture m = Some posture ->
        selfie <> "" ->
        posture <> "" ->
        outcome (avatarStep selfie posture) w = Throw e ->
        let w' := after (Handlers.handleCreateAvatar m) w in
        outcome (Handlers.handleCreateAvatar m) w
        = Return {| Handlers.showAvatarModal := Handlers.showAvatarModal m;
                    Handlers.avatarSelfie := Some selfie;
                    Handlers.avatarPosture := Some posture;
                    Handlers.isCreatingAvatar := false |}
        /\ alerts w' = (alerts w ++ [("Error", message e)])%list
        /\ (exists logged,
              console w' = (logged ++ [("Avatar creation failed:", LogError e)])%list)
        /\ screen w' = screen w
        /\ store w' = store w).
Proof.
  split; [| split].
  - intros H. unfold Handlers.handleCreateAvatar. rewrite H. reflexivity.
  - unfold outcome, Handlers.handleCreateAvatar.
    destruct (_ || _); [eexists; reflexivity |].
    unfold bind at 1. unfold try_catch.
    destruct (Handlers.createAvatar _ _ m w) as [[m1 | e] w1]; eexists; reflexivity.
  - intros selfie posture e Hs Hp Hsne Hpne Hthrow w'. subst w'.
    set (w1 := after (avatarStep selfie posture) w).
    assert (Fa : alerts w1 = alerts w)
      by (apply avatarStep_frame; unfold blind_to_requests_for; intros; reflexivity).
    assert (Fs : screen w1 = screen w)
      by (apply avatarStep_frame; unfold blind_to_requests_for; intros; reflexivity).
    assert (Ft : store w1 = store w)
      by (apply avatarStep_frame; unfold blind_to_requests_for; intros; reflexivity).
    assert (Hrun : avatarStep selfie posture w = (Throw e, w1)).
    { subst w1. unfold outcome, after in *.
      destruct (avatarStep selfie posture w) as [c wa]. cbn [fst snd] in *. now subst c. }
    unfold outcome, after.
    rewrite (@handleCreateAvatar_after_throw m w selfie posture e w1 Hs Hp Hsne Hpne Hrun).
    cbn [fst snd alerts console screen store with_alerts with_console].
    split; [reflexivity |]. split; [now rewrite Fa |].
    split; [now exists (console w1) |]. split; assumption.
Qed.

Lemma handleCreateAvatar_failure_witness :
  alerts (after (Handlers.handleCreateAvatar SamplesMore.filled_modal) Samples.world_422)
  = [("Error", "clothes: too short")].
Proof.
  destruct (@handleCreateAvatar_failure_changes_nothing SamplesMore.filled_modal
              Samples.world_422) as (_ & _ & H).
  destruct (H "data:image/jpeg;base64,U0VMRklF" "data:image/jpeg;base64,UE9TVFVSRQ=="
              (Error "clothes: too short") eq_refl eq_refl)
    as (_ & Ha & _); [discriminate | discriminate | reflexivity |].
  exact Ha.
Defined.

(** X25. When both photos are encoded and the avatar call returns,
    [handleCreateAvatar] appends exactly one avatar, whose id is
    [avatar-<time>] and whose image is the returned image as a PNG data
    URI, selects it, closes the modal and clears its photos, shows the
    "Success" alert and leaves the store as it was. *)
Theorem handleCreateAvatar_success_selects_the_new_avatar
    (m : Handlers.AvatarModal) (w : World) (selfie posture : string)
    (result : AvatarResponse) :
  Handlers.avatarSelfie m = Some selfie ->
  Handlers.avatarPosture m = Some posture ->
  selfie <> "" ->
  posture <> "" ->
  outcome (avatarStep selfie posture) w = Return result ->
  let w' := after (Handlers.handleCreateAvatar m) w in
  outcome (Handlers.handleCreateAvatar m) w
  = Return {| Handlers.showAvatarModal := false;
              Handlers.avatarSelfie := None;
              Handlers.avatarPosture := None;
              Handlers.isCreatingAvatar := false |}
  /\ avatars (screen w') = (avatars (screen w) ++ [created_avatar result (now w)])%list
  /\ selectedAvatarId (screen w') = "avatar-" ++ number_toString (now w)
  /\ alerts w' = (alerts w ++ [("Success", "Avatar created successfully!")])%list
  /\ store w' = store w.
Proof.
  intros Hs Hp Hsne Hpne Hret w'. subst w'.
  set (w1 := after (avatarStep selfie posture) w).
  assert (Fa : alerts w1 = alerts w)
    by (apply avatarStep_frame; unfold blind_to_requests_for; intros; reflexivity).
  assert (Fs : screen w1 = screen w)
    by (apply avatarStep_frame; unfold blind_to_requests_for; intros; reflexivity).
  assert (Ft : store w1 = store w)
    by (apply avatarStep_frame; unfold blind_to_requests_for; intros; reflexivity).
  assert (Fn : now w1 = now w)
    by (apply avatarStep_frame; unfold blind_to_requests_for; intros; reflexivity).
  assert (Hrun : avatarStep selfie posture w = (Return result, w1)).
  { subst w1. unfold outcome, after in *.
    destruct (avatarStep selfie posture w) as [c wa]. cbn [fst snd] in *. now subst c. }
  unfold outcome, after.
  rewrite (@handleCreateAvatar_after_return m w selfie posture result w1 Hs Hp Hsne Hpne Hrun).
  cbn [fst snd screen with_screen with_alerts alerts store
       Handlers.with_avatar_items avatars selectedAvatarId].
  rewrite Fs, Fn, Fa. repeat split. exact Ft.
Qed.

Lemma handleCreateAvatar_success_witness :
  selectedAvatarId
    (screen (after (Handlers.handleCreateAvatar SamplesMore.filled_modal)
               SamplesMore.world_success))
  = "avatar-1700000000000"
  /\ List.length
       (avatars (screen (after (Handlers.handleCreateAvatar SamplesMore.filled_modal)
                           SamplesMore.world_success))) = 2.
Proof.
  destruct (@handleCreateAvatar_success_selects_the_new_avatar
              SamplesMore.filled_modal SamplesMore.world_success
              "data:image/jpeg;base64,U0VMRklF" "data:image/jpeg;base64,UE9TVFVSRQ=="
              SamplesMore.avatar_image eq_refl eq_refl)
    as (_ & Hav & Hsel & _); [discriminate | discriminate | reflexivity |].
  split; [exact Hsel | now rewrite Hav].
Defined.

(** ** Loading the catalogue *)

Lemma Preserves_for_each {X A} (p : World -> X) (xs : list A) (body : A -> M unit) :
  (forall x, Preserves p (body x)) -> Preserves p (for_each xs body).
Proof.
  intros Hb. induction xs as [| x xs IH]; cbn [for_each].
  - apply Preserves_ret.
  - apply Preserves_bind; [apply Hb | intros _; exact IH].
Qed.

Lemma filter_local_twice (l : list DisplayItem) :
  filter Handlers.display_local (filter Handlers.display_local l)
  = filter Handlers.display_local l.
Proof.
  induction l as [| i l IH]; cbn; [reflexivity |].
  destruct (Handlers.display_local i) eqn:E; cbn; [rewrite E; now f_equal | exact IH].
Qed.

(** Replacing the remote items of a list by catalogue items keeps its
    local items. *)
Lemma replace_remote_keeps_local category itemsData w0 prev :
  local_items
    (Handlers.replace_remote (Handlers.remote_items category itemsData w0) prev)
  = local_items prev.
Proof.
  unfold local_items, Handlers.replace_remote, Handlers.remote_items.
  rewrite filter_app, filter_local_twice.
  induction (ApiMore.indices itemsData) as [| index rest IH]; cbn.
  - apply app_nil_r.
  - exact IH.
Qed.

Section CatalogueFrame.
Context {X : Type} (p : World -> X) (assets : ApiMore.Assets).
Hypothesis p_console : forall v w, p (with_console v w) = p w.
Hypothesis p_requests : forall v w, p (with_requests v w) = p w.
Hypothesis p_shirts : forall category itemsData w0 w,
  p (after (Handlers.setShirts
              (Handlers.replace_remote
                 (Handlers.remote_items category itemsData w0))) w)
  = p w.
Hypothesis p_trousers : forall category itemsData w0 w,
  p (after (Handlers.setTrousers
              (Handlers.replace_remote
                 (Handlers.remote_items category itemsData w0))) w)
  = p w.
Hypothesis p_jackets : forall category itemsData w0 w,
  p (after (Handlers.setJackets
              (Handlers.replace_remote
                 (Handlers.remote_items category itemsData w0))) w)
  = p w.

Lemma asset_fetch_frame {T} (serve : Env -> Request -> option (Response T)) q :
  Preserves p (fetch serve q).
Proof. apply fetch_frame. intros w. apply p_requests. Qed.

Lemma getClothingCategories_frame :
  Preserves p (ApiMore.getClothingCategories assets).
Proof.
  unfold ApiMore.getClothingCategories.
  apply Preserves_bind; [apply Preserves_get | intros w0].
  apply Preserves_bind; [apply asset_fetch_frame | intros response].
  destruct (negb (ok response)); [apply Preserves_throw |].
  apply Preserves_bind; [| intros data; apply Preserves_ret].
  unfold response_json. destruct (payload response);
    [apply Preserves_ret | apply Preserves_throw].
Qed.

Lemma getClothingItems_frame category :
  Preserves p (ApiMore.getClothingItems assets category).
Proof.
  unfold ApiMore.getClothingItems.
  apply Preserves_bind; [apply Preserves_get | intros w0].
  apply Preserves_bind; [apply asset_fetch_frame | intros response].
  destruct (negb (ok response)); [apply Preserves_throw |].
  unfold response_json. destruct (payload response);
    [apply Preserves_ret | apply Preserves_throw].
Qed.

Lemma loadCategory_frame category :
  Preserves p (Handlers.loadCategory assets category).
Proof.
  unfold Handlers.loadCategory.
  apply Preserves_bind; [apply getClothingItems_frame | intros itemsData].
  apply Preserves_bind; [apply Preserves_get | intros w0]. cbv zeta.
  unfold Handlers.by_category.
  destruct (String.eqb category "shirts"); [intros w; apply p_shirts |].
  destruct (String.eqb category "pants"); [intros w; apply p_trousers |].
  destruct (String.eqb category "jackets"); [intros w; apply p_jackets |].
  apply Preserves_ret.
Qed.

Lemma loadClothingFromAPI_frame :
  Preserves p (Handlers.loadClothingFromAPI assets).
Proof.
  unfold Handlers.loadClothingFromAPI.
  apply Preserves_bind; [| intros error; apply Preserves_ret].
  apply Preserves_try_catch.
  - apply Preserves_bind; [apply getClothingCategories_frame | intros categories].
    apply Preserves_bind; [| intros _; apply Preserves_ret].
    apply Preserves_for_each. intros category. apply loadCategory_frame.
  - intros e. apply Preserves_bind; [| intros _; apply Preserves_ret].
    apply Preserves_modify. intros w. apply p_console.
Qed.

End CatalogueFrame.

(** ** What the catalogue calls send *)

Lemma only_catalogue_quiet {A} (m : M A) :
  Preserves requests m -> OnlyCatalogueRequests m.
Proof.
  intros H w. exists []. rewrite app_nil_r. split; [apply H | constructor].
Qed.

Lemma only_catalogue_bind {A B} (m : M A) (k : A -> M B) :
  OnlyCatalogueRequests m ->
  (forall a, OnlyCatalogueRequests (k a)) ->
  OnlyCatalogueRequests (bind m k).
Proof.
  intros Hm Hk w. destruct (Hm w) as (sent & Hs & Hf).
  unfold after in *. unfold bind.
  destruct (m w) as [[a | e] w1]; cbn [fst snd] in *.
  - destruct (Hk a w1) as (sent' & Hs' & Hf'). unfold after in Hs'.
    exists (sent ++ sent')%list. split.
    + rewrite Hs', Hs. now rewrite app_assoc.
    + apply Forall_app. now split.
  - now exists sent.
Qed.

Lemma only_catalogue_try_catch {A} (m : M A) (h : Exn -> M A) :
  OnlyCatalogueRequests m ->
  (forall e, OnlyCatalogueRequests (h e)) ->
  OnlyCatalogueRequests (try_catch m h).
Proof.
  intros Hm Hh w. destruct (Hm w) as (sent & Hs & Hf).
  unfold after in *. unfold try_catch.
  destruct (m w) as [[a | e] w1]; cbn [fst snd] in *.
  - now exists sent.
  - destruct (Hh e w1) as (sent' & Hs' & Hf'). unfold after in Hs'.
    exists (sent ++ sent')%list. split.
    + rewrite Hs', Hs. now rewrite app_assoc.
    + apply Forall_app. now split.
Qed.

Lemma only_catalogue_for_each {A} (xs : list A) (body : A -> M unit) :
  (forall x, OnlyCatalogueRequests (body x)) ->
  OnlyCatalogueRequests (for_each xs body).
Proof.
  intros Hb. induction xs as [| x xs IH]; cbn [for_each].
  - apply only_catalogue_quiet, Preserves_ret.
  - apply only_catalogue_bind; [apply Hb | intros _; exact IH].
Qed.

Lemma only_catalogue_fetch {T} (serve : Env -> Request -> option (Response T)) q :
  catalogue_request q -> OnlyCatalogueRequests (fetch serve q).
Proof.
  intros Hq w. exists [q]. split; [| now constructor].
  unfold after, fetch. destruct (serve (env w) q); reflexivity.
Qed.

Lemma response_json_quiet {T} (r : Response T) : Preserves requests (response_json r).
Proof.
  unfold response_json. destruct (payload r); [apply Preserves_ret | apply Preserves_throw].
Qed.

Lemma getClothingCategories_requests assets :
  OnlyCatalogueRequests (ApiMore.getClothingCategories assets).
Proof.
  unfold ApiMore.getClothingCategories.
  apply only_catalogue_bind; [apply only_catalogue_quiet, Preserves_get | intros w0].
  apply only_catalogue_bind.
  - apply only_catalogue_fetch. repeat split.
  - intros response. apply only_catalogue_quiet.
    destruct (negb (ok response)); [apply Preserves_throw |].
    apply Preserves_bind; [apply response_json_quiet | intros d; apply Preserves_ret].
Qed.

Lemma getClothingItems_requests assets category :
  OnlyCatalogueRequests (ApiMore.getClothingItems assets category).
Proof.
  unfold ApiMore.getClothingItems.
  apply only_catalogue_bind; [apply only_catalogue_quiet, Preserves_get | intros w0].
  apply only_catalogue_bind.
  - apply only_catalogue_fetch. split; [reflexivity |]. split; [reflexivity |].
    split; [reflexivity |]. cbn [url_path ApiMore.get_request]. unfold startsWith.
    apply (CodecFacts.prefix_app "/assets/clothes/" "/assets/clothes/"). reflexivity.
  - intros response. apply only_catalogue_quiet.
    destruct (negb (ok response)); [apply Preserves_throw | apply response_json_quiet].
Qed.

Lemma loadClothingFromAPI_requests assets :
  OnlyCatalogueRequests (Handlers.loadClothingFromAPI assets).
Proof.
  unfold Handlers.loadClothingFromAPI.
  apply only_catalogue_bind;
    [| intros error; apply only_catalogue_quiet, Preserves_ret].
  apply only_catalogue_try_catch.
  - apply only_catalogue_bind; [apply getClothingCategories_requests | intros cs].
    apply only_catalogue_bind;
      [| intros _; apply only_catalogue_quiet, Preserves_ret].
    apply only_catalogue_for_each. intros category. unfold Handlers.loadCategory.
    apply only_catalogue_bind; [apply getClothingItems_requests | intros d].
    apply only_catalogue_quiet.
    apply Preserves_bind; [apply Preserves_get | intros w0]. cbv zeta.
    unfold Handlers.by_category.
    destruct (String.eqb category "shirts"); [intros w; reflexivity |].
    destruct (String.eqb category "pants"); [intros w; reflexivity |].
    destruct (String.eqb category "jackets"); [intros w; reflexivity |].
    apply Preserves_ret.
  - intros e. apply only_catalogue_quiet.
    apply Preserves_bind; [| intros _; apply Preserves_ret].
    apply Preserves_modify. intros w. reflexivity.
Qed.

Ltac catalogue_frame p :=
  apply (@loadClothingFromAPI_frame _ p); intros;
  first [ reflexivity | apply replace_remote_keeps_local ].

(** X27. Loading the catalogue never throws, whatever the service
    answers, and ends with the loading flag cleared. It keeps the local
    garments of the three lists (only remote items are replaced), the
    selections, the avatars and the store, shows no alert, and sends
    nothing but catalogue requests: GETs without headers or body to
    paths under [/assets/clothes/]. *)
Theorem loadClothingFromAPI_keeps_local_garments
    (assets : ApiMore.Assets) (w : World) :
  let w' := after (Handlers.loadClothingFromAPI assets) w in
  (exists error,
      outcome (Handlers.loadClothingFromAPI assets) w
      = Return {| Handlers.isLoadingClothes := false; Handlers.loadError := error |})
  /\ local_items (shirts (screen w')) = local_items (shirts (screen w))
  /\ local_items (trousers (screen w')) = local_items (trousers (screen w))
  /\ local_items (jackets (screen w')) = local_items (jackets (screen w))
  /\ selectedShirt (screen w') = selectedShirt (screen w)
  /\ selectedTrousers (screen w') = selectedTrousers (screen w)
  /\ selectedJacket (screen w') = selectedJacket (screen w)
  /\ avatars (screen w') = avatars (screen w)
  /\ store w' = store w
  /\ alerts w' = alerts w
  /\ exists sent,
       requests w' = (requests w ++ sent)%list /\ Forall catalogue_request sent.
Proof.
  cbv zeta. split.
  { unfold outcome, Handlers.loadClothingFromAPI. unfold bind at 1. unfold try_catch.
    destruct (bind (ApiMore.getClothingCategories assets) _ w) as [[error | e] w1];
      cbn; eauto. }
  split; [catalogue_frame (fun x => local_items (shirts (screen x))) |].
  split; [catalogue_frame (fun x => local_items (trousers (screen x))) |].
  split; [catalogue_frame (fun x => local_items (jackets (screen x))) |].
  split; [catalogue_frame (fun x => selectedShirt (screen x)) |].
  split; [catalogue_frame (fun x => selectedTrousers (screen x)) |].
  split; [catalogue_frame (fun x => selectedJacket (screen x)) |].
  split; [catalogue_frame (fun x => avatars (screen x)) |].
  split; [catalogue_frame store |].
  split; [catalogue_frame alerts |].
  apply loadClothingFromAPI_requests.
Qed.

(** ** Showing the stored garments *)

Lemma showStoredItem_returns item w :
  outcome (Handlers.showStoredItem item) w = Return tt.
Proof. unfold Handlers.showStoredItem. now destruct (item_category item). Qed.

Lemma showStoredItem_store item w :
  store (after (Handlers.showStoredItem item) w) = store w.
Proof. unfold Handlers.showStoredItem. now destruct (item_category item). Qed.

Lemma add_unless_present_incl d prev : incl prev (Handlers.add_unless_present d prev).
Proof.
  unfold Handlers.add_unless_present. destruct (existsb _ prev).
  - apply incl_refl.
  - apply incl_tl, incl_refl.
Qed.

Lemma showStoredItem_grows item w :
  incl (shirts (screen w)) (shirts (screen (after (Handlers.showStoredItem item) w)))
  /\ incl (trousers (screen w))
       (trousers (screen (after (Handlers.showStoredItem item) w)))
  /\ incl (jackets (screen w))
       (jackets (screen (after (Handlers.showStoredItem item) w))).
Proof.
  unfold Handlers.showStoredItem.
  destruct (item_category item); cbn;
    repeat split; first [apply incl_refl | apply add_unless_present_incl].
Qed.

Lemma existsb_incl {A} (f : A -> bool) (l l' : list A) :
  incl l l' -> existsb f l = true -> existsb f l' = true.
Proof.
  intros Hincl H. apply existsb_exists in H. destruct H as (x & Hin & Hx).
  apply existsb_exists. exists x. split; [now apply Hincl | exact Hx].
Qed.

Lemma listed_grows item other w :
  listed other (screen w) = true ->
  listed other (screen (after (Handlers.showStoredItem item) w)) = true.
Proof.
  destruct (showStoredItem_grows item w) as (Hs & Ht & Hj).
  unfold listed, displayed, Handlers.by_category.
  destruct (String.eqb _ "shirts"); [now apply existsb_incl |].
  destruct (String.eqb _ "pants"); [now apply existsb_incl |].
  destruct (String.eqb _ "jackets"); [now apply existsb_incl |].
  intros H. exact H.
Qed.

Lemma add_unless_present_has d prev :
  existsb (fun i => String.eqb (display_id i) (display_id d))
    (Handlers.add_unless_present d prev) = true.
Proof.
  unfold Handlers.add_unless_present.
  destruct (existsb _ prev) eqn:E; [exact E |].
  cbn. now rewrite String.eqb_refl.
Qed.

Lemma showStoredItem_lists item w :
  has_list (Handlers.category_name (item_category item)) = true ->
  listed item (screen (after (Handlers.showStoredItem item) w)) = true.
Proof.
  unfold has_list, listed, displayed, Handlers.showStoredItem.
  destruct (item_category item); cbn; intros H; try discriminate H.
  all: match goal with
       | |- existsb _ (Handlers.add_unless_present ?d ?prev) = true =>
           apply (add_unless_present_has d prev)
       end.
Qed.

Lemma showStoredItem_noop item w :
  (has_list (Handlers.category_name (item_category item)) = true ->
   listed item (screen w) = true) ->
  after (Handlers.showStoredItem item) w = w.
Proof.
  destruct w as [e n en cfg fs rq co al sc st]. destruct sc.
  unfold has_list, listed, displayed, Handlers.showStoredItem.
  destruct (item_category item); cbn; intros H; try reflexivity.
  all: specialize (H eq_refl); unfold Handlers.add_unless_present; cbn;
    rewrite H; reflexivity.
Qed.

Lemma add_unless_present_distinct d prev :
  NoDup (map display_id prev) ->
  NoDup (map display_id (Handlers.add_unless_present d prev)).
Proof.
  intros H. unfold Handlers.add_unless_present.
  destruct (existsb _ prev) eqn:E; [exact H |].
  cbn. constructor; [| exact H].
  intros Hin. apply in_map_iff in Hin. destruct Hin as (i & Hid & Hin).
  assert (Ht : existsb (fun i => String.eqb (display_id i) (display_id d)) prev = true).
  { apply existsb_exists. exists i. split; [exact Hin | now apply String.eqb_eq]. }
  rewrite Ht in E. discriminate E.
Qed.

Lemma showStoredItem_distinct item w :
  distinct_ids (screen w) ->
  distinct_ids (screen (after (Handlers.showStoredItem item) w)).
Proof.
  intros (Hs & Ht & Hj). unfold distinct_ids, Handlers.showStoredItem.
  destruct (item_category item); cbn;
    repeat split; first [assumption | now apply add_unless_present_distinct].
Qed.

Lemma for_each_shown_cons item rest w :
  after (for_each (item :: rest) Handlers.showStoredItem) w
  = after (for_each rest Handlers.showStoredItem)
      (after (Handlers.showStoredItem item) w).
Proof.
  cbn [for_each]. pose proof (showStoredItem_returns item w) as H.
  unfold outcome, after, bind in *.
  destruct (Handlers.showStoredItem item w) as [[[] | e] w1]; cbn in *;
    [reflexivity | discriminate H].
Qed.

Lemma for_each_shown_returns items : forall w,
  outcome (for_each items Handlers.showStoredItem) w = Return tt.
Proof.
  induction items as [| item rest IH]; intros w; [reflexivity |].
  cbn [for_each]. pose proof (showStoredItem_returns item w) as H.
  unfold outcome, bind in *.
  destruct (Handlers.showStoredItem item w) as [[[] | e] w1]; cbn in *;
    [apply IH | discriminate H].
Qed.

Lemma for_each_shown_grows items other : forall w,
  listed other (screen w) = true ->
  listed other (screen (after (for_each items Handlers.showStoredItem) w)) = true.
Proof.
  induction items as [| item rest IH]; intros w H; [exact H |].
  rewrite for_each_shown_cons. apply IH. now apply listed_grows.
Qed.

Lemma for_each_shown_lists items : forall w item,
  In item items ->
  has_list (Handlers.category_name (item_category item)) = true ->
  listed item (screen (after (for_each items Handlers.showStoredItem) w)) = true.
Proof.
  induction items as [| first rest IH]; intros w item Hin Hcat; [destruct Hin |].
  rewrite for_each_shown_cons. destruct Hin as [-> | Hin].
  - apply for_each_shown_grows. now apply showStoredItem_lists.
  - now apply IH.
Qed.

Lemma for_each_shown_noop items : forall w,
  (forall item, In item items ->
     has_list (Handlers.category_name (item_category item)) = true ->
     listed item (screen w) = true) ->
  after (for_each items Handlers.showStoredItem) w = w.
Proof.
  induction items as [| first rest IH]; intros w H; [reflexivity |].
  rewrite for_each_shown_cons.
  rewrite (showStoredItem_noop first w) by (apply H; now left).
  apply IH. intros item Hin. apply H. now right.
Qed.

Lemma for_each_shown_distinct items : forall w,
  distinct_ids (screen w) ->
  distinct_ids (screen (after (for_each items Handlers.showStoredItem) w)).
Proof.
  induction items as [| item rest IH]; intros w H; [exact H |].
  rewrite for_each_shown_cons. apply IH. now apply showStoredItem_distinct.
Qed.

Lemma for_each_shown_store items : forall w,
  store (after (for_each items Handlers.showStoredItem) w) = store w.
Proof.
  induction items as [| item rest IH]; intros w; [reflexivity |].
  rewrite for_each_shown_cons, IH. apply showStoredItem_store.
Qed.

(** X28. The effect that shows the stored garments can run any number
    of times: it never throws, lists every stored local garment whose
    category has a list, never lists an id twice (ids already on screen
    are skipped), leaves the store alone, and running it again changes
    nothing. *)
Theorem showStoredLocalItems_is_idempotent
    (storedClothingItems : list ClothingItem) (w : World) :
  let effect := Handlers.showStoredLocalItems storedClothingItems in
  let w' := after effect w in
  outcome effect w = Return tt
  /\ after effect w' = w'
  /\ (forall item,
        In item storedClothingItems ->
        Store.isLocal_truthy item = true ->
        has_list (Handlers.category_name (item_category item)) = true ->
        listed item (screen w') = true)
  /\ (distinct_ids (screen w) -> distinct_ids (screen w'))
  /\ store w' = store w.
Proof.
  cbv zeta. unfold Handlers.showStoredLocalItems.
  split; [apply for_each_shown_returns |].
  split; [| split; [| split]].
  - apply for_each_shown_noop. intros item Hin Hcat.
    now apply for_each_shown_lists.
  - intros item Hin Hlocal Hcat. apply for_each_shown_lists; [| exact Hcat].
    apply filter_In. now split.
  - apply for_each_shown_distinct.
  - apply for_each_shown_store.
Qed.

(** ** Saving and deleting a local garment *)

Lemma saveItem_store category frontUri backUri w :
  clothingItems (store (after (Handlers.saveItem category frontUri backUri) w))
  = (clothingItems (store w) ++ [stored_garment category frontUri backUri w])%list.
Proof.
  unfold after, Handlers.saveItem, StoreMore.addClothingItem, Store.generateId,
    Store.new_Date, bind, Date_now, random_suffix, Store.set, modify, stored_garment.
  destruct (entropy w); destruct category; reflexivity.
Qed.

Lemma saveItem_screen category frontUri backUri w :
  has_list (Handlers.category_name category) = true ->
  let cat := Handlers.category_name category in
  let w1 := after (Handlers.saveItem category frontUri backUri) w in
  displayed cat (screen w1)
  = shown_item category frontUri backUri w :: displayed cat (screen w)
  /\ selected_in cat (screen w1)
     = Some (display_id (shown_item category frontUri backUri w)).
Proof.
  unfold after, Handlers.saveItem, StoreMore.addClothingItem, Store.generateId,
    Store.new_Date, bind, Date_now, random_suffix, Store.set, modify, shown_item.
  destruct (entropy w); destruct category; intros H; try discriminate H;
    split; reflexivity.
Qed.

Lemma delete_shown category item w :
  display_category item = Handlers.category_name category ->
  has_list (Handlers.category_name category) = true ->
  selected_in (Handlers.category_name category) (screen w) = Some (display_id item) ->
  let cat := Handlers.category_name category in
  let w3 := after (Handlers.deleteLocalItem_confirmed (screen w) item) w in
  clothingItems (store w3)
  = filter (fun x => negb (String.eqb (item_id x) (display_id item)))
      (clothingItems (store w))
  /\ displayed cat (screen w3)
     = filter (fun i => negb (String.eqb (display_id i) (display_id item)))
         (displayed cat (screen w))
  /\ selected_in cat (screen w3) = None.
Proof.
  intros Hcat Hlist Hsel.
  unfold after, Handlers.deleteLocalItem_confirmed, Store.removeClothingItem,
    Store.set, modify, bind. rewrite Hcat.
  destruct category; try discriminate Hlist; cbn in Hsel |- *;
    unfold Handlers.is_selected; rewrite Hsel; cbn [StoreMore.points_to];
    rewrite String.eqb_refl; repeat split.
Qed.

Lemma for_each_shown_incl items : forall w,
  incl (shirts (screen w))
    (shirts (screen (after (for_each items Handlers.showStoredItem) w)))
  /\ incl (trousers (screen w))
       (trousers (screen (after (for_each items Handlers.showStoredItem) w)))
  /\ incl (jackets (screen w))
       (jackets (screen (after (for_each items Handlers.showStoredItem) w))).
Proof.
  induction items as [| item rest IH]; intros w.
  - repeat split; apply incl_refl.
  - rewrite for_each_shown_cons.
    destruct (showStoredItem_grows item w) as (A & B & C).
    destruct (IH (after (Handlers.showStoredItem item) w)) as (A' & B' & C').
    repeat split; eapply incl_tran; eassumption.
Qed.

Lemma showStoredItem_selections item w :
  selectedShirt (screen (after (Handlers.showStoredItem item) w))
  = selectedShirt (screen w)
  /\ selectedTrousers (screen (after (Handlers.showStoredItem item) w))
     = selectedTrousers (screen w)
  /\ selectedJacket (screen (after (Handlers.showStoredItem item) w))
     = selectedJacket (screen w).
Proof.
  unfold Handlers.showStoredItem.
  destruct (item_category item); split; [| split | | split | | split | | split
    | | split | | split | | split | | split | | split | | split]; reflexivity.
Qed.

Lemma for_each_shown_selections items : forall w,
  selectedShirt (screen (after (for_each items Handlers.showStoredItem) w))
  = selectedShirt (screen w)
  /\ selectedTrousers (screen (after (for_each items Handlers.showStoredItem) w))
     = selectedTrousers (screen w)
  /\ selectedJacket (screen (after (for_each items Handlers.showStoredItem) w))
     = selectedJacket (screen w).
Proof.
  induction items as [| item rest IH]; intros w.
  - split; [| split]; reflexivity.
  - rewrite for_each_shown_cons.
    destruct (showStoredItem_selections item w) as (A & B & C).
    destruct (IH (after (Handlers.showStoredItem item) w)) as (A' & B' & C').
    split; [| split]; congruence.
Qed.

(** The lists in which no entry has the id [x]. *)
Lemma add_unless_present_absent d prev x :
  display_id d <> x ->
  (forall i, In i prev -> display_id i <> x) ->
  forall i, In i (Handlers.add_unless_present d prev) -> display_id i <> x.
Proof.
  intros Hd Hprev i. unfold Handlers.add_unless_present.
  destruct (existsb _ prev); [apply Hprev |].
  intros [<- | Hin]; [exact Hd | now apply Hprev].
Qed.

Lemma showStoredItem_absent item x w :
  item_id item <> x ->
  ((forall i, In i (shirts (screen w)) -> display_id i <> x) ->
   forall i, In i (shirts (screen (after (Handlers.showStoredItem item) w))) ->
             display_id i <> x)
  /\ ((forall i, In i (trousers (screen w)) -> display_id i <> x) ->
      forall i, In i (trousers (screen (after (Handlers.showStoredItem item) w))) ->
                display_id i <> x)
  /\ ((forall i, In i (jackets (screen w)) -> display_id i <> x) ->
      forall i, In i (jackets (screen (after (Handlers.showStoredItem item) w))) ->
                display_id i <> x).
Proof.
  intros Hid. unfold Handlers.showStoredItem.
  destruct (item_category item); cbn;
    (split; [| split]); intros H; try exact H;
    apply add_unless_present_absent; assumption.
Qed.

Lemma for_each_shown_absent items x :
  (forall item, In item items -> item_id item <> x) ->
  forall w,
    ((forall i, In i (shirts (screen w)) -> display_id i <> x) ->
     forall i, In i (shirts (screen (after (for_each items Handlers.showStoredItem) w))) ->
               display_id i <> x)
    /\ ((forall i, In i (trousers (screen w)) -> display_id i <> x) ->
        forall i,
          In i (trousers (screen (after (for_each items Handlers.showStoredItem) w))) ->
          display_id i <> x)
    /\ ((forall i, In i (jackets (screen w)) -> display_id i <> x) ->
        forall i,
          In i (jackets (screen (after (for_each items Handlers.showStoredItem) w))) ->
          display_id i <> x).
Proof.
  induction items as [| item rest IH]; intros Hids w.
  - split; [| split]; intros H; exact H.
  - rewrite for_each_shown_cons.
    destruct (@showStoredItem_absent item x w (Hids item (or_introl eq_refl)))
      as (A & B & C).
    destruct (IH (fun y Hy => Hids y (or_intror Hy))
                (after (Handlers.showStoredItem item) w)) as (A' & B' & C').
    split; [| split]; intros H; [apply A', A | apply B', B | apply C', C]; exact H.
Qed.

Lemma existsb_filter_other (x y : string) (l : list DisplayItem) :
  x <> y ->
  existsb (fun i => String.eqb (display_id i) x) l = true ->
  existsb (fun i => String.eqb (display_id i) x)
    (filter (fun i => negb (String.eqb (display_id i) y)) l) = true.
Proof.
  intros Hne H. apply existsb_exists in H. destruct H as (i & Hin & Hi).
  apply existsb_exists. exists i. split; [| exact Hi].
  apply filter_In. split; [exact Hin |].
  apply String.eqb_eq in Hi. apply Bool.negb_true_iff, String.eqb_neq. congruence.
Qed.

(** X26. A garment saved with [saveItem] is shown under the id
    [local-<time>] but stored under a generated id. When the two ids
    differ, the effect on the stored garments, which runs after the
    store has changed, lists the garment a second time, under its store
    id. Deleting the entry shown under [local-<time>] then removes that
    entry and clears the selection, but nothing else: the garment is
    still in the store and in the persisted subset, and it is still
    listed under its store id. *)
Theorem deleting_a_just_saved_garment_keeps_it_stored
    (w : World) (category : ClothingCategory) (frontUri : string)
    (backUri : option string) :
  let shown := shown_item category frontUri backUri w in
  let stored := stored_garment category frontUri backUri w in
  let cat := Handlers.category_name category in
  item_id stored <> display_id shown ->
  has_list cat = true ->
  let w1 := after (Handlers.saveItem category frontUri backUri) w in
  let w2 := after (stored_items_effect w1) w1 in
  let w3 := after (Handlers.deleteLocalItem_confirmed (screen w2) shown) w2 in
  let w4 := after (stored_items_effect w3) w3 in
  clothingItems (store w1) = (clothingItems (store w) ++ [stored])%list
  /\ In shown (displayed cat (screen w2))
  /\ listed stored (screen w2) = true
  /\ (forall i, In i (displayed cat (screen w4)) -> display_id i <> display_id shown)
  /\ selected_in cat (screen w4) = None
  /\ listed stored (screen w4) = true
  /\ In stored (clothingItems (store w4))
  /\ In stored (persisted_clothingItems (Store.partialize (store w4))).
Proof.
  intros shown stored cat Hne Hlist w1 w2 w3 w4.
  (* after [saveItem] *)
  assert (S1 : clothingItems (store w1) = (clothingItems (store w) ++ [stored])%list)
    by apply saveItem_store.
  destruct (@saveItem_screen category frontUri backUri w Hlist) as [D1 Sel1].
  fold shown cat w1 in D1, Sel1.
  (* after the effect *)
  assert (Hlocal : In stored (filter Store.isLocal_truthy (clothingItems (store w1)))).
  { apply filter_In. split; [| reflexivity].
    rewrite S1. apply in_or_app. right. now left. }
  assert (S2 : store w2 = store w1) by apply for_each_shown_store.
  assert (L2 : listed stored (screen w2) = true)
    by (apply for_each_shown_lists; assumption).
  destruct (for_each_shown_incl
              (filter Store.isLocal_truthy (clothingItems (store w1))) w1)
    as (Is & It & Ij).
  destruct (for_each_shown_selections
              (filter Store.isLocal_truthy (clothingItems (store w1))) w1)
    as (Ss & St & Sj).
  fold (Handlers.showStoredLocalItems (clothingItems (store w1))) in Is, It, Ij, Ss, St, Sj.
  fold (stored_items_effect w1) in Is, It, Ij, Ss, St, Sj.
  fold w2 in Is, It, Ij, Ss, St, Sj.
  assert (D2 : In shown (displayed cat (screen w2))).
  { assert (Hin : In shown (displayed cat (screen w1))) by (rewrite D1; now left).
    revert Hin. unfold displayed, cat.
    destruct category; try discriminate Hlist; cbn;
      [apply Is | apply It | apply Ij]. }
  assert (Sel2 : selected_in cat (screen w2) = Some (display_id shown)).
  { rewrite <- Sel1. unfold selected_in, cat.
    destruct category; try discriminate Hlist; cbn; assumption. }
  clearbody w2.
  (* after the deletion *)
  destruct (@delete_shown category shown w2 eq_refl Hlist Sel2) as (S3 & D3 & Sel3).
  fold cat w3 in S3, D3, Sel3.
  assert (L3 : listed stored (screen w3) = true).
  { unfold listed in *. change (Handlers.category_name (item_category stored)) with cat in *.
    rewrite D3. apply existsb_filter_other; assumption. }
  assert (In3 : In stored (clothingItems (store w3))).
  { rewrite S3, S2. apply filter_In. split.
    - rewrite S1. apply in_or_app. right. now left.
    - apply Bool.negb_true_iff, String.eqb_neq. exact Hne. }
  assert (A3 : forall i, In i (displayed cat (screen w3)) ->
                         display_id i <> display_id shown).
  { intros i Hi. rewrite D3 in Hi. apply filter_In in Hi. destruct Hi as [_ Hi].
    apply Bool.negb_true_iff in Hi. now apply String.eqb_neq. }
  assert (Ids3 : forall item,
             In item (filter Store.isLocal_truthy (clothingItems (store w3))) ->
             item_id item <> display_id shown).
  { intros item Hi. apply filter_In in Hi. destruct Hi as [Hi _].
    rewrite S3 in Hi. apply filter_In in Hi. destruct Hi as [_ Hi].
    apply Bool.negb_true_iff in Hi. now apply String.eqb_neq. }
  (* after the effect *)
  assert (S4 : store w4 = store w3) by apply for_each_shown_store.
  assert (L4 : listed stored (screen w4) = true) by now apply for_each_shown_grows.
  destruct (@for_each_shown_absent _ _ Ids3 w3) as (As & At & Aj).
  destruct (for_each_shown_selections
              (filter Store.isLocal_truthy (clothingItems (store w3))) w3)
    as (Ss4 & St4 & Sj4).
  fold (Handlers.showStoredLocalItems (clothingItems (store w3)))
    in As, At, Aj, Ss4, St4, Sj4.
  fold (stored_items_effect w3) in As, At, Aj, Ss4, St4, Sj4.
  fold w4 in As, At, Aj, Ss4, St4, Sj4.
  clearbody w4 w3.
  split; [exact S1 |]. split; [exact D2 |]. split; [exact L2 |].
  split; [| split; [| split; [exact L4 | split]]].
  - revert A3. unfold displayed, cat.
    destruct category; try discriminate Hlist; cbn; [apply As | apply At | apply Aj].
  - rewrite <- Sel3. unfold selected_in, cat.
    destruct category; try discriminate Hlist; cbn; assumption.
  - now rewrite S4.
  - unfold Store.partialize. cbn [persisted_clothingItems].
    apply filter_In. split; [now rewrite S4 | reflexivity].
Qed.

Lemma deleting_a_just_saved_garment_witness :
  let saved := after (Handlers.saveItem cat_shirts "file:///photos/shirt.jpg" None)
                 SamplesMore.world_success in
  let seen := after (stored_items_effect saved) saved in
  let deleted :=
    after (Handlers.deleteLocalItem_confirmed (screen seen)
             (shown_item cat_shirts "file:///photos/shirt.jpg" None
                SamplesMore.world_success)) seen in
  map display_id (shirts (screen (after (stored_items_effect deleted) deleted)))
  = ["loyw3v28-k3x9q2m1z"; "shirts-1"]
  /\ In (stored_garment cat_shirts "file:///photos/shirt.jpg" None
           SamplesMore.world_success)
       (persisted_clothingItems
          (Store.partialize (store (after (stored_items_effect deleted) deleted)))).
Proof.
  split; [reflexivity |].
  apply (@deleting_a_just_saved_garment_keeps_it_stored SamplesMore.world_success
           cat_shirts "file:///photos/shirt.jpg" None).
  - intros E. vm_compute in E. discriminate E.
  - reflexivity.
Defined.

End HandlerFacts.
